(** * Student-record persistence and grading core of [app.py]

    A shallow embedding of the grade policy, the record store
    ([load_students], [save_students], [load_data]) and the mutation
    handlers of the dashboard, with the properties of the specification
    stated and proved over it.

    Conventions.
    - A Python number (the [int] and finite [float] values that marks take)
      is the rational it denotes, in [Q]; Python's [>=], [<], [!=] on
      numbers compare those rationals exactly, so they are [Qle_bool] and
      [Qeq_bool], and [max] and [min] return one of their arguments.
      What [+], [sum] and [/] return on floats is rounded: the handlers
      take these three operations as an argument [fl], and the theorems
      about them hold for every [fl]; [double] is the arithmetic of
      binary64 to run examples with.  A percentage that a page only
      displays is the exact quotient.  The infinities and NaN are no
      numbers of the model.
    - A Python [dict] whose iteration order the code relies on (it is
      written back by [json.dump]) is an association list with the update
      discipline of [dict]: a present key is overwritten in place, a new
      key goes last.
    - A reference to a record of the loaded list is its index in that
      list; mutating the referenced object is [alter] at that index.
    - A string is its sequence of ASCII characters; [strip] removes the
      ASCII white space.
    - A page handler is one run of the script: it takes the values of its
      widgets and the pressed button as arguments, and [st.rerun()] ends
      it.  A select box returns one of its options.
    - The store is modelled twice: as the raw file that [load_students]
      and [load_data] open (any bytes, any JSON value), and as the list of
      records of a file that holds student objects, on which the handlers
      work; [load_students_refines] relates the two loaders.
    - The teacher accounts of [auth.py] and the scripts
      [assign_courses.py] and [generate_students.py] follow the handlers.
      What the code takes from outside is an argument: the time stamp
      ([now], [today]), the salt that [secrets.token_hex] draws, the
      digest [sha256_hex], and what [random] returns ([sample],
      [random]). *)

From Stdlib Require Import QArith Qround Qfield Lqa Ascii String DecimalString.
From stdpp Require Import base option list strings gmap.

(** ** Grade calculation *)

(** Python's [a >= b] on numbers. *)
Definition py_ge (a b : Q) : bool := Qle_bool b a.

(** Python's [a != b] on numbers. *)
Definition py_ne (a b : Q) : bool := negb (Qeq_bool a b).

Definition calculate_grade (marks : Q) : string :=
  if py_ge marks 90 then "A"
  else if py_ge marks 80 then "B"
  else if py_ge marks 70 then "C"
  else if py_ge marks 60 then "D"
  else "F".

(** ** The backing file and the JSON values it holds *)

(** What [json.load] builds.  Numbers are finite; an object keeps its
    keys in file order. *)
#[local] Set Warnings "-register-all".
Inductive json :=
| JNull
| JBool (b : bool)
| JNum (q : Q)
| JStr (s : string)
| JArr (items : list json)
| JObj (fields : list (string * json)).

(** The states of a backing file that [open] and [json.load] tell apart:
    no file; bytes that are not UTF-8 ([read] raises [UnicodeDecodeError]);
    text that is not JSON ([json.JSONDecodeError]); text that parses. *)
Inductive file :=
| Absent
| Undecodable
| Unparseable
| Parsed (v : json).

(** The exceptions that the store code can meet. *)
Inductive exn :=
| TypeError | ValueError | KeyError | UnicodeDecodeError | OverflowError.

Inductive result (A : Type) :=
| Ok (a : A)
| Raise (e : exn).
Arguments Ok {A} a.
Arguments Raise {A} e.

#[export] Instance result_bind : MBind result := λ A B k r,
  match r with
  | Ok a => k a
  | Raise e => Raise e
  end.

(** *** Dictionaries *)

Fixpoint dict_get {V} (k : string) (d : list (string * V)) : option V :=
  match d with
  | [] => None
  | (k', v) :: d' => if bool_decide (k' = k) then Some v else dict_get k d'
  end.

(** [d[k] = v]: a present key keeps its place, a new key goes last. *)
Fixpoint dict_set {V} (k : string) (v : V) (d : list (string * V))
  : list (string * V) :=
  match d with
  | [] => [(k, v)]
  | (k', v') :: d' =>
      if bool_decide (k' = k) then (k', v) :: d' else (k', v') :: dict_set k v d'
  end.

Definition dict_has {V} (k : string) (d : list (string * V)) : bool :=
  bool_decide (is_Some (dict_get k d)).

(** *** The Python operations the loader applies to a loaded value *)

Definition chars (s : string) : list json :=
  (λ c, JStr (String c EmptyString)) <$> list_ascii_of_string s.

(** [for s in v]: the elements of a list, the keys of a dict, the
    characters of a string; anything else is not iterable. *)
Definition py_iter (v : json) : result (list json) :=
  match v with
  | JArr items => Ok items
  | JObj fields => Ok ((λ kv, JStr kv.1) <$> fields)
  | JStr s => Ok (chars s)
  | _ => Raise TypeError
  end.

Definition is_str (k : string) (v : json) : bool :=
  match v with
  | JStr s => bool_decide (s = k)
  | _ => false
  end.

(** [k in v] for a string [k]: key of a dict, substring of a string,
    element of a list. *)
Definition py_contains (k : string) (v : json) : result bool :=
  match v with
  | JObj fields => Ok (dict_has k fields)
  | JStr s => Ok (bool_decide (is_Some (String.index 0 k s)))
  | JArr items => Ok (existsb (is_str k) items)
  | _ => Raise TypeError
  end.

(** [v[k]] for a string [k]. *)
Definition py_getitem (v : json) (k : string) : result json :=
  match v with
  | JObj fields =>
      match dict_get k fields with
      | Some x => Ok x
      | None => Raise KeyError
      end
  | _ => Raise TypeError
  end.

(** [v[k] = x] for a string [k]. *)
Definition py_setitem (v : json) (k : string) (x : json) : result json :=
  match v with
  | JObj fields => Ok (JObj (dict_set k x fields))
  | _ => Raise TypeError
  end.

(** The least integer that [float] refuses: [2^1024 - 2^970] is halfway
    between the greatest double and [2^1024], and rounds to the latter. *)
Definition float_overflow : Z := (2 ^ 1024 - 2 ^ 970)%Z.

(** The number is one that [float] converts: a float is, and an integer
    is when its magnitude is below [float_overflow]. *)
Definition in_float_range (q : Q) : bool :=
  negb (Qle_bool (inject_Z float_overflow) q)
  && negb (Qle_bool q (inject_Z (- float_overflow))).

(** [float(v)].  The reading of a numeral held in a string is Python's
    own and is taken as [float_of_str] ([None]: [ValueError]).  An
    integer that is too large raises [OverflowError].  An integer beyond
    [2^53] is rounded to the nearest double; the loader takes only the
    letter of the result, which is the letter of the integer itself (the
    thresholds of [calculate_grade] are doubles and rounding keeps the
    order), so the number is returned as it is. *)
Definition py_float (float_of_str : string → option Q) (v : json) : result Q :=
  match v with
  | JNum q => if in_float_range q then Ok q else Raise OverflowError
  | JBool b => Ok (if b then 1 else 0)%Q
  | JStr s =>
      match float_of_str s with
      | Some q => Ok q
      | None => Raise ValueError
      end
  | _ => Raise TypeError
  end.

(** *** [init_data_file], [load_students], [save_students], [load_data]
    on an arbitrary file *)

Definition init_data_file (f : file) : file :=
  match f with
  | Absent => Parsed (JArr [])
  | _ => f
  end.

(** [with open(...) as f: students = json.load(f)] under
    [except (json.JSONDecodeError, FileNotFoundError)]. *)
Definition read_json (f : file) : result json :=
  match f with
  | Parsed v => Ok v
  | Unparseable => Ok (JArr [])
  | Absent => Ok (JArr [])
  | Undecodable => Raise UnicodeDecodeError
  end.

(** The [try] block of the loop with its [except (ValueError, TypeError)]. *)
Definition backfill_grade (float_of_str : string → option Q) (s : json)
  : result json :=
  let attempt :=
    v ← py_getitem s "marks";
    q ← py_float float_of_str v;
    py_setitem s "grade" (JStr (calculate_grade q)) in
  match attempt with
  | Ok s' => Ok s'
  | Raise ValueError | Raise TypeError => py_setitem s "grade" (JStr "F")
  | Raise e => Raise e
  end.

(** One turn of [for s in students]; the flag is [rerecord]. *)
Definition backfill_json (float_of_str : string → option Q)
  (s : json) (rerecord : bool) : result (json * bool) :=
  has_grade ← py_contains "grade" s;
  has_marks ← (if has_grade : bool then Ok false else py_contains "marks" s);
  step1 ← (if negb has_grade && has_marks
           then s' ← backfill_grade float_of_str s; Ok (s', true)
           else Ok (s, rerecord));
  let '(s1, r1) := (step1 : json * bool) in
  has_rc ← py_contains "registered_courses" s1;
  if has_rc : bool then Ok (s1, r1)
  else s2 ← py_setitem s1 "registered_courses" (JArr []); Ok (s2, true).

Fixpoint backfill_loop (float_of_str : string → option Q)
  (items : list json) (rerecord : bool) : result (list json * bool) :=
  match items with
  | [] => Ok ([], rerecord)
  | s :: rest =>
      turn ← backfill_json float_of_str s rerecord;
      done ← backfill_loop float_of_str rest turn.2;
      Ok (turn.1 :: done.1, done.2)
  end.

(** The loop mutates the elements of a list in place; the keys of a dict
    and the characters of a string are temporaries. *)
Definition after_loop (students : json) (items : list json) : json :=
  match students with
  | JArr _ => JArr items
  | _ => students
  end.

(** [load_students()] on file [f]: what it returns or raises, and the
    file it leaves. *)
Definition load_students_file (float_of_str : string → option Q) (f : file)
  : result json * file :=
  let f0 := init_data_file f in
  match read_json f0 with
  | Raise e => (Raise e, f0)
  | Ok students =>
      match (items ← py_iter students;
             backfill_loop float_of_str items false) : result (list json * bool) with
      | Raise e => (Raise e, f0)
      | Ok (items', rerecord) =>
          let students' := after_loop students items' in
          (Ok students', if rerecord then Parsed students' else f0)
      end
  end.


(** ** Student and course records of a well-formed store *)

(** An entry of [student["attendance"][course_id]]. *)
Module Entry.
Record t := mk { date : string; status : string; time : string }.
End Entry.

(** A record of [students.json] that has the keys every creation path
    writes ([name], [roll_no], [marks]); the keys that may be missing are
    options.  [marks] is a number that [float] converts: a float, or an
    integer below [float_overflow]. *)
Module Student.
Record t := mk {
  name : string;
  roll_no : string;
  marks : Q;
  grade : option string;
  registered_courses : option (list string);
  attendance : option (list (string * list Entry.t));
  course_grades : option (list (string * Q)) }.

Definition set_marks (m : Q) (s : t) : t :=
  mk (name s) (roll_no s) m (grade s) (registered_courses s)
     (attendance s) (course_grades s).
Definition set_grade (g : string) (s : t) : t :=
  mk (name s) (roll_no s) (marks s) (Some g) (registered_courses s)
     (attendance s) (course_grades s).
Definition set_registered_courses (c : list string) (s : t) : t :=
  mk (name s) (roll_no s) (marks s) (grade s) (Some c)
     (attendance s) (course_grades s).
Definition set_attendance (a : list (string * list Entry.t)) (s : t) : t :=
  mk (name s) (roll_no s) (marks s) (grade s) (registered_courses s)
     (Some a) (course_grades s).
Definition set_course_grades (c : list (string * Q)) (s : t) : t :=
  mk (name s) (roll_no s) (marks s) (grade s) (registered_courses s)
     (attendance s) (Some c).

(** [student.get("registered_courses", [])] *)
Definition get_registered_courses (s : t) : list string :=
  default [] (registered_courses s).
(** [student.get("course_grades", {})] *)
Definition get_course_grades (s : t) : list (string * Q) :=
  default [] (course_grades s).
End Student.

(** A record of [courses.json]; [instructor], [credits], [schedule] and
    [room] are only displayed. *)
Module Course.
Record t := mk { course_id : string; course_name : string; max_students : Z }.
End Course.

(** *** Reading a record off its JSON object

    The handlers use the records of a file that holds student objects;
    [student_of] reads such an object ([None] when a key the handlers
    subscript is missing or of another type). *)

Definition as_str (v : json) : option string :=
  match v with
  | JStr s => Some s
  | _ => None
  end.

Definition as_num (v : json) : option Q :=
  match v with
  | JNum q => Some q
  | _ => None
  end.

Definition as_list {A} (f : json → option A) (v : json) : option (list A) :=
  match v with
  | JArr items => mapM f items
  | _ => None
  end.

Definition as_dict {A} (f : json → option A) (v : json)
  : option (list (string * A)) :=
  match v with
  | JObj fields => mapM (λ kv, x ← f kv.2; Some (kv.1, x)) fields
  | _ => None
  end.

Definition as_entry (v : json) : option Entry.t :=
  match v with
  | JObj o =>
      date ← dict_get "date" o ≫= as_str;
      status ← dict_get "status" o ≫= as_str;
      time ← dict_get "time" o ≫= as_str;
      Some (Entry.mk date status time)
  | _ => None
  end.

(** A key that may be missing. *)
Definition optional {A} (f : json → option A) (v : option json)
  : option (option A) :=
  match v with
  | None => Some None
  | Some x => Some <$> f x
  end.

Definition student_of (o : list (string * json)) : option Student.t :=
  name ← dict_get "name" o ≫= as_str;
  roll_no ← dict_get "roll_no" o ≫= as_str;
  marks ← dict_get "marks" o ≫= as_num;
  grade ← optional as_str (dict_get "grade" o);
  registered_courses ←
    optional (as_list as_str) (dict_get "registered_courses" o);
  attendance ←
    optional (as_dict (as_list as_entry)) (dict_get "attendance" o);
  course_grades ← optional (as_dict as_num) (dict_get "course_grades" o);
  Some (Student.mk name roll_no marks grade registered_courses attendance
                   course_grades).

(** ** Strings *)

(** [str.isspace] on the ASCII range. *)
Definition is_space (c : ascii) : bool :=
  let n := nat_of_ascii c in
  bool_decide (9 ≤ n ≤ 13 ∨ 28 ≤ n ≤ 32)%nat.

Fixpoint lstrip (s : string) : string :=
  match s with
  | String c s' => if is_space c then lstrip s' else s
  | EmptyString => EmptyString
  end.

(** [s.strip()] *)
Definition strip (s : string) : string :=
  String.rev (lstrip (String.rev (lstrip s))).

(** Truth value of a string: non-empty. *)
Definition nonempty (s : string) : bool :=
  match s with
  | EmptyString => false
  | _ => true
  end.

(** ** Widgets *)

(** [options = {label(x): value(x) for x in xs}] followed by
    [options[st.selectbox(..., list(options.keys()))]]: the widget returns
    one of the keys, and a key written twice holds its last value. *)
Definition selectbox {V} (options : list (string * V)) (choice : string)
  : option V :=
  dict_get choice (reverse options).

(** [f"{s['roll_no']} - {s['name']}"] *)
Definition student_label (s : Student.t) : string :=
  Student.roll_no s +:+ " - " +:+ Student.name s.

(** [f"{c['course_id']} - {c['course_name']}"] *)
Definition course_label (c : Course.t) : string :=
  Course.course_id c +:+ " - " +:+ Course.course_name c.

(** What the handler shows. *)
Inductive notice :=
| Error (msg : string)
| Warning (msg : string)
| Info (msg : string)
| Success (msg : string)
| Quiet.

(** ** The store: [students.json] and the writes made to it *)

(** The records the file holds and the number of times [save_students]
    has written it. *)
Record disk := Disk { students_json : list Student.t; writes : nat }.

(** A handler is a computation over the store. *)
Definition IO (A : Type) : Type := disk → A * disk.

#[export] Instance IO_ret : MRet IO := λ A a d, (a, d).

#[export] Instance IO_bind : MBind IO := λ A B k c d,
  let (a, d') := c d in k a d'.

Definition save_students (students : list Student.t) : IO unit :=
  λ d, (tt, Disk students (S (writes d))).

(** The body of the loop of [load_students] on a well-formed record. *)
Definition backfill (s : Student.t) (rerecord : bool) : Student.t * bool :=
  let (s1, r1) :=
    match Student.grade s with
    | None => (Student.set_grade (calculate_grade (Student.marks s)) s, true)
    | Some _ => (s, rerecord)
    end in
  match Student.registered_courses s1 with
  | None => (Student.set_registered_courses [] s1, true)
  | Some _ => (s1, r1)
  end.

Fixpoint backfill_all (students : list Student.t) (rerecord : bool)
  : list Student.t * bool :=
  match students with
  | [] => ([], rerecord)
  | s :: rest =>
      let (s', r) := backfill s rerecord in
      let (rest', r') := backfill_all rest r in
      (s' :: rest', r')
  end.

Definition load_students : IO (list Student.t) :=
  λ d,
    let (students, rerecord) := backfill_all (students_json d) false in
    if rerecord then (save_students students ≫= λ _, mret students) d
    else (students, d).

(** ** Numbers *)

(** Python's [a < b] on numbers. *)
Definition py_lt (a b : Q) : bool := negb (Qle_bool b a).

(** [max(a, b)] and [min(a, b)]: the first argument wins a tie. *)
Definition py_max (a b : Q) : Q := if py_lt a b then b else a.
Definition py_min (a b : Q) : Q := if py_lt b a then b else a.

(** [max(0.0, min(100.0, x))] *)
Definition clamp (x : Q) : Q := py_max 0 (py_min 100 x).

(** *** Floating-point arithmetic

    What the interpreter returns for [x + y], [sum(xs)] and [x / y] on
    the numbers [x], [y] and [xs]. *)
Module FloatOps.
Record t := mk {
  add : Q → Q → Q;
  sum : list Q → Q;
  div : Q → Q → Q }.
End FloatOps.

(** [sum(d.values()) / len(d)] *)
Definition mean (fl : FloatOps.t) (d : list (string * Q)) : Q :=
  FloatOps.div fl (FloatOps.sum fl d.*2) (inject_Z (Z.of_nat (length d))).

(** Arithmetic in which every result is rounded by [rnd]; [sum] adds from
    [0], left to right. *)
Definition rounded (rnd : Q → Q) : FloatOps.t :=
  FloatOps.mk (λ x y, rnd (x + y)%Q)
              (λ xs, fold_left (λ acc x, rnd (acc + x)%Q) xs 0%Q)
              (λ x y, rnd (x / y)%Q).

(** Arithmetic without rounding. *)
Definition exact : FloatOps.t := rounded (λ x, x).

(** [2^e] *)
Definition pow2 (e : Z) : Q :=
  if (0 <=? e)%Z then inject_Z (2 ^ e) else / inject_Z (2 ^ (- e)).

(** The [e] with [2^e <= q < 2^(e+1)], for a positive [q]. *)
Definition binade (q : Q) : Z :=
  let e := (Z.log2 (Qnum q) - Z.log2 (Zpos (Qden q)))%Z in
  if Qle_bool (pow2 e) q then e else (e - 1)%Z.

(** The nearest integer, the even one of two that are equally near. *)
Definition round_half_even (x : Q) : Z :=
  let f := Qfloor x in
  match (x - inject_Z f ?= 1 # 2)%Q with
  | Lt => f
  | Gt => (f + 1)%Z
  | Eq => if Z.even f then f else (f + 1)%Z
  end.

(** The double nearest to [q], the one with the even significand of two
    that are equally near: 53 significant bits, exponents from -1022.
    A number beyond the greatest double rounds to no number of the
    model; the function is used below that. *)
Definition round_positive (q : Q) : Q :=
  let quantum := pow2 (Z.max (binade q) (-1022) - 52) in
  Qred (inject_Z (round_half_even (q / quantum)) * quantum).

Definition round_double (q : Q) : Q :=
  match Qnum q with
  | Z0 => 0
  | Zpos _ => round_positive q
  | Zneg _ => - round_positive (- q)
  end.

(** The arithmetic of doubles. *)
Definition double : FloatOps.t := rounded round_double.

(** The double that [89.99999999999999] denotes: [90 - 2^-46]. *)
Definition just_below_90 : Q := 6333186975989759 # 70368744177664.

(** A mean of a column to run examples with: the sum divided by the
    count, in the arithmetic [fl]. *)
Definition mean_of (fl : FloatOps.t) (xs : list Q) : Q :=
  FloatOps.div fl (FloatOps.sum fl xs) (inject_Z (Z.of_nat (length xs))).

(** ** Attendance *)

(** [mark_attendance(student, course_id, date, status)]; [now] is
    [pd.Timestamp.now().strftime("%H:%M:%S")] at the call. *)
Definition mark_attendance (now : string) (student : Student.t)
  (course_id date status : string) : Student.t :=
  let attendance := default [] (Student.attendance student) in
  let attendance :=
    if dict_has course_id attendance then attendance
    else dict_set course_id [] attendance in
  let records := default [] (dict_get course_id attendance) in
  match list_find (λ r, Entry.date r = date) records with
  | Some (i, _) =>
      let records' := alter (λ r, Entry.mk (Entry.date r) status now) i records in
      Student.set_attendance (dict_set course_id records' attendance) student
  | None =>
      let records' := records ++ [Entry.mk date status now] in
      Student.set_attendance (dict_set course_id records' attendance) student
  end.

(** ** Core functionalities *)

Definition add_student (name roll_no : string) (marks : Q) : IO notice :=
  students ← load_students;
  if negb (nonempty (strip name)) then mret (Error "Name cannot be empty!")
  else if negb (nonempty (strip roll_no))
  then mret (Error "Roll number cannot be empty!")
  else if py_lt marks 0 || py_lt 100 marks
  then mret (Error "Marks must be between 0 and 100!")
  else
    match list_find (λ s, Student.roll_no s = strip roll_no) students with
    | Some (_, student) =>
        mret (Warning ("Roll number " +:+ roll_no +:+
                       " already exists for student: " +:+ Student.name student))
    | None =>
        save_students
          (students ++
           [Student.mk (strip name) (strip roll_no) marks
                       (Some (calculate_grade marks)) None None None]);;
        mret (Success ("Student '" +:+ name +:+ "' added successfully!"))
    end.

(** A row of the uploaded table restricted to the three required
    columns.  [name] and [roll_no] hold [str(cell)], or [None] for a
    blank cell; [marks] holds what [pd.to_numeric(..., errors='coerce')]
    makes of the cell, [None] for a blank or non-numeric one. *)
Module Row.
Record t := mk { name : option string; roll_no : option string; marks : option Q }.
End Row.

(** What [upload_file] finds before it looks at the rows. *)
Inductive upload :=
| NoFile
| Unsupported
| ReadFailure
| MissingColumns
| Frame (rows : list Row.t).

(** A row that survived cleaning, with its [grade] column. *)
Module Clean.
Record t := mk { name : string; roll_no : string; marks : Q; grade : string }.
End Clean.

(** [dropna], [to_numeric], [dropna(subset=["marks"])], the range filter
    and the [grade] column, row by row. *)
Definition clean_row (r : Row.t) : option Clean.t :=
  name ← Row.name r;
  roll_no ← Row.roll_no r;
  marks ← Row.marks r;
  if py_ge marks 0 && py_ge 100 marks
  then Some (Clean.mk name roll_no marks (calculate_grade marks))
  else None.

Definition clean (rows : list Row.t) : list Clean.t := omap clean_row rows.

(** The state of the import loop: the list being extended and the
    counters. *)
Module Tally.
Record t := mk {
  students : list Student.t;
  added : nat;
  skipped : nat;
  errors : list string }.
End Tally.

(** One turn of [for index, row in df.iterrows()].  The conversions in
    the [try] cannot fail on a cleaned row, so [errors] stays as it is. *)
Definition import_row (existing_rolls : gset string) (acc : Tally.t)
  (row : Clean.t) : Tally.t :=
  let roll_no := strip (Clean.roll_no row) in
  if bool_decide (roll_no ∈ existing_rolls)
  then Tally.mk (Tally.students acc) (Tally.added acc)
                (S (Tally.skipped acc)) (Tally.errors acc)
  else Tally.mk (Tally.students acc ++
                 [Student.mk (strip (Clean.name row)) roll_no (Clean.marks row)
                             (Some (Clean.grade row)) None None None])
                (S (Tally.added acc)) (Tally.skipped acc) (Tally.errors acc).

(** [upload_file(uploaded_file)]; the counts are returned next to what is
    shown ([None] when the loop was not reached). *)
Definition upload_file (uploaded_file : upload)
  : IO (notice * option Tally.t) :=
  match uploaded_file with
  | NoFile => mret (Quiet, None)
  | Unsupported =>
      mret (Error "Unsupported file type. Please upload .csv or .xlsx files.", None)
  | ReadFailure => mret (Error "Failed to read file", None)
  | MissingColumns => mret (Error "Missing required columns", None)
  | Frame rows =>
      let df := clean rows in
      match df with
      | [] => mret (Warning "No valid records found in the file.", None)
      | _ =>
          existing_students ← load_students;
          let existing_rolls : gset string :=
            list_to_set (Student.roll_no <$> existing_students) in
          let result :=
            fold_left (import_row existing_rolls) df
                      (Tally.mk existing_students 0 0 []) in
          if bool_decide (0 < Tally.added result)%nat
          then save_students (Tally.students result);;
               mret (Success "File processed successfully!", Some result)
          else mret (Warning "No new students were added.", Some result)
      end
  end.

(** The record a label of a selectbox stands for, with its place in the
    loaded list. *)
Definition student_refs (students : list Student.t)
  : list (string * (nat * Student.t)) :=
  imap (λ i s, (student_label s, (i, s))) students.

(** [update_student_marks()]: [selected] is the choice of
    [select_update_student], [new_marks] the value of [new_marks_input],
    [button] whether "Update Marks" was pressed. *)
Definition update_student_marks (selected : string) (new_marks : Q)
  (button : bool) : IO notice :=
  students ← load_students;
  match students with
  | [] => mret (Info "No students to update.")
  | _ =>
      let student_options :=
        (λ s, (student_label s, Student.roll_no s)) <$> students in
      match selectbox student_options selected with
      | None => mret Quiet
      | Some roll_no =>
          match list_find (λ s, Student.roll_no s = roll_no) students with
          | None => mret Quiet
          | Some (i, current_student) =>
              let current_marks := Student.marks current_student in
              if button then
                if py_ne new_marks current_marks then
                  save_students
                    (alter (λ s, Student.set_grade (calculate_grade new_marks)
                                   (Student.set_marks new_marks s)) i students);;
                  mret (Success "Updated marks")
                else mret (Info "Marks unchanged.")
              else mret Quiet
          end
      end
  end.

(** The label of [select_delete_student]; [str_of_num] is [str] on a
    number. *)
Definition delete_label (str_of_num : Q → string) (s : Student.t) : string :=
  Student.roll_no s +:+ " - " +:+ Student.name s +:+ " (Marks: " +:+
  str_of_num (Student.marks s) +:+ ", Grade: " +:+
  default "" (Student.grade s) +:+ ")".

(** [delete_student()]: the button is disabled until [confirm] is
    ticked. *)
Definition delete_student (str_of_num : Q → string) (selected_display : string)
  (confirm button : bool) : IO notice :=
  students ← load_students;
  match students with
  | [] => mret (Info "No students to delete.")
  | _ =>
      let student_options :=
        (λ s, (delete_label str_of_num s, s)) <$> students in
      match selectbox student_options selected_display with
      | None => mret Quiet
      | Some selected_student =>
          let roll_no := Student.roll_no selected_student in
          if confirm && button then
            let new_students := filter (λ s, Student.roll_no s ≠ roll_no) students in
            save_students new_students;;
            mret (Success "Student deleted successfully!")
          else mret Quiet
      end
  end.

(** [reset_all_data()]: [show_reset_modal] is the session flag, [yes] the
    confirming button. *)
Definition reset_all_data (show_reset_modal yes : bool) : IO notice :=
  if show_reset_modal && yes then
    save_students [];;
    mret (Success "All student data has been reset successfully!")
  else mret Quiet.

(** ** Course registration *)

(** [sum(1 for s in students if course_id in s.get("registered_courses", []))] *)
Definition registered_count (students : list Student.t) (course_id : string)
  : nat :=
  length (filter (λ s, course_id ∈ Student.get_registered_courses s) students).

(** The courses offered to [student] in the "Register for Course" tab. *)
Definition available_courses (students : list Student.t)
  (courses : list Course.t) (current_registrations : list string)
  : list Course.t :=
  filter (λ c, (Z.of_nat (registered_count students (Course.course_id c))
                < Course.max_students c)%Z
               ∧ Course.course_id c ∉ current_registrations) courses.

(** [l.remove(x)] for an [x] that occurs in [l]. *)
Fixpoint list_remove_first (x : string) (l : list string) : list string :=
  match l with
  | [] => []
  | y :: l' => if bool_decide (y = x) then l' else y :: list_remove_first x l'
  end.

(** [next((c for c in courses if c["course_id"] == course_id), None)] *)
Definition course_info (courses : list Course.t) (course_id : string)
  : option Course.t :=
  snd <$> list_find (λ c, Course.course_id c = course_id) courses.

(** The options of [drop_course_select]. *)
Definition drop_options (courses : list Course.t)
  (current_registrations : list string) : list (string * string) :=
  omap (λ course_id,
          c ← course_info courses course_id;
          Some (course_id +:+ " - " +:+ Course.course_name c, course_id))
       current_registrations.

Inductive registration_button :=
| no_registration_button
| register_course_btn
| drop_course_btn.

Module RegistrationForm.
Record t := mk {
  register_student_select : string;
  register_course_select : string;
  drop_student_select : string;
  drop_course_select : string;
  button : registration_button }.
End RegistrationForm.

(** The "Register for Course" tab when its button is pressed: the new
    list, if the selections name an offered course. *)
Definition register_tab (students : list Student.t) (courses : list Course.t)
  (form : RegistrationForm.t) : option (list Student.t) :=
  '(i, student) ← selectbox (student_refs students)
                            (RegistrationForm.register_student_select form);
  let current_registrations := Student.get_registered_courses student in
  let available := available_courses students courses current_registrations in
  selected_course ← selectbox ((λ c, (course_label c, c)) <$> available)
                              (RegistrationForm.register_course_select form);
  Some (alter (λ s, Student.set_registered_courses
                      (Student.get_registered_courses s ++
                       [Course.course_id selected_course]) s) i students).

(** The "Drop Course" tab when its button is pressed. *)
Definition drop_tab (students : list Student.t) (courses : list Course.t)
  (form : RegistrationForm.t) : option (list Student.t) :=
  '(i, student) ← selectbox (student_refs students)
                            (RegistrationForm.drop_student_select form);
  let current_registrations := Student.get_registered_courses student in
  course_to_drop ← selectbox (drop_options courses current_registrations)
                             (RegistrationForm.drop_course_select form);
  Some (alter (λ s, Student.set_registered_courses
                      (list_remove_first course_to_drop
                         (Student.get_registered_courses s)) s) i students).

(** [course_registration()] with [courses = load_data("courses.json")]. *)
Definition course_registration (courses : list Course.t)
  (form : RegistrationForm.t) : IO notice :=
  students ← load_students;
  match students, courses with
  | [], _ => mret (Info "No student records found.")
  | _, [] => mret (Info "No courses available for registration.")
  | _, _ =>
      match RegistrationForm.button form with
      | register_course_btn =>
          match register_tab students courses form with
          | Some students' =>
              save_students students';; mret (Success "Successfully registered")
          | None => mret Quiet
          end
      | drop_course_btn =>
          match drop_tab students courses form with
          | Some students' =>
              save_students students';; mret (Success "Successfully dropped")
          | None => mret Quiet
          end
      | no_registration_button => mret Quiet
      end
  end.

(** ** Grade management *)

Inductive grade_button :=
| no_grade_button
| update_grades_btn
| bulk_adjust_btn
| course_adjust_btn
| generate_report_btn.

(** The widgets of the page, by key. *)
Module GradeForm.
Record t := mk {
  select_student_update : string;
  new_overall_marks : Q;
  course_marks : string → Q;
  bulk_min_range : Q;
  bulk_max_range : Q;
  bulk_adjustment : Q;
  bulk_course_select : string;
  course_adjustment : Q;
  button : grade_button }.
End GradeForm.

(** The loop over the number inputs of the registered courses: an input
    that differs from the recorded grade (or from [0.0] when there is
    none) is written to [course_grades]. *)
Definition course_inputs (course_marks : string → Q)
  (registered_courses : list string) (course_grades : list (string * Q))
  : list (string * Q) :=
  fold_left
    (λ course_grades course_id,
       let current_course_marks := default 0%Q (dict_get course_id course_grades) in
       let new_course_marks := course_marks course_id in
       if py_ne new_course_marks current_course_marks
       then dict_set course_id new_course_marks course_grades
       else course_grades)
    registered_courses course_grades.

(** The body of [if st.button("Update Grades", ...)]. *)
Definition update_grades (fl : FloatOps.t) (new_marks : Q)
  (course_grades : list (string * Q)) (student : Student.t) : Student.t :=
  let student :=
    if py_ne new_marks (Student.marks student)
    then Student.set_grade (calculate_grade new_marks)
           (Student.set_marks new_marks student)
    else student in
  let student := Student.set_course_grades course_grades student in
  match course_grades with
  | [] => student
  | _ =>
      let avg_course_marks := mean fl course_grades in
      Student.set_grade (calculate_grade avg_course_marks)
        (Student.set_marks avg_course_marks student)
  end.

(** One turn of the loop of "Apply Bulk Adjustment"; the flag tells
    whether [updated_count] was incremented. *)
Definition bulk_adjust (fl : FloatOps.t)
  (min_range max_range bulk_adjustment : Q)
  (student : Student.t) : Student.t * bool :=
  if py_ge (Student.marks student) min_range && py_ge max_range (Student.marks student)
  then
    let new_marks :=
      clamp (FloatOps.add fl (Student.marks student) bulk_adjustment) in
    if py_ne new_marks (Student.marks student)
    then (Student.set_grade (calculate_grade new_marks)
            (Student.set_marks new_marks student), true)
    else (student, false)
  else (student, false).

(** One turn of the loop of "Apply Course Adjustment". *)
Definition course_adjust (fl : FloatOps.t) (selected_course : string)
  (course_adjustment : Q) (student : Student.t) : Student.t * bool :=
  let course_grades := Student.get_course_grades student in
  match dict_get selected_course course_grades with
  | Some old =>
      let new_course_marks := clamp (FloatOps.add fl old course_adjustment) in
      if py_ne new_course_marks old then
        let course_grades := dict_set selected_course new_course_marks course_grades in
        let student := Student.set_course_grades course_grades student in
        match course_grades with
        | [] => (student, true)
        | _ =>
            let avg_marks := mean fl course_grades in
            (Student.set_grade (calculate_grade avg_marks)
               (Student.set_marks avg_marks student), true)
        end
      else (student, false)
  | None => (student, false)
  end.

(** A loop that updates records in place and counts the updates. *)
Definition for_each (body : Student.t → Student.t * bool)
  (students : list Student.t) : list Student.t * nat :=
  let turns := body <$> students in
  (turns.*1, length (filter (λ t, t.2 = true) turns)).

(** The "Update Grades" tab up to its button: the selected record and the
    [course_grades] dict after the inputs were read, when the student has
    registered courses. *)
Definition edited_grades (students : list Student.t) (form : GradeForm.t)
  : option (nat * list (string * Q)) :=
  '(i, student) ← selectbox (student_refs students)
                            (GradeForm.select_student_update form);
  match Student.get_registered_courses student with
  | [] => None
  | registered_courses =>
      Some (i, course_inputs (GradeForm.course_marks form) registered_courses
                 (Student.get_course_grades student))
  end.

(** The loaded list once that tab has run: [student.get("course_grades", {})]
    is the student's own dict when the key is there, so the inputs are
    already written into it. *)
Definition after_inputs (students : list Student.t)
  (edited : option (nat * list (string * Q))) : list Student.t :=
  match edited with
  | Some (i, course_grades) =>
      alter (λ s, match Student.course_grades s with
                  | Some _ => Student.set_course_grades course_grades s
                  | None => s
                  end) i students
  | None => students
  end.

(** [grade_management()] with [courses = load_data("courses.json")]. *)
Definition grade_management (fl : FloatOps.t) (courses : list Course.t)
  (form : GradeForm.t) : IO notice :=
  students ← load_students;
  match students with
  | [] => mret (Info "No student records found.")
  | _ =>
      let edited := edited_grades students form in
      let students := after_inputs students edited in
      match GradeForm.button form with
      | update_grades_btn =>
          match edited with
          | Some (i, course_grades) =>
              save_students
                (alter (update_grades fl (GradeForm.new_overall_marks form)
                          course_grades) i students);;
              mret (Success "Grades updated successfully!")
          | None => mret Quiet
          end
      | bulk_adjust_btn =>
          let '(students', updated_count) :=
            for_each (bulk_adjust fl (GradeForm.bulk_min_range form)
                        (GradeForm.bulk_max_range form)
                        (GradeForm.bulk_adjustment form)) students in
          if bool_decide (0 < updated_count)%nat
          then save_students students';; mret (Success "Updated grades")
          else mret (Info "No students found in the specified range.")
      | course_adjust_btn =>
          let selected_course := GradeForm.bulk_course_select form in
          if bool_decide (selected_course ∈ Course.course_id <$> courses) then
            let '(students', updated_count) :=
              for_each (course_adjust fl selected_course
                          (GradeForm.course_adjustment form)) students in
            if bool_decide (0 < updated_count)%nat
            then save_students students';; mret (Success "Updated course grades")
            else mret (Info "No students found with this course.")
          else mret Quiet
      | _ => mret Quiet
      end
  end.

(** ** Attendance tracking *)

Inductive attendance_button :=
| no_attendance_button
| mark_all_present
| mark_all_absent
| submit_individual_attendance.

Module AttendanceForm.
Record t := mk {
  mark_attendance_course_select : string;
  attendance_date : string;
  individual_student_select : string;
  present : bool;
  absent : bool;
  button : attendance_button }.
End AttendanceForm.

(** [mark_attendance] on each record that passes [registered]. *)
Definition mark_all (now course_id date status : string)
  (students : list Student.t) : list Student.t :=
  (λ s, if bool_decide (course_id ∈ Student.get_registered_courses s)
        then mark_attendance now s course_id date status
        else s) <$> students.

(** The "Mark Attendance" tab of [attendance_tracking()]: the loaded list
    as the handler leaves it in memory.  No branch calls [save_students]. *)
Definition attendance_tracking (now : string) (courses : list Course.t)
  (form : AttendanceForm.t) : IO (list Student.t) :=
  students ← load_students;
  match students, courses with
  | [], _ | _, [] => mret students
  | _, _ =>
      match selectbox ((λ c, (course_label c, c)) <$> courses)
                      (AttendanceForm.mark_attendance_course_select form) with
      | None => mret students
      | Some selected_course =>
          let course_id := Course.course_id selected_course in
          let date := AttendanceForm.attendance_date form in
          let registered_students :=
            filter (λ r, course_id ∈ Student.get_registered_courses r.2.2)
                   (student_refs students) in
          match AttendanceForm.button form with
          | mark_all_present =>
              mret (mark_all now course_id date "Present" students)
          | mark_all_absent =>
              mret (mark_all now course_id date "Absent" students)
          | submit_individual_attendance =>
              match selectbox registered_students
                      (AttendanceForm.individual_student_select form) with
              | Some (i, _) =>
                  let attendance_status :=
                    if AttendanceForm.present form && negb (AttendanceForm.absent form)
                    then "Present"
                    else if AttendanceForm.absent form && negb (AttendanceForm.present form)
                    then "Absent"
                    else "Not Marked" in
                  if bool_decide (attendance_status ≠ "Not Marked")
                  then mret (alter (λ s, mark_attendance now s course_id date
                                           attendance_status) i students)
                  else mret students
              | None => mret students
              end
          | no_attendance_button => mret students
          end
      end
  end.

(** ** The mutation operations as the steps of the store *)

Inductive action :=
| AddStudent (name roll_no : string) (marks : Q)
| BulkImport (uploaded_file : upload)
| UpdateMarks (selected : string) (new_marks : Q) (button : bool)
| DeleteStudent (str_of_num : Q → string) (selected_display : string)
                (confirm button : bool)
| CourseRegistration (courses : list Course.t) (form : RegistrationForm.t)
| GradeManagement (fl : FloatOps.t) (courses : list Course.t)
                  (form : GradeForm.t)
| AttendanceTracking (now : string) (courses : list Course.t)
                     (form : AttendanceForm.t)
| ResetAll (show_reset_modal yes : bool).

Definition run (a : action) (d : disk) : disk :=
  match a with
  | AddStudent name roll_no marks => (add_student name roll_no marks d).2
  | BulkImport uploaded_file => (upload_file uploaded_file d).2
  | UpdateMarks selected new_marks button =>
      (update_student_marks selected new_marks button d).2
  | DeleteStudent str_of_num selected_display confirm button =>
      (delete_student str_of_num selected_display confirm button d).2
  | CourseRegistration courses form => (course_registration courses form d).2
  | GradeManagement fl courses form => (grade_management fl courses form d).2
  | AttendanceTracking now courses form =>
      (attendance_tracking now courses form d).2
  | ResetAll show_reset_modal yes => (reset_all_data show_reset_modal yes d).2
  end.

(** ** Vocabulary of the statements *)

(** What the loop of [load_students] makes of one record. *)
Definition normalize (s : Student.t) : Student.t := (backfill s false).1.

(** The record lacks a key that [load_students] fills in. *)
Definition needs_backfill (s : Student.t) : bool :=
  bool_decide (Student.grade s = None ∨ Student.registered_courses s = None).

Definition roll_numbers (students : list Student.t) : list string :=
  Student.roll_no <$> students.

(** [grade] is the letter of [marks]. *)
Definition grade_derived (s : Student.t) : Prop :=
  Student.grade s = Some (calculate_grade (Student.marks s)).

(** [s'] carries the roll number, marks and grade of [s]. *)
Definition carried (s s' : Student.t) : Prop :=
  Student.roll_no s' = Student.roll_no s ∧
  Student.marks s' = Student.marks s ∧
  Student.grade s' = Student.grade s.

(** Pairwise distinct roll numbers stay pairwise distinct. *)
Definition keeps_rolls (before after : list Student.t) : Prop :=
  NoDup (roll_numbers before) → NoDup (roll_numbers after).

(** Every record of [after] has the grade of its marks, or carries the
    marks and grade of a record of [before]. *)
Definition keeps_grades (before after : list Student.t) : Prop :=
  ∀ s', s' ∈ after →
    grade_derived s' ∨ ∃ s, s ∈ before ∧ carried s s'.

(** Both at once. *)
Definition evolves (before after : list Student.t) : Prop :=
  keeps_rolls before after ∧ keeps_grades before after.

(** An in-place update that keeps the roll number and either re-derives
    the grade or leaves marks and grade alone. *)
Definition respectful (f : Student.t → Student.t) : Prop :=
  ∀ s, Student.roll_no (f s) = Student.roll_no s ∧
       (grade_derived (f s) ∨ carried s (f s)).

(** The record that the import loop appends for a cleaned row. *)
Definition imported_record (row : Clean.t) : Student.t :=
  Student.mk (strip (Clean.name row)) (strip (Clean.roll_no row))
             (Clean.marks row) (Some (Clean.grade row)) None None None.

(** The roll numbers a batch brings, as the loop reads them. *)
Definition batch_rolls (uploaded_file : upload) : list string :=
  match uploaded_file with
  | Frame rows => (λ row, strip (Clean.roll_no row)) <$> clean rows
  | _ => []
  end.

(** The cleaned rows whose roll number is not in [existing_rolls]. *)
Definition new_rows (existing_rolls : gset string) (df : list Clean.t)
  : list Clean.t :=
  filter (λ row, strip (Clean.roll_no row) ∉ existing_rolls) df.

(** The cleaned rows whose roll number is in [existing_rolls]. *)
Definition old_rows (existing_rolls : gset string) (df : list Clean.t)
  : list Clean.t :=
  filter (λ row, strip (Clean.roll_no row) ∈ existing_rolls) df.

(** The roll numbers that a bulk import brings are pairwise distinct;
    nothing is asked of the other operations. *)
Definition batch_distinct (a : action) : Prop :=
  match a with
  | BulkImport uploaded_file => NoDup (batch_rolls uploaded_file)
  | _ => True
  end.

(** The two-row batch of the specification's example. *)
Definition same_roll_batch : upload :=
  Frame [Row.mk (Some "A") (Some "1") (Some 85%Q);
         Row.mk (Some "B") (Some "1") (Some 50%Q)].

(** *** Vocabulary for the loader on raw files *)

(** The letter the loader derives from the [marks] value [v] when
    [float(v)] returns or raises [ValueError] or [TypeError]. *)
Definition letter_of (float_of_str : string → option Q) (v : json) : string :=
  match py_float float_of_str v with
  | Ok q => calculate_grade q
  | Raise _ => "F"
  end.

(** [float(v)] raises [OverflowError]. *)
Definition overflows (v : json) : bool :=
  match v with
  | JNum q => negb (in_float_range q)
  | _ => false
  end.

(** The loader calls [float] on the marks of the object, and the call
    raises [OverflowError]. *)
Definition overflowing (o : list (string * json)) : bool :=
  match dict_get "grade" o, dict_get "marks" o with
  | None, Some v => overflows v
  | _, _ => false
  end.

(** What the loop makes of the fields of one object. *)
Definition backfilled (float_of_str : string → option Q)
  (o : list (string * json)) : list (string * json) :=
  let o1 :=
    match dict_get "grade" o, dict_get "marks" o with
    | None, Some v => dict_set "grade" (JStr (letter_of float_of_str v)) o
    | _, _ => o
    end in
  if dict_has "registered_courses" o1 then o1
  else dict_set "registered_courses" (JArr []) o1.

(** The object lacks a key that the loop fills in. *)
Definition lacks_key (o : list (string * json)) : bool :=
  negb (dict_has "grade" o) && dict_has "marks" o
  || negb (dict_has "registered_courses" o).

(** One reading of numerals held in strings, to run examples with:
    unsigned digit strings.  Python's [float] reads more forms; the
    theorems hold for every reading. *)
Fixpoint digits_value (acc : Z) (s : string) : option Z :=
  match s with
  | EmptyString => Some acc
  | String c s' =>
      let n := Z.of_nat (nat_of_ascii c) in
      if bool_decide (48 ≤ n ≤ 57)%Z then digits_value (10 * acc + (n - 48)) s'
      else None
  end.

Definition digits_only (s : string) : option Q :=
  match s with
  | EmptyString => None
  | _ => inject_Z <$> digits_value 0 s
  end.

(** [o'] is [o] after the loop of the loader: the grade is kept, or
    derived from the marks when only the marks are there, or still
    missing when both are; [registered_courses] is kept or set to the
    empty list; no other key changes, and an object that lacked nothing
    is the same object. *)
Definition record_backfilled (float_of_str : string → option Q)
  (o o' : list (string * json)) : Prop :=
  dict_get "grade" o'
  = match dict_get "grade" o, dict_get "marks" o with
    | Some g, _ => Some g
    | None, Some v => Some (JStr (letter_of float_of_str v))
    | None, None => None
    end ∧
  dict_get "registered_courses" o'
  = Some (default (JArr []) (dict_get "registered_courses" o)) ∧
  (∀ k, k ≠ "grade" → k ≠ "registered_courses" → dict_get k o' = dict_get k o) ∧
  (lacks_key o = false → o' = o).

(** *** Vocabulary for attendance *)

(** [student["attendance"][course_id]], empty when a key is missing. *)
Definition entries (student : Student.t) (course_id : string) : list Entry.t :=
  default [] (dict_get course_id (default [] (Student.attendance student))).

(** The entries of a list for one date. *)
Definition on_date (date : string) (records : list Entry.t) : list Entry.t :=
  filter (λ r, Entry.date r = date) records.

(** Overwrite the first entry of [date], or append. *)
Fixpoint upsert (new : Entry.t) (records : list Entry.t) : list Entry.t :=
  match records with
  | [] => [new]
  | r :: rest =>
      if bool_decide (Entry.date r = Entry.date new) then new :: rest
      else r :: upsert new rest
  end.

(** *** Vocabulary for the bounds of marks *)

(** Between 0 and 100. *)
Definition in_range (q : Q) : Prop := (0 <= q <= 100)%Q.

(** The overall marks and every course grade of the record are between 0
    and 100. *)
Definition within_bounds (s : Student.t) : Prop :=
  in_range (Student.marks s) ∧
  Forall (λ kv, in_range kv.2) (Student.get_course_grades s).

(** The number inputs of the pages are declared with [0.0] and [100.0]
    as their least and greatest value: the marks they return are between
    0 and 100. *)
Definition widgets_in_range (a : action) : Prop :=
  match a with
  | UpdateMarks _ new_marks _ => in_range new_marks
  | GradeManagement _ _ form =>
      in_range (GradeForm.new_overall_marks form) ∧
      ∀ course_id, in_range (GradeForm.course_marks form course_id)
  | _ => True
  end.

(** The sum of numbers between 0 and 100 is between 0 and 100 times
    their count, and the quotient of such a sum by the count is between 0
    and 100.  Rounding to the nearest double keeps the order and these
    bounds are doubles, for as many values as a record holds (fewer than
    [2^53 / 100]). *)
Definition keeps_bounds (fl : FloatOps.t) : Prop :=
  (∀ xs, Forall in_range xs →
         (0 <= FloatOps.sum fl xs
          <= 100 * inject_Z (Z.of_nat (length xs)))%Q) ∧
  (∀ s n, (0 < n)%Q → (0 <= s <= 100 * n)%Q → in_range (FloatOps.div fl s n)).

(** The bulk adjustment changes the marks of the student: they lie in the
    range, and the shifted and clamped marks differ from them. *)
Definition shifts (fl : FloatOps.t) (min_range max_range bulk_adjustment : Q)
  (s : Student.t) : bool :=
  py_ge (Student.marks s) min_range && py_ge max_range (Student.marks s)
  && py_ne (clamp (FloatOps.add fl (Student.marks s) bulk_adjustment))
           (Student.marks s).

(** The course adjustment changes the grade that the student has for the
    course: the adjusted and clamped grade differs from the recorded one. *)
Definition adjusts (fl : FloatOps.t) (selected_course : string)
  (course_adjustment : Q) (s : Student.t) : bool :=
  match dict_get selected_course (Student.get_course_grades s) with
  | Some old => py_ne (clamp (FloatOps.add fl old course_adjustment)) old
  | None => false
  end.

(** The arithmetic of the operation keeps the bounds. *)
Definition arithmetic_in_range (a : action) : Prop :=
  match a with
  | GradeManagement fl _ _ => keeps_bounds fl
  | _ => True
  end.

(** An in-place update that keeps a record within bounds. *)
Definition bounded (f : Student.t → Student.t) : Prop :=
  ∀ s, within_bounds s → within_bounds (f s).

(** The string does not start with white space. *)
Definition unpadded (s : string) : Prop :=
  match s with
  | String c _ => is_space c = false
  | EmptyString => True
  end.

(** ** Attendance reports *)

(** A row of [course_attendance] in the "Attendance Reports" tab;
    [attendance_pct] is the number that the row shows formatted with one
    decimal. *)
Module ReportRow.
Record t := mk {
  name : string;
  roll_no : string;
  total_classes : Z;
  present : Z;
  absent : Z;
  attendance_pct : Q }.
End ReportRow.

(** The body of the loop over the students for one registered student. *)
Definition report_row (course_id : string) (student : Student.t)
  : ReportRow.t :=
  let attendance_records :=
    default [] (dict_get course_id
                  (default [] (Student.attendance student))) in
  let present_count :=
    Z.of_nat (length (filter (λ r, Entry.status r = "Present")
                        attendance_records)) in
  let total_count := Z.of_nat (length attendance_records) in
  let attendance_pct :=
    if bool_decide (0 < total_count)%Z
    then (inject_Z present_count / inject_Z total_count * 100)%Q
    else 0%Q in
  ReportRow.mk (Student.name student) (Student.roll_no student)
               total_count present_count (total_count - present_count)
               attendance_pct.


(** ** Statistics *)

(** The metrics of [show_statistics()], as numbers (the page formats the
    marks with two decimals). *)
Module Statistics.
Record t := mk {
  total_students : nat;
  avg_marks : Q;
  highest : Q;
  lowest : Q;
  passing : nat;
  failing : nat }.
End Statistics.

(** [df['grade'].apply(lambda x: 'Pass' if x != 'F' else 'Fail')] *)
Definition status_of (s : Student.t) : string :=
  if bool_decide (Student.grade s ≠ Some "F") then "Pass" else "Fail".

(** [status_counts.get(status, 0)] *)
Definition status_count (status : string) (students : list Student.t) : nat :=
  length (filter (λ s, status_of s = status) students).

(** The key metrics and the pass and fail counts of [show_statistics()];
    [None] when there is no record to show.  [series_mean] is what
    [df['marks'].mean()] returns for the column: a rounded sum, taken in
    an order of pandas' choosing, divided by the count. *)
Definition show_statistics (series_mean : list Q → Q)
  : IO (option Statistics.t) :=
  students ← load_students;
  match students with
  | [] => mret None
  | first :: rest =>
      let marks := Student.marks <$> students in
      mret (Some (Statistics.mk
        (length students)
        (series_mean marks)
        (foldl py_max (Student.marks first) (Student.marks <$> rest))
        (foldl py_min (Student.marks first) (Student.marks <$> rest))
        (status_count "Pass" students)
        (status_count "Fail" students)))
  end.

(** * Teacher accounts: [auth.py] *)

Module Teacher.
Record t := mk {
  email : string;
  password_hash : string;
  salt : string;
  name : string;
  created_at : string }.
End Teacher.

(** What [login_teacher] hands to the session: the record without its
    hash and salt. *)
Module TeacherData.
Record t := mk { email : string; name : string; created_at : string }.
End TeacherData.

(** [teachers.json]: no file, text that is not JSON, or the array of
    teacher objects that [save_teachers] writes. *)
Inductive teachers_file :=
| NoTeachers
| BadTeachers
| Teachers (teachers : list Teacher.t).

(** [init_teachers_file()] *)
Definition init_teachers_file (f : teachers_file) : teachers_file :=
  match f with
  | NoTeachers => Teachers []
  | _ => f
  end.

(** [load_teachers()]: the list it returns and the file it leaves. *)
Definition load_teachers (f : teachers_file)
  : list Teacher.t * teachers_file :=
  let f := init_teachers_file f in
  match f with
  | Teachers teachers => (teachers, f)
  | _ => ([], f)
  end.

(** [save_teachers(teachers)] *)
Definition save_teachers (teachers : list Teacher.t) (_ : teachers_file)
  : teachers_file :=
  Teachers teachers.

(** The keys of [st.session_state] that [init_auth_session_state] sets
    up. *)
Inductive page := login_page | register_page.

Module Session.
Record t := mk {
  authenticated : bool;
  teacher_data : option TeacherData.t;
  auth_page : page }.
End Session.

Section hashing.

(** [hashlib.sha256(s.encode()).hexdigest()] *)
Variable sha256_hex : string → string.

(** [hash_password(password, salt)]; [token_hex] is what
    [secrets.token_hex(SALT_LENGTH)] returns when it is called. *)
Definition hash_password (token_hex : string) (password : string)
  (salt : option string) : string * string :=
  let salt := default token_hex salt in
  let salted_password := password +:+ salt in
  (sha256_hex salted_password, salt).

(** [verify_password(password, hashed, salt)]: the salt is given, no
    token is drawn. *)
Definition verify_password (password hashed salt : string) : bool :=
  let '(computed_hash, _) := hash_password "" password (Some salt) in
  bool_decide (computed_hash = hashed).

(** [register_teacher(email, password, name)]; [now] is the time stamp
    taken for [created_at]. *)
Definition register_teacher (token_hex now : string)
  (email password name : string) (f : teachers_file)
  : (bool * string) * teachers_file :=
  let '(teachers, f) := load_teachers f in
  if existsb (λ t, bool_decide (Teacher.email t = email)) teachers
  then ((false, "Email already registered"), f)
  else if negb (nonempty (strip email)) || negb (nonempty (strip password))
          || negb (nonempty (strip name))
  then ((false, "All fields are required"), f)
  else if bool_decide (String.length password < 6)%nat
  then ((false, "Password must be at least 6 characters long"), f)
  else
    let '(hashed_password, salt) := hash_password token_hex password None in
    let teacher :=
      Teacher.mk (strip email) hashed_password salt (strip name) now in
    let teachers := teachers ++ [teacher] in
    ((true, "Registration successful! Please login."),
     save_teachers teachers f).

(** [login_teacher(email, password)] *)
Definition login_teacher (email password : string) (f : teachers_file)
  : (bool * string * option TeacherData.t) * teachers_file :=
  let '(teachers, f) := load_teachers f in
  match list_find (λ t, Teacher.email t = email) teachers with
  | None => ((false, "Email not found", None), f)
  | Some (_, teacher) =>
      if negb (verify_password password (Teacher.password_hash teacher)
                 (Teacher.salt teacher))
      then ((false, "Invalid password", None), f)
      else
        let teacher_data :=
          TeacherData.mk (Teacher.email teacher) (Teacher.name teacher)
                         (Teacher.created_at teacher) in
        ((true, "Login successful", Some teacher_data), f)
  end.

(** *** The two forms *)

(** [show_login_form()]: one run with the values of the two inputs and of
    the submit button. *)
Definition show_login_form (email password : string) (submitted : bool)
  (s : Session.t) (f : teachers_file) : notice * Session.t * teachers_file :=
  if submitted then
    if negb (nonempty email) || negb (nonempty password)
    then (Error "Please fill in all fields", s, f)
    else
      let '((success, message, teacher_data), f) :=
        login_teacher email password f in
      if success
      then (Success message,
            Session.mk true teacher_data (Session.auth_page s), f)
      else (Error message, s, f)
  else (Quiet, s, f).

(** [show_register_form()] *)
Definition show_register_form (token_hex now : string)
  (name email password confirm_password : string) (submitted : bool)
  (s : Session.t) (f : teachers_file) : notice * Session.t * teachers_file :=
  if submitted then
    if negb (nonempty name) || negb (nonempty email)
       || negb (nonempty password) || negb (nonempty confirm_password)
    then (Error "Please fill in all fields", s, f)
    else if bool_decide (password ≠ confirm_password)
    then (Error "Passwords do not match", s, f)
    else if bool_decide (String.length password < 6)%nat
    then (Error "Password must be at least 6 characters long", s, f)
    else
      let '((success, message), f) :=
        register_teacher token_hex now email password name f in
      if success
      then (Success message,
            Session.mk (Session.authenticated s) (Session.teacher_data s)
                       login_page, f)
      else (Error message, s, f)
  else (Quiet, s, f).

End hashing.

(** *** Vocabulary for the accounts *)

(** The records a file holds: none unless it holds an array. *)
Definition stored_teachers (f : teachers_file) : list Teacher.t :=
  match f with
  | Teachers teachers => teachers
  | _ => []
  end.

Definition emails (teachers : list Teacher.t) : list string :=
  Teacher.email <$> teachers.

(** * The batch scripts *)

(** ** [assign_courses.py] *)

(** [d[k]] *)
Definition subscript {V} (d : list (string * V)) (k : string) : result V :=
  match dict_get k d with
  | Some v => Ok v
  | None => Raise KeyError
  end.

(** [{c['course_id']: c['max_students'] for c in courses}] *)
Definition course_limits (courses : list Course.t) : list (string * Z) :=
  foldl (λ d c, dict_set (Course.course_id c) (Course.max_students c) d)
        [] courses.

(** [{cid: 0 for cid in course_limits}] *)
Definition zero_enrollments (limits : list (string * Z)) : list (string * Z) :=
  (λ kv, (kv.1, 0%Z)) <$> limits.

(** The inner loop of the count: [if cid in current_enrollments:
    current_enrollments[cid] += 1] for each registered course. *)
Definition count_courses (registered : list string)
  (enrollments : list (string * Z)) : list (string * Z) :=
  foldl (λ e cid, if dict_has cid e
                  then dict_set cid (default 0 (dict_get cid e) + 1)%Z e
                  else e)
        enrollments registered.

(** The count over the students; [s['registered_courses']] raises when
    the key is missing. *)
Fixpoint count_enrollments (students : list Student.t)
  (enrollments : list (string * Z)) : result (list (string * Z)) :=
  match students with
  | [] => Ok enrollments
  | s :: rest =>
      match Student.registered_courses s with
      | None => Raise KeyError
      | Some registered =>
          count_enrollments rest (count_courses registered enrollments)
      end
  end.

(** [for cid in new_courses: current_enrollments[cid] += 1] *)
Fixpoint enroll (new_courses : list string) (enrollments : list (string * Z))
  : result (list (string * Z)) :=
  match new_courses with
  | [] => Ok enrollments
  | cid :: rest =>
      n ← subscript enrollments cid;
      enroll rest (dict_set cid (n + 1)%Z enrollments)
  end.

(** The courses open to a student; [cid] ranges over the keys of both
    dicts. *)
Definition open_courses (limits enrollments : list (string * Z))
  (course_ids current : list string) : list string :=
  filter (λ cid, (cid ∉ current) ∧
                 (default 0 (dict_get cid enrollments)
                  < default 0 (dict_get cid limits))%Z)
         course_ids.

(** The assignment loop from the student at position [i] on;
    [sample i population k] is what [random.sample(population, k)]
    returns for that student. *)
Fixpoint assign_loop (sample : nat → list string → nat → list string)
  (limits : list (string * Z)) (course_ids : list string) (i : nat)
  (students : list Student.t) (enrollments : list (string * Z))
  : result (list Student.t * list (string * Z)) :=
  match students with
  | [] => Ok ([], enrollments)
  | s :: rest =>
      match Student.registered_courses s with
      | None => Raise KeyError
      | Some current =>
          let available := open_courses limits enrollments course_ids current in
          let num_to_add :=
            Z.min (2 - Z.of_nat (length current))
                  (Z.of_nat (length available)) in
          if bool_decide (0 < num_to_add)%Z then
            let new_courses := sample i available (Z.to_nat num_to_add) in
            let s' := Student.set_registered_courses (current ++ new_courses) s in
            enrollments' ← enroll new_courses enrollments;
            done ← assign_loop sample limits course_ids (S i) rest enrollments';
            Ok (s' :: done.1, done.2)
          else
            done ← assign_loop sample limits course_ids (S i) rest enrollments;
            Ok (s :: done.1, done.2)
      end
  end.

(** The script, on the records of [students.json] and [courses.json]. *)
Definition assign_courses (sample : nat → list string → nat → list string)
  (courses : list Course.t) (d : disk) : result disk :=
  let students := students_json d in
  let limits := course_limits courses in
  enrollments ← count_enrollments students (zero_enrollments limits);
  let course_ids := limits.*1 in
  assigned ← assign_loop sample limits course_ids 0 students enrollments;
  Ok (Disk assigned.1 (S (writes d))).

(** *** Vocabulary for the assignment *)

(** [random.sample(population, k)] returns [k] elements of the population,
    taken at distinct positions. *)
Definition valid_sample (sample : nat → list string → nat → list string) : Prop :=
  ∀ i population k,
    k ≤ length population →
    length (sample i population k) = k ∧ sample i population k ⊆+ population.

(** How many times the course is in a list, and in the registration
    lists of the students. *)
Definition occurrences (course_id : string) (l : list string) : Z :=
  Z.of_nat (length (filter (λ cid, cid = course_id) l)).

Definition enrolled (students : list Student.t) (course_id : string) : Z :=
  occurrences course_id (concat (Student.get_registered_courses <$> students)).

(** The count held for a course, 0 for a course that is not counted. *)
Definition count_of (enrollments : list (string * Z)) (course_id : string) : Z :=
  default 0%Z (dict_get course_id enrollments).

(** What the script may do to a record: append courses that the record
    did not have, each once, up to two courses in all. *)
Definition assigned (course_ids : list string) (s s' : Student.t) : Prop :=
  ∃ current added,
    Student.registered_courses s = Some current ∧
    s' = Student.set_registered_courses (current ++ added) s ∧
    NoDup added ∧
    (∀ cid, cid ∈ added → (cid ∉ current) ∧ cid ∈ course_ids) ∧
    length (current ++ added) ≤ length current `max` 2.

(** The limit of a course: the [max_students] of the last course with
    that identifier. *)
Definition limit_of (courses : list Course.t) (course_id : string) : Z :=
  default 0%Z (dict_get course_id (course_limits courses)).

(** ** [generate_students.py] *)

(** What the random generator returns in one turn of the loop: the two
    [random.choice]s, [round(random.uniform(0, 100), 2)] and
    [random.randint(1000000000, 9999999999)]. *)
Module Draw.
Record t := mk {
  first_name : string;
  last_name : string;
  marks : Q;
  phone : Z }.
End Draw.

(** [str(n)] for an integer. *)
Definition str_of_int (n : Z) : string := NilZero.string_of_int (Z.to_int n).

(** [f"{i:03d}"] *)
Definition pad3 (i : nat) : string :=
  let digits := NilZero.string_of_uint (Nat.to_uint i) in
  String.concat "" (replicate (3 - String.length digits) "0") +:+ digits.

(** [s.lower()] on the ASCII range. *)
Definition lower_ascii (c : ascii) : ascii :=
  let n := nat_of_ascii c in
  if bool_decide (65 ≤ n ≤ 90) then ascii_of_nat (n + 32) else c.

Fixpoint lower (s : string) : string :=
  match s with
  | EmptyString => EmptyString
  | String c s' => String (lower_ascii c) (lower s')
  end.

Module GenerateStudents.

Definition calculate_grade (marks : Q) : string :=
  if py_ge marks 90 then "A"
  else if py_ge marks 80 then "B"
  else if py_ge marks 70 then "C"
  else if py_ge marks 60 then "D"
  else "F".

Definition first_names : list string :=
  ["John"; "Jane"; "Alice"; "Bob"; "Charlie"; "David"; "Eve"; "Frank";
   "Grace"; "Henry"; "Ivy"; "Jack"; "Kate"; "Liam"; "Mia"; "Noah"; "Olivia";
   "Peter"; "Quinn"; "Ryan"; "Sophia"; "Tyler"; "Uma"; "Victor"; "Wendy";
   "Xander"; "Yara"; "Zoe"; "Aaron"; "Bella"; "Caleb"; "Daisy"; "Ethan";
   "Fiona"; "Gabriel"; "Hannah"; "Isaac"; "Julia"; "Kevin"; "Lily"; "Mason";
   "Nora"; "Owen"; "Piper"; "Quinn"; "Riley"; "Samuel"; "Tessa"; "Ulysses";
   "Violet"; "William"; "Xena"; "Yusuf"; "Zara"; "Adam"; "Beth"; "Carter";
   "Diana"; "Eli"; "Faith"].

Definition last_names : list string :=
  ["Smith"; "Johnson"; "Williams"; "Brown"; "Jones"; "Garcia"; "Miller";
   "Davis"; "Rodriguez"; "Martinez"; "Hernandez"; "Lopez"; "Gonzalez";
   "Wilson"; "Anderson"; "Thomas"; "Taylor"; "Moore"; "Jackson"; "Martin";
   "Lee"; "Perez"; "Thompson"; "White"; "Harris"; "Sanchez"; "Clark";
   "Ramirez"; "Lewis"; "Robinson"; "Walker"; "Young"; "Allen"; "King";
   "Wright"; "Scott"; "Torres"; "Nguyen"; "Hill"; "Flores"; "Green"; "Adams";
   "Nelson"; "Baker"; "Hall"; "Rivera"; "Campbell"; "Mitchell"; "Carter";
   "Roberts"; "Gomez"; "Phillips"; "Evans"; "Turner"; "Diaz"; "Parker";
   "Cruz"; "Edwards"; "Collins"; "Reyes"].

(** The body of the loop for [i]; [today] is
    [datetime.now().strftime("%Y-%m-%d")]. *)
Definition student (today : string) (i : nat) (draw : Draw.t)
  : list (string * json) :=
  let roll_no := "S" +:+ pad3 i in
  let first_name := Draw.first_name draw in
  let last_name := Draw.last_name draw in
  let name := first_name +:+ " " +:+ last_name in
  let marks := Draw.marks draw in
  let grade := calculate_grade marks in
  let email := lower first_name +:+ "." +:+ lower last_name +:+ "@example.com" in
  let phone := "+1" +:+ str_of_int (Draw.phone draw) in
  let enrollment_status := "active" in
  let enrollment_date := today in
  [("name", JStr name);
   ("roll_no", JStr roll_no);
   ("marks", JNum marks);
   ("grade", JStr grade);
   ("email", JStr email);
   ("phone", JStr phone);
   ("enrollment_status", JStr enrollment_status);
   ("enrollment_date", JStr enrollment_date)].

(** The list the script builds, [random i] being the draws of turn [i],
    and the file it writes. *)
Definition students (random : nat → Draw.t) (today : string)
  : list (list (string * json)) :=
  (λ i, student today i (random i)) <$> seq 1 70.

Definition main (random : nat → Draw.t) (today : string) (_ : file) : file :=
  Parsed (JArr (JObj <$> students random today)).

End GenerateStudents.

(** *** Vocabulary for the generated records *)

(** The draws are what the generator can return. *)
Definition valid_draw (draw : Draw.t) : Prop :=
  Draw.first_name draw ∈ GenerateStudents.first_names ∧
  Draw.last_name draw ∈ GenerateStudents.last_names ∧
  in_range (Draw.marks draw) ∧
  (1000000000 ≤ Draw.phone draw ≤ 9999999999)%Z.

(** The record that the handlers read off a generated object. *)
Definition generated_record (i : nat) (draw : Draw.t) : Student.t :=
  Student.mk (Draw.first_name draw +:+ " " +:+ Draw.last_name draw)
             ("S" +:+ pad3 i) (Draw.marks draw)
             (Some (calculate_grade (Draw.marks draw))) None None None.

(** * Properties *)

(** ** Numbers *)

Lemma py_ge_spec (a b : Q) : py_ge a b = true ↔ (b <= a)%Q.
Proof. apply Qle_bool_iff. Qed.

Lemma py_ge_false (a b : Q) : py_ge a b = false ↔ (a < b)%Q.
Proof.
  unfold py_ge. rewrite <- not_true_iff_false, Qle_bool_iff.
  split; [apply Qnot_le_lt | apply Qlt_not_le].
Qed.

Lemma py_lt_spec (a b : Q) : py_lt a b = true ↔ (a < b)%Q.
Proof. unfold py_lt. rewrite negb_true_iff. apply py_ge_false. Qed.

Lemma py_ne_spec (a b : Q) : py_ne a b = true ↔ ¬ (a == b)%Q.
Proof.
  unfold py_ne. rewrite negb_true_iff, <- not_true_iff_false, Qeq_bool_iff.
  reflexivity.
Qed.

Lemma py_ge_proper (a a' b : Q) : (a == a')%Q → py_ge a b = py_ge a' b.
Proof.
  intros H. destruct (py_ge a' b) eqn:E.
  - apply py_ge_spec. apply py_ge_spec in E. by rewrite H.
  - apply py_ge_false. apply py_ge_false in E. by rewrite H.
Qed.

(** ** Grade policy *)

Example calculate_grade_90 : calculate_grade 90 = "A".
Proof. reflexivity. Qed.

Example calculate_grade_89_999 : calculate_grade 89.999 = "B".
Proof. reflexivity. Qed.

Example calculate_grade_59_5 : calculate_grade 59.5 = "F".
Proof. reflexivity. Qed.

Ltac grade_cases marks :=
  unfold calculate_grade;
  destruct (py_ge marks 90) eqn:?A;
  [|destruct (py_ge marks 80) eqn:?B;
    [|destruct (py_ge marks 70) eqn:?C;
      [|destruct (py_ge marks 60) eqn:?D]]];
  repeat match goal with
         | H : py_ge _ _ = true |- _ => apply py_ge_spec in H
         | H : py_ge _ _ = false |- _ => apply py_ge_false in H
         end.

(** C3. For every number [marks], [calculate_grade] answers "A" exactly
    when [marks >= 90], "B" exactly when [80 <= marks < 90], "C" exactly
    when [70 <= marks < 80], "D" exactly when [60 <= marks < 70] and "F"
    exactly when [marks < 60]; in particular 90 itself is an "A".  The
    answer is one of the five letters and depends only on the value of
    [marks], not on how the number is written. *)
Theorem calculate_grade_thresholds (marks : Q) :
  (calculate_grade marks = "A" ↔ (90 <= marks)%Q) ∧
  (calculate_grade marks = "B" ↔ (80 <= marks < 90)%Q) ∧
  (calculate_grade marks = "C" ↔ (70 <= marks < 80)%Q) ∧
  (calculate_grade marks = "D" ↔ (60 <= marks < 70)%Q) ∧
  (calculate_grade marks = "F" ↔ (marks < 60)%Q) ∧
  calculate_grade 90 = "A" ∧
  calculate_grade marks ∈ ["A"; "B"; "C"; "D"; "F"] ∧
  (∀ marks' : Q, (marks == marks')%Q → calculate_grade marks = calculate_grade marks').
Proof.
  split_and!;
    try (grade_cases marks; split; intros; first [done | lra | exfalso; lra]).
  - grade_cases marks; set_solver.
  - intros marks' H. unfold calculate_grade.
    by rewrite !(py_ge_proper marks marks').
Qed.

(** ** The store *)

Lemma backfill_fst (s : Student.t) (r : bool) : (backfill s r).1 = normalize s.
Proof.
  unfold normalize, backfill.
  destruct (Student.grade s); simpl;
    by destruct (Student.registered_courses s).
Qed.

Lemma backfill_snd (s : Student.t) (r : bool) :
  (backfill s r).2 = r || needs_backfill s.
Proof.
  unfold needs_backfill, backfill.
  case_bool_decide;
    destruct (Student.grade s) eqn:G; simpl;
    destruct (Student.registered_courses s) eqn:R; simpl;
    destruct r; intuition congruence.
Qed.

Lemma normalize_id (s : Student.t) : needs_backfill s = false → normalize s = s.
Proof.
  unfold needs_backfill, normalize, backfill. intros H.
  apply bool_decide_eq_false in H.
  destruct (Student.grade s) eqn:G; [|naive_solver]. simpl.
  destruct (Student.registered_courses s) eqn:R; [done | naive_solver].
Qed.

Lemma backfill_all_fst (l : list Student.t) (r : bool) :
  (backfill_all l r).1 = normalize <$> l.
Proof.
  revert r. induction l as [|s l IH]; intros r; [done|]. simpl.
  destruct (backfill s r) as [s' r1] eqn:E.
  specialize (IH r1). destruct (backfill_all l r1) as [l' r2].
  cbn [fst] in *. f_equal; [|exact IH].
  by rewrite <- (backfill_fst s r), E.
Qed.

Lemma backfill_all_snd (l : list Student.t) (r : bool) :
  (backfill_all l r).2 = r || existsb needs_backfill l.
Proof.
  revert r. induction l as [|s l IH]; intros r; simpl; [by rewrite orb_false_r|].
  destruct (backfill s r) as [s' r1] eqn:E.
  specialize (IH r1). destruct (backfill_all l r1) as [l' r2]. simpl in *.
  rewrite IH. pose proof (backfill_snd s r) as H. rewrite E in H. simpl in H.
  by rewrite H, orb_assoc.
Qed.

Lemma normalize_all_id (l : list Student.t) :
  existsb needs_backfill l = false → normalize <$> l = l.
Proof.
  induction l as [|s l IH]; [done|]. intros [H1 H2]%orb_false_elim.
  by rewrite fmap_cons, normalize_id, IH.
Qed.

(** [load_students] returns the normalized records, and the file then
    holds exactly what was returned; a write happens when some record
    lacked a key. *)
Lemma load_students_spec (d : disk) :
  load_students d =
    (normalize <$> students_json d,
     Disk (normalize <$> students_json d)
          (if existsb needs_backfill (students_json d)
           then S (writes d) else writes d)).
Proof.
  unfold load_students.
  pose proof (backfill_all_fst (students_json d) false) as H1.
  pose proof (backfill_all_snd (students_json d) false) as H2.
  destruct (backfill_all (students_json d) false) as [l r]. simpl in *.
  subst. destruct (existsb needs_backfill (students_json d)) eqn:E; [done|].
  rewrite normalize_all_id by done. by destruct d.
Qed.

Lemma normalize_roll_no (s : Student.t) :
  Student.roll_no (normalize s) = Student.roll_no s.
Proof.
  unfold normalize, backfill.
  destruct (Student.grade s); simpl;
    by destruct (Student.registered_courses s).
Qed.

Lemma roll_numbers_normalize (l : list Student.t) :
  roll_numbers (normalize <$> l) = roll_numbers l.
Proof.
  unfold roll_numbers. rewrite <- list_fmap_compose.
  apply list_fmap_ext. intros _ s _. apply normalize_roll_no.
Qed.

Lemma bind_load {A} (k : list Student.t → IO A) (d : disk) :
  (load_students ≫= k) d = k (load_students d).1 (load_students d).2.
Proof. unfold mbind, IO_bind. by destruct (load_students d). Qed.

Lemma load_students_disk (d : disk) :
  students_json (load_students d).2 = (load_students d).1.
Proof. by rewrite load_students_spec. Qed.

Lemma load_students_clean (d : disk) :
  existsb needs_backfill (students_json d) = false → load_students d = (students_json d, d).
Proof.
  intros H. rewrite load_students_spec, H, normalize_all_id by done.
  by destruct d.
Qed.

Lemma nonempty_false (s : string) : nonempty s = false ↔ s = "".
Proof. by destruct s. Qed.

Lemma roll_no_found (students : list Student.t) (r : string) :
  is_Some (list_find (λ s, Student.roll_no s = r) students)
  ↔ r ∈ roll_numbers students.
Proof.
  unfold roll_numbers. rewrite list_elem_of_fmap. split.
  - intros [[i s] (? & ? & ?)%list_find_Some]. exists s.
    split; [done|]. by eapply list_elem_of_lookup_2.
  - intros (s & -> & Hs). apply list_find_elem_of with s; done.
Qed.

(** ** Adding a student *)

(** The store as [add_student] itself writes it: the record has no
    [registered_courses] key. *)
Example add_student_fresh :
  add_student " A " "1" 85 (Disk [] 0)
  = (Success "Student ' A ' added successfully!",
     Disk [Student.mk "A" "1" 85 (Some "B") None None None] 1).
Proof. reflexivity. Qed.

(** A rejected [add_student] still runs [load_students] first, and that
    call rewrites the file when a record lacks [registered_courses]: the
    store written by the previous example is saved once more, with the key
    filled in, although the new roll number is refused. *)
Lemma add_student_duplicate_touches_storage :
  add_student "B" "1" 50 (Disk [Student.mk "A" "1" 85 (Some "B") None None None] 0)
  = (Warning "Roll number 1 already exists for student: A",
     Disk [Student.mk "A" "1" 85 (Some "B") (Some []) None None] 1)
  ∧ (add_student "B" "1" 50
       (Disk [Student.mk "A" "1" 85 (Some "B") None None None] 0)).2
    ≠ Disk [Student.mk "A" "1" 85 (Some "B") None None None] 0.
Proof. split; [reflexivity | discriminate]. Qed.

(** C5 (amended). [add_student] makes no save of its own when the
    trimmed name or roll number is empty, when [marks] is below 0 or above
    100, or when the trimmed roll number is already the [roll_no] of a
    loaded record: the store is then exactly as [load_students] left it
    (which is the store before the call when no record lacked [grade] or
    [registered_courses]).  Otherwise it saves once, the loaded records in
    their order followed by one new record with the trimmed name and roll
    number, the marks, [grade = calculate_grade(marks)] and no
    [registered_courses] key. *)
Theorem add_student_spec (name roll_no : string) (marks : Q) (d : disk) :
  let students := (load_students d).1 in
  let rejected :=
    strip name = "" ∨ strip roll_no = "" ∨ (marks < 0)%Q ∨ (100 < marks)%Q ∨
    strip roll_no ∈ roll_numbers students in
  (rejected →
     (add_student name roll_no marks d).2 = (load_students d).2 ∧
     (∀ msg, (add_student name roll_no marks d).1 ≠ Success msg)) ∧
  (¬ rejected →
     add_student name roll_no marks d
     = (Success ("Student '" +:+ name +:+ "' added successfully!"),
        Disk (students ++
              [Student.mk (strip name) (strip roll_no) marks
                          (Some (calculate_grade marks)) None None None])
             (S (writes (load_students d).2)))) ∧
  (existsb needs_backfill (students_json d) = false →
     load_students d = (students_json d, d)).
Proof.
  intros students rejected. subst rejected.
  split_and!; [| |apply load_students_clean].
  - intros H. unfold add_student. rewrite bind_load. fold students.
    destruct (nonempty (strip name)) eqn:E1; simpl; [|done].
    destruct (nonempty (strip roll_no)) eqn:E2; simpl; [|done].
    destruct (py_lt marks 0) eqn:E3; simpl; [done|].
    destruct (py_lt 100 marks) eqn:E4; simpl; [done|].
    destruct (list_find _ students) as [[i s]|] eqn:E5; simpl; [done|].
    exfalso. destruct H as [H|[H|[H|[H|H]]]].
    + apply nonempty_false in H. congruence.
    + apply nonempty_false in H. congruence.
    + apply py_lt_spec in H. congruence.
    + apply py_lt_spec in H. congruence.
    + apply roll_no_found in H. rewrite E5 in H. by destruct H.
  - intros H. unfold add_student. rewrite bind_load. fold students.
    destruct (nonempty (strip name)) eqn:E1; simpl;
      [|apply nonempty_false in E1; tauto].
    destruct (nonempty (strip roll_no)) eqn:E2; simpl;
      [|apply nonempty_false in E2; tauto].
    destruct (py_lt marks 0) eqn:E3; simpl; [apply py_lt_spec in E3; tauto|].
    destruct (py_lt 100 marks) eqn:E4; simpl; [apply py_lt_spec in E4; tauto|].
    destruct (list_find _ students) as [[i s]|] eqn:E5; simpl; [|done].
    exfalso. apply H. do 4 right. apply roll_no_found. by rewrite E5.
Qed.

Lemma add_student_spec_witness :
  (add_student "B" "1" 50 (Disk [Student.mk "A" "1" 85 (Some "B") (Some []) None None] 0)).2
  = Disk [Student.mk "A" "1" 85 (Some "B") (Some []) None None] 0
  ∧ add_student "C" "2" 91 (Disk [] 0)
    = (Success "Student 'C' added successfully!",
       Disk [Student.mk "C" "2" 91 (Some "A") None None None] 1).
Proof.
  split.
  - refine (proj1 (proj1 (add_student_spec "B" "1" 50
              (Disk [Student.mk "A" "1" 85 (Some "B") (Some []) None None] 0)) _)).
    do 4 right. vm_compute. set_solver.
  - refine (proj1 (proj2 (add_student_spec "C" "2" 91 (Disk [] 0))) _).
    vm_compute. intros [H|[H|[H|[H|H]]]]; try done. set_solver.
Defined.

(** ** How lists of records evolve *)

Lemma keeps_rolls_refl (l : list Student.t) : keeps_rolls l l.
Proof. by intros H. Qed.

Lemma keeps_rolls_trans (l1 l2 l3 : list Student.t) :
  keeps_rolls l1 l2 → keeps_rolls l2 l3 → keeps_rolls l1 l3.
Proof. unfold keeps_rolls. auto. Qed.

Lemma keeps_rolls_same (l l' : list Student.t) :
  roll_numbers l' = roll_numbers l → keeps_rolls l l'.
Proof. unfold keeps_rolls. by intros ->. Qed.

Lemma keeps_grades_refl (l : list Student.t) : keeps_grades l l.
Proof. intros s Hs. right. by exists s. Qed.

Lemma keeps_grades_trans (l1 l2 l3 : list Student.t) :
  keeps_grades l1 l2 → keeps_grades l2 l3 → keeps_grades l1 l3.
Proof.
  intros H12 H23 s3 Hs3.
  destruct (H23 s3 Hs3) as [?|(s2 & Hs2 & R2 & M2 & G2)]; [by left|].
  destruct (H12 s2 Hs2) as [D|(s1 & Hs1 & R1 & M1 & G1)].
  - left. unfold grade_derived in *. by rewrite G2, M2.
  - right. exists s1. unfold carried. split; [done|].
    split_and!; congruence.
Qed.

Lemma keeps_grades_sub (l1 l2 l3 : list Student.t) :
  keeps_grades l1 l2 → l3 ⊆ l2 → keeps_grades l1 l3.
Proof. intros H Hsub s Hs. apply H, Hsub, Hs. Qed.

Lemma roll_numbers_alter (f : Student.t → Student.t) (i : nat)
  (l : list Student.t) :
  (∀ s, Student.roll_no (f s) = Student.roll_no s) →
  roll_numbers (alter f i l) = roll_numbers l.
Proof.
  intros Hf. unfold roll_numbers. revert i.
  induction l as [|s l IH]; intros [|i]; simpl; [done..| |].
  - by rewrite Hf.
  - f_equal. apply IH.
Qed.

Lemma elem_of_alter (f : Student.t → Student.t) (i : nat)
  (l : list Student.t) (s' : Student.t) :
  s' ∈ alter f i l → s' ∈ l ∨ ∃ s, s ∈ l ∧ s' = f s.
Proof.
  revert i. induction l as [|s l IH]; intros [|i]; simpl.
  - set_solver.
  - set_solver.
  - intros [->|H]%elem_of_cons; [right; exists s|left]; set_solver.
  - intros [->|H]%elem_of_cons; [set_solver|].
    destruct (IH i H) as [?|(s0 & ? & ?)]; [set_solver|].
    right. exists s0. set_solver.
Qed.

Lemma respectful_alter (f : Student.t → Student.t) (i : nat)
  (l : list Student.t) :
  respectful f → keeps_rolls l (alter f i l) ∧ keeps_grades l (alter f i l).
Proof.
  intros Hf. split.
  - apply keeps_rolls_same, roll_numbers_alter. intros s. apply Hf.
  - intros s' [Hs'|(s & Hs & ->)]%elem_of_alter.
    + right. by exists s'.
    + destruct (Hf s) as [_ [?|?]]; [by left|right; by exists s].
Qed.

Lemma respectful_fmap (f : Student.t → Student.t) (l : list Student.t) :
  respectful f → keeps_rolls l (f <$> l) ∧ keeps_grades l (f <$> l).
Proof.
  intros Hf. split.
  - apply keeps_rolls_same. unfold roll_numbers. rewrite <- list_fmap_compose.
    apply list_fmap_ext. intros _ s _. apply Hf.
  - intros s' (s & -> & Hs)%list_elem_of_fmap.
    destruct (Hf s) as [_ [?|?]]; [by left|right; by exists s].
Qed.

Lemma respectful_id : respectful id.
Proof. intros s. split; [done|]. by right. Qed.

Lemma respectful_compose (f g : Student.t → Student.t) :
  respectful f → respectful g → respectful (f ∘ g).
Proof.
  intros Hf Hg s. destruct (Hf (g s)) as [Rf Df], (Hg s) as [Rg Dg]. simpl.
  split; [congruence|].
  destruct Df as [?|(? & M & G)]; [by left|].
  destruct Dg as [D|(? & M' & G')].
  - left. unfold grade_derived in *. by rewrite G, M.
  - right. unfold carried. split_and!; congruence.
Qed.

Lemma respectful_normalize : respectful normalize.
Proof.
  intros s. split; [apply normalize_roll_no|].
  unfold normalize, backfill, grade_derived, carried.
  destruct (Student.grade s) eqn:G; simpl;
    destruct (Student.registered_courses s); simpl; auto.
Qed.

Lemma load_evolves (d : disk) :
  keeps_rolls (students_json d) (load_students d).1 ∧
  keeps_grades (students_json d) (load_students d).1.
Proof.
  rewrite load_students_spec. apply respectful_fmap, respectful_normalize.
Qed.

(** ** What each handler leaves in the store *)

Lemma save_then {A} (students : list Student.t) (a : A) (d : disk) :
  (save_students students ≫= λ _, mret a) d = (a, Disk students (S (writes d))).
Proof. reflexivity. Qed.

(** Open a handler up to its call of [load_students]: [students] is the
    loaded list, [d'] the store after loading, [Hd'] relates them. *)
Ltac enter handler d :=
  unfold handler; rewrite bind_load;
  pose proof (load_students_disk d) as Hd';
  destruct (load_students d) as [students d'];
  cbn [fst snd] in Hd' |- *.

(** Close a branch in which the handler does not save. *)
Ltac untouched :=
  cbn [mret IO_ret snd fst];
  match goal with
  | H : students_json ?d = _ |- evolves _ (students_json ?d) =>
      rewrite H; split; [apply keeps_rolls_refl | apply keeps_grades_refl]
  end.

Lemma evolves_refl (l : list Student.t) : evolves l l.
Proof. split; [apply keeps_rolls_refl | apply keeps_grades_refl]. Qed.

Lemma evolves_trans (l1 l2 l3 : list Student.t) :
  evolves l1 l2 → evolves l2 l3 → evolves l1 l3.
Proof.
  intros [] []. split;
    [by eapply keeps_rolls_trans | by eapply keeps_grades_trans].
Qed.

Lemma evolves_nil (l : list Student.t) : evolves l [].
Proof. split; [intros _; constructor | intros s Hs; set_solver]. Qed.

Lemma evolves_filter (P : Student.t → Prop) `{!∀ s, Decision (P s)}
  (l : list Student.t) : evolves l (filter P l).
Proof.
  split.
  - unfold keeps_rolls, roll_numbers. intros Hnd.
    eapply sublist_NoDup; [exact Hnd|]. apply fmap_sublist, sublist_filter.
  - intros s [_ Hs]%list_elem_of_filter. right. by exists s.
Qed.

Lemma evolves_snoc (l : list Student.t) (s : Student.t) :
  Student.roll_no s ∉ roll_numbers l → grade_derived s → evolves l (l ++ [s]).
Proof.
  intros Hr Hg. split.
  - unfold keeps_rolls, roll_numbers. rewrite fmap_app. intros H.
    apply NoDup_app. split_and!; [done| |apply NoDup_singleton].
    intros r Hin. simpl. by intros ->%list_elem_of_singleton.
  - intros s' [Hs'| ->%list_elem_of_singleton]%elem_of_app; [|by left].
    right. by exists s'.
Qed.

Lemma add_student_evolves (name roll_no : string) (marks : Q) (d : disk) :
  evolves (load_students d).1
          (students_json (add_student name roll_no marks d).2).
Proof.
  enter add_student d.
  destruct (nonempty (strip name)); simpl; [|untouched].
  destruct (nonempty (strip roll_no)); simpl; [|untouched].
  destruct (py_lt marks 0 || py_lt 100 marks); simpl;
    [untouched|].
  destruct (list_find _ students) as [[i s]|] eqn:E; simpl;
    [untouched|].
  apply evolves_snoc; [|done]. simpl.
  intros Hin%roll_no_found. rewrite E in Hin. by destruct Hin.
Qed.

Lemma respectful_set_marks (m : Q) :
  respectful (λ s, Student.set_grade (calculate_grade m) (Student.set_marks m s)).
Proof. intros s. split; [done|]. by left. Qed.

Lemma respectful_set_registered_courses (f : Student.t → list string) :
  respectful (λ s, Student.set_registered_courses (f s) s).
Proof. intros s. split; [done|]. by right. Qed.

Lemma respectful_set_course_grades (c : list (string * Q)) :
  respectful (Student.set_course_grades c).
Proof. intros s. split; [done|]. by right. Qed.

Lemma evolves_alter (f : Student.t → Student.t) (i : nat) (l : list Student.t) :
  respectful f → evolves l (alter f i l).
Proof. apply respectful_alter. Qed.

Lemma evolves_fmap (f : Student.t → Student.t) (l : list Student.t) :
  respectful f → evolves l (f <$> l).
Proof. apply respectful_fmap. Qed.

Lemma update_student_marks_evolves (selected : string) (new_marks : Q)
  (button : bool) (d : disk) :
  evolves (load_students d).1
          (students_json (update_student_marks selected new_marks button d).2).
Proof.
  enter update_student_marks d.
  destruct students as [|s0 l] eqn:Es; [untouched|].
  destruct (selectbox _ selected) as [roll_no|];
    [|untouched].
  destruct (list_find _ _) as [[i current]|];
    [|untouched].
  destruct button; [|untouched].
  destruct (py_ne _ _); [|untouched].
  rewrite save_then. apply evolves_alter, respectful_set_marks.
Qed.

Lemma delete_student_evolves (str_of_num : Q → string) (selected : string)
  (confirm button : bool) (d : disk) :
  evolves (load_students d).1
          (students_json (delete_student str_of_num selected confirm button d).2).
Proof.
  enter delete_student d.
  destruct students as [|s0 l] eqn:Es; [untouched|].
  destruct (selectbox _ selected) as [chosen|];
    [|untouched].
  destruct (confirm && button); [|untouched].
  rewrite save_then. apply evolves_filter.
Qed.

Lemma reset_all_data_evolves (show_reset_modal yes : bool) (d : disk) :
  evolves (students_json d)
          (students_json (reset_all_data show_reset_modal yes d).2).
Proof.
  unfold reset_all_data.
  destruct (show_reset_modal && yes); [apply evolves_nil | apply evolves_refl].
Qed.

Lemma register_tab_evolves (students students' : list Student.t)
  (courses : list Course.t) (form : RegistrationForm.t) :
  register_tab students courses form = Some students' →
  evolves students students'.
Proof.
  unfold register_tab. intros H.
  destruct (selectbox (student_refs students) _) as [[i s]|]; [|done].
  simpl in H. destruct (selectbox _ _) as [c|]; [|done].
  simpl in H. injection H as <-.
  apply evolves_alter.
  apply (respectful_set_registered_courses
           (λ s, Student.get_registered_courses s ++ [Course.course_id c])).
Qed.

Lemma drop_tab_evolves (students students' : list Student.t)
  (courses : list Course.t) (form : RegistrationForm.t) :
  drop_tab students courses form = Some students' →
  evolves students students'.
Proof.
  unfold drop_tab. intros H.
  destruct (selectbox (student_refs students) _) as [[i s]|]; [|done].
  simpl in H. destruct (selectbox _ _) as [c|]; [|done].
  simpl in H. injection H as <-.
  apply evolves_alter.
  apply (respectful_set_registered_courses
           (λ s, list_remove_first c (Student.get_registered_courses s))).
Qed.

Lemma course_registration_evolves (courses : list Course.t)
  (form : RegistrationForm.t) (d : disk) :
  evolves (load_students d).1
          (students_json (course_registration courses form d).2).
Proof.
  enter course_registration d.
  destruct students as [|s0 l] eqn:Es; [untouched|].
  destruct courses as [|c0 cs] eqn:Ec; [untouched|].
  destruct (RegistrationForm.button form); [untouched| |].
  - destruct (register_tab _ _ _) as [students'|] eqn:E;
      [|untouched].
    rewrite save_then. by eapply register_tab_evolves.
  - destruct (drop_tab _ _ _) as [students'|] eqn:E;
      [|untouched].
    rewrite save_then. by eapply drop_tab_evolves.
Qed.

Lemma respectful_update_grades (fl : FloatOps.t) (new_marks : Q)
  (course_grades : list (string * Q)) :
  respectful (update_grades fl new_marks course_grades).
Proof.
  intros s. unfold update_grades.
  destruct (py_ne new_marks (Student.marks s)), course_grades;
    (split; [done|]); first [by left | by right].
Qed.

Lemma respectful_bulk_adjust (fl : FloatOps.t)
  (min_range max_range bulk_adjustment : Q) :
  respectful (λ s, (bulk_adjust fl min_range max_range bulk_adjustment s).1).
Proof.
  intros s. unfold bulk_adjust.
  destruct (_ && _); [|apply respectful_id].
  destruct (py_ne _ _); [|apply respectful_id].
  split; [done|]. by left.
Qed.

Lemma respectful_course_adjust (fl : FloatOps.t) (selected_course : string)
  (course_adjustment : Q) :
  respectful (λ s, (course_adjust fl selected_course course_adjustment s).1).
Proof.
  intros s. unfold course_adjust.
  destruct (dict_get _ _) as [old|]; [|apply respectful_id].
  destruct (py_ne _ _); [|apply respectful_id].
  destruct (dict_set _ _ _); (split; [done|]); first [by left | by right].
Qed.

Lemma for_each_fst (body : Student.t → Student.t * bool)
  (students : list Student.t) :
  (for_each body students).1 = (λ s, (body s).1) <$> students.
Proof. unfold for_each. simpl. by rewrite <- list_fmap_compose. Qed.

Lemma after_inputs_evolves (students : list Student.t)
  (edited : option (nat * list (string * Q))) :
  evolves students (after_inputs students edited).
Proof.
  destruct edited as [[i cg]|]; [|apply evolves_refl]. simpl.
  apply evolves_alter. intros s.
  destruct (Student.course_grades s);
    [apply respectful_set_course_grades | apply respectful_id].
Qed.

Lemma grade_management_evolves (fl : FloatOps.t) (courses : list Course.t)
  (form : GradeForm.t) (d : disk) :
  evolves (load_students d).1
          (students_json (grade_management fl courses form d).2).
Proof.
  enter grade_management d.
  destruct students as [|s0 l] eqn:Es; [untouched|]. rewrite <- Es in *.
  clear Es s0 l.
  pose proof (after_inputs_evolves students (edited_grades students form)) as Hin.
  destruct (GradeForm.button form); try untouched.
  - destruct (edited_grades students form) as [[i cg]|]; [|untouched].
    rewrite save_then. eapply evolves_trans; [exact Hin|].
    apply evolves_alter, respectful_update_grades.
  - destruct (for_each _ _) as [students' n] eqn:E.
    destruct (bool_decide (0 < n)%nat); [|untouched].
    rewrite save_then. eapply evolves_trans; [exact Hin|].
    apply (f_equal fst) in E. rewrite for_each_fst in E. simpl in E. subst.
    apply evolves_fmap, respectful_bulk_adjust.
  - destruct (bool_decide (_ ∈ _)); [|untouched].
    destruct (for_each _ _) as [students' n] eqn:E.
    destruct (bool_decide (0 < n)%nat); [|untouched].
    rewrite save_then. eapply evolves_trans; [exact Hin|].
    apply (f_equal fst) in E. rewrite for_each_fst in E. simpl in E. subst.
    apply evolves_fmap, respectful_course_adjust.
Qed.

Lemma attendance_tracking_disk (now : string) (courses : list Course.t)
  (form : AttendanceForm.t) (d : disk) :
  (attendance_tracking now courses form d).2 = (load_students d).2.
Proof.
  unfold attendance_tracking. rewrite bind_load.
  destruct (load_students d) as [students d']. cbn [fst snd].
  destruct students, courses; try done.
  destruct (selectbox _ _); [|done].
  destruct (AttendanceForm.button form); try done.
  destruct (selectbox _ _) as [[i s]|]; [|done].
  by destruct (bool_decide _).
Qed.

(** ** Bulk import *)

Lemma import_fold (existing_rolls : gset string) (df : list Clean.t)
  (acc : Tally.t) :
  fold_left (import_row existing_rolls) df acc
  = Tally.mk (Tally.students acc ++ (imported_record <$> new_rows existing_rolls df))
             (Tally.added acc + length (new_rows existing_rolls df))
             (Tally.skipped acc + length (old_rows existing_rolls df))
             (Tally.errors acc).
Proof.
  revert acc. induction df as [|row df IH]; intros acc.
  - simpl. rewrite app_nil_r, !Nat.add_0_r. by destruct acc.
  - simpl. rewrite IH. unfold import_row, new_rows, old_rows.
    rewrite !filter_cons.
    destruct (decide (strip (Clean.roll_no row) ∈ existing_rolls)) as [Hin|Hin].
    + rewrite bool_decide_eq_true_2 by done.
      rewrite decide_False by (intros ?; done). simpl.
      f_equal. lia.
    + rewrite bool_decide_eq_false_2 by done.
      rewrite decide_True by done. simpl. rewrite <- app_assoc. simpl.
      f_equal. lia.
Qed.

Lemma clean_row_grade (r : Row.t) (row : Clean.t) :
  clean_row r = Some row → Clean.grade row = calculate_grade (Clean.marks row).
Proof.
  unfold clean_row. destruct (Row.name r), (Row.roll_no r), (Row.marks r);
    simpl; try done.
  destruct (_ && _); [|done]. by intros [= <-].
Qed.

Lemma clean_grade (rows : list Row.t) (row : Clean.t) :
  row ∈ clean rows → Clean.grade row = calculate_grade (Clean.marks row).
Proof.
  unfold clean. intros (r & _ & Hr)%list_elem_of_omap.
  by eapply clean_row_grade.
Qed.

Lemma upload_file_cases (uploaded_file : upload) (d : disk) :
  (upload_file uploaded_file d).2 = d ∨
  (upload_file uploaded_file d).2 = (load_students d).2 ∨
  ∃ rows,
    uploaded_file = Frame rows ∧
    (upload_file uploaded_file d).2
    = Disk ((load_students d).1 ++
            (imported_record <$>
               new_rows (list_to_set (roll_numbers (load_students d).1)) (clean rows)))
           (S (writes (load_students d).2)).
Proof.
  destruct uploaded_file as [| | | |rows]; try (by left).
  unfold upload_file. destruct (clean rows) as [|r0 df] eqn:Ec; [by left|].
  rewrite <- Ec. clear Ec r0 df. rewrite bind_load.
  destruct (load_students d) as [students d']. cbn [fst snd].
  rewrite import_fold. cbn [Tally.students Tally.added].
  destruct (bool_decide _); [|by right; left].
  right; right. exists rows. split; [done|]. by rewrite save_then.
Qed.


Lemma upload_file_keeps_rolls (uploaded_file : upload) (d : disk) :
  NoDup (batch_rolls uploaded_file) →
  keeps_rolls (students_json d) (students_json (upload_file uploaded_file d).2).
Proof.
  intros Hbatch.
  destruct (upload_file_cases uploaded_file d) as [->|[->|(rows & -> & ->)]].
  - apply keeps_rolls_refl.
  - rewrite load_students_disk. apply load_evolves.
  - eapply keeps_rolls_trans; [apply load_evolves|]. cbn [students_json].
    set (students := (load_students d).1).
    unfold keeps_rolls, roll_numbers. intros Hnd. rewrite fmap_app.
    apply NoDup_app. split_and!; [done| |].
    + intros r Hr (s & -> & (row & -> & Hrow)%list_elem_of_fmap)%list_elem_of_fmap.
      apply list_elem_of_filter in Hrow as [Hnew _]. apply Hnew.
      by apply elem_of_list_to_set.
    + rewrite <- list_fmap_compose.
      eapply sublist_NoDup; [exact Hbatch|]. simpl.
      apply (fmap_sublist (λ row, strip (Clean.roll_no row))), sublist_filter.
Qed.

(** C2. On the batch of the example, against an empty store, the code
    adds both rows and reports [skipped = 0]: the set [existing_rolls] is
    computed once before the loop and never extended, so the second row
    with roll number "1" is not recognised.  The claim expects one record
    and [skipped = 1]. *)
Theorem upload_file_same_roll_batch :
  upload_file same_roll_batch (Disk [] 0)
  = (Success "File processed successfully!",
     Some (Tally.mk [Student.mk "A" "1" 85 (Some "B") None None None;
                     Student.mk "B" "1" 50 (Some "F") None None None]
                    2 0 []),
     Disk [Student.mk "A" "1" 85 (Some "B") None None None;
           Student.mk "B" "1" 50 (Some "F") None None None] 1).
Proof. vm_compute. reflexivity. Qed.

(** The half of the rule that the loop does implement: a row whose roll
    number is already in the store is counted as skipped and not added. *)
Lemma upload_file_skips_stored_rolls (rows : list Row.t) (d : disk)
  (result : Tally.t) (shown : notice) :
  (upload_file (Frame rows) d).1 = (shown, Some result) →
  let stored : gset string := list_to_set (roll_numbers (load_students d).1) in
  Tally.skipped result = length (old_rows stored (clean rows)) ∧
  Tally.added result = length (new_rows stored (clean rows)) ∧
  Tally.students result
  = (load_students d).1 ++ (imported_record <$> new_rows stored (clean rows)).
Proof.
  unfold upload_file. destruct (clean rows) as [|r0 df] eqn:Ec; [done|].
  rewrite <- Ec. clear Ec r0 df. rewrite bind_load.
  destruct (load_students d) as [students d']. cbn [fst snd].
  rewrite import_fold. cbn [Tally.students Tally.added Tally.skipped].
  destruct (bool_decide _); intros [= <- <-]; done.
Qed.

(** ** Every operation *)


Lemma run_keeps_rolls (a : action) (d : disk) :
  batch_distinct a → keeps_rolls (students_json d) (students_json (run a d)).
Proof.
  intros Hbatch. pose proof (load_evolves d) as [Hload _].
  destruct a; simpl;
    [eapply keeps_rolls_trans; [exact Hload|] |
     | eapply keeps_rolls_trans; [exact Hload|]..
     | ].
  - apply add_student_evolves.
  - by apply upload_file_keeps_rolls.
  - apply update_student_marks_evolves.
  - apply delete_student_evolves.
  - apply course_registration_evolves.
  - apply grade_management_evolves.
  - rewrite attendance_tracking_disk, load_students_disk.
    apply keeps_rolls_refl.
  - apply reset_all_data_evolves.
Qed.

Lemma add_student_duplicate (name roll_no : string) (marks : Q) (d : disk) :
  strip roll_no ∈ roll_numbers (load_students d).1 →
  (add_student name roll_no marks d).2 = (load_students d).2.
Proof.
  intros Hin%roll_no_found. unfold add_student. rewrite bind_load.
  destruct (nonempty (strip name)); simpl; [|done].
  destruct (nonempty (strip roll_no)); simpl; [|done].
  destruct (py_lt marks 0 || py_lt 100 marks); simpl; [done|].
  destruct (list_find _ _) as [[i s]|]; [done|]. by destruct Hin.
Qed.

Lemma load_students_roll_numbers (d : disk) :
  roll_numbers (load_students d).1 = roll_numbers (students_json d).
Proof. rewrite load_students_spec. apply roll_numbers_normalize. Qed.

(** ** Uniqueness of roll numbers *)

(** Two ways in which a store with pairwise distinct roll numbers is not
    left as the claim says.  A refused duplicate [add_student] still
    rewrites the stored collection (the loader fills in the missing
    [registered_courses] key and saves); and importing the two-row batch
    of the example stores two records with roll number "1". *)
Lemma duplicate_roll_counterexample :
  ("1" ∈ roll_numbers [Student.mk "A" "1" 85 (Some "B") None None None] ∧
   students_json
     (run (AddStudent "B" "1" 50)
          (Disk [Student.mk "A" "1" 85 (Some "B") None None None] 0))
   ≠ [Student.mk "A" "1" 85 (Some "B") None None None]) ∧
  roll_numbers (students_json (run (BulkImport same_roll_batch) (Disk [] 0)))
  = ["1"; "1"].
Proof.
  split_and!.
  - vm_compute. set_solver.
  - vm_compute. discriminate.
  - vm_compute. reflexivity.
Qed.

(** C1 (amended). From a stored collection with pairwise distinct roll
    numbers, every operation (adding, bulk import, updating marks,
    deleting, course registration and drop, grade management, attendance
    marking, reset) leaves a stored collection with pairwise distinct roll
    numbers, provided that the roll numbers a bulk import brings are
    pairwise distinct among themselves.  [add_student] with a roll number
    that is already stored makes no save of its own: the store is the one
    [load_students] left, with the same roll numbers.  A bulk import only
    appends roll numbers that were not stored. *)
Theorem roll_numbers_stay_distinct (a : action) (d : disk) :
  NoDup (roll_numbers (students_json d)) →
  (batch_distinct a → NoDup (roll_numbers (students_json (run a d)))) ∧
  (∀ name roll_no marks,
     a = AddStudent name roll_no marks →
     strip roll_no ∈ roll_numbers (students_json d) →
     run a d = (load_students d).2 ∧
     roll_numbers (students_json (run a d)) = roll_numbers (students_json d)) ∧
  (∀ uploaded_file,
     a = BulkImport uploaded_file →
     ∃ fresh,
       roll_numbers (students_json (run a d))
       = roll_numbers (students_json d) ++ fresh ∧
       ∀ r, r ∈ fresh → r ∉ roll_numbers (students_json d)).
Proof.
  intros Hnd. split_and!.
  - intros Hbatch. by apply (run_keeps_rolls a d Hbatch).
  - intros name roll_no marks -> Hin. simpl.
    rewrite add_student_duplicate by by rewrite load_students_roll_numbers.
    split; [done|].
    by rewrite load_students_disk, load_students_roll_numbers.
  - intros uploaded_file ->. simpl.
    destruct (upload_file_cases uploaded_file d) as [->|[->|(rows & -> & ->)]].
    + exists []. rewrite app_nil_r. set_solver.
    + exists []. rewrite app_nil_r, load_students_disk, load_students_roll_numbers.
      set_solver.
    + eexists. cbn [students_json]. unfold roll_numbers at 1.
      rewrite fmap_app. fold (roll_numbers (load_students d).1).
      rewrite load_students_roll_numbers. split; [done|].
      intros r (s & -> & (row & -> & Hrow)%list_elem_of_fmap)%list_elem_of_fmap.
      apply list_elem_of_filter in Hrow as [Hnew _]. simpl.
      intros Hin. apply Hnew. by apply elem_of_list_to_set.
Qed.

Lemma roll_numbers_stay_distinct_witness :
  NoDup (roll_numbers
           (students_json
              (run (BulkImport
                      (Frame [Row.mk (Some "C") (Some "1") (Some 70%Q);
                              Row.mk (Some "D") (Some " 2 ") (Some 95%Q)]))
                   (Disk [Student.mk "A" "1" 85 (Some "B") (Some []) None None] 0)))).
Proof.
  refine (proj1 (roll_numbers_stay_distinct
                   (BulkImport
                      (Frame [Row.mk (Some "C") (Some "1") (Some 70%Q);
                              Row.mk (Some "D") (Some " 2 ") (Some 95%Q)]))
                   (Disk [Student.mk "A" "1" 85 (Some "B") (Some []) None None] 0)
                   _) _).
  - vm_compute. apply NoDup_singleton.
  - vm_compute. apply NoDup_cons. split; [|apply NoDup_singleton].
    rewrite list_elem_of_singleton. discriminate.
Defined.

(** ** The loader on raw files *)

Lemma dict_get_set_eq {V} (k : string) (v : V) (d : list (string * V)) :
  dict_get k (dict_set k v d) = Some v.
Proof.
  induction d as [|[k' v'] d IH]; simpl.
  - by rewrite bool_decide_eq_true_2.
  - case_bool_decide; simpl; [by rewrite bool_decide_eq_true_2|].
    by rewrite bool_decide_eq_false_2.
Qed.

Lemma dict_get_set_ne {V} (k k' : string) (v : V) (d : list (string * V)) :
  k ≠ k' → dict_get k' (dict_set k v d) = dict_get k' d.
Proof.
  intros Hne. induction d as [|[k0 v0] d IH]; simpl.
  - by rewrite bool_decide_eq_false_2.
  - case_bool_decide; simpl.
    + subst. by rewrite !bool_decide_eq_false_2.
    + by rewrite IH.
Qed.

Lemma dict_has_get {V} (k : string) (d : list (string * V)) :
  dict_has k d = true ↔ is_Some (dict_get k d).
Proof. unfold dict_has. apply bool_decide_eq_true. Qed.

Lemma dict_has_none {V} (k : string) (d : list (string * V)) :
  dict_has k d = false ↔ dict_get k d = None.
Proof.
  unfold dict_has. rewrite bool_decide_eq_false, <- eq_None_not_Some. done.
Qed.

Lemma dict_has_set_ne {V} (k k' : string) (v : V) (d : list (string * V)) :
  k ≠ k' → dict_has k' (dict_set k v d) = dict_has k' d.
Proof. intros Hne. unfold dict_has. by rewrite dict_get_set_ne. Qed.

Lemma backfill_grade_obj (float_of_str : string → option Q)
  (o : list (string * json)) (v : json) :
  dict_get "marks" o = Some v →
  backfill_grade float_of_str (JObj o)
  = if overflows v then Raise OverflowError
    else Ok (JObj (dict_set "grade" (JStr (letter_of float_of_str v)) o)).
Proof.
  intros Hv. unfold backfill_grade, letter_of, overflows. simpl.
  rewrite Hv. simpl.
  destruct v as [|b|q|s|items|fields]; simpl; try done.
  - by destruct (in_float_range q).
  - destruct (float_of_str s); done.
Qed.

Lemma backfill_json_obj (float_of_str : string → option Q)
  (o : list (string * json)) (r : bool) :
  backfill_json float_of_str (JObj o) r
  = if overflowing o then Raise OverflowError
    else Ok (JObj (backfilled float_of_str o), r || lacks_key o).
Proof.
  unfold backfill_json, backfilled, lacks_key, overflowing. simpl.
  destruct (dict_has "grade" o) eqn:Hg; simpl.
  - apply dict_has_get in Hg as [g Hg]. rewrite Hg.
    destruct (dict_has "registered_courses" o); simpl;
      by rewrite ?orb_true_r, ?orb_false_r.
  - apply dict_has_none in Hg. rewrite Hg.
    destruct (dict_has "marks" o) eqn:Hm; simpl.
    + apply dict_has_get in Hm as [v Hv]. rewrite Hv.
      rewrite (backfill_grade_obj _ _ v) by done.
      destruct (overflows v); [done|]. simpl.
      rewrite dict_has_set_ne by done.
      destruct (dict_has "registered_courses" o); simpl;
        by rewrite ?orb_true_r, ?orb_false_r.
    + apply dict_has_none in Hm. rewrite Hm.
      destruct (dict_has "registered_courses" o); simpl;
        by rewrite ?orb_true_r, ?orb_false_r.
Qed.

Lemma backfill_loop_objs (float_of_str : string → option Q)
  (objs : list (list (string * json))) (r : bool) :
  backfill_loop float_of_str (JObj <$> objs) r
  = if existsb overflowing objs then Raise OverflowError
    else Ok (JObj <$> (backfilled float_of_str <$> objs),
             r || existsb lacks_key objs).
Proof.
  revert r. induction objs as [|o objs IH]; intros r.
  - simpl. by rewrite orb_false_r.
  - rewrite !fmap_cons. cbn [backfill_loop existsb].
    rewrite backfill_json_obj.
    destruct (overflowing o); [done|]. simpl. rewrite IH.
    destruct (existsb overflowing objs); [done|]. simpl.
    by rewrite orb_assoc.
Qed.

Lemma backfilled_id (float_of_str : string → option Q)
  (o : list (string * json)) :
  lacks_key o = false → backfilled float_of_str o = o.
Proof.
  unfold lacks_key, backfilled.
  intros [H1 H2%negb_false_iff]%orb_false_elim.
  destruct (dict_get "grade" o) eqn:Hg; [by rewrite H2|].
  apply dict_has_none in Hg. rewrite Hg in H1. simpl in H1.
  apply dict_has_none in H1. by rewrite H1, H2.
Qed.

Lemma backfilled_all_id (float_of_str : string → option Q)
  (objs : list (list (string * json))) :
  existsb lacks_key objs = false → backfilled float_of_str <$> objs = objs.
Proof.
  induction objs as [|o objs IH]; [done|]. intros [H1 H2]%orb_false_elim.
  by rewrite fmap_cons, backfilled_id, IH.
Qed.

(** On an array of objects the loader returns the array of the
    back-filled objects, and the file then holds what was returned. *)
Lemma load_students_file_objs (float_of_str : string → option Q)
  (objs : list (list (string * json))) :
  existsb overflowing objs = false →
  load_students_file float_of_str (Parsed (JArr (JObj <$> objs)))
  = (Ok (JArr (JObj <$> (backfilled float_of_str <$> objs))),
     Parsed (JArr (JObj <$> (backfilled float_of_str <$> objs)))).
Proof.
  intros Hsafe.
  unfold load_students_file. simpl. rewrite backfill_loop_objs, Hsafe. simpl.
  destruct (existsb lacks_key objs) eqn:E; [done|].
  by rewrite backfilled_all_id.
Qed.


Lemma backfilled_spec (float_of_str : string → option Q)
  (o : list (string * json)) :
  record_backfilled float_of_str o (backfilled float_of_str o).
Proof.
  unfold record_backfilled. split_and!; [| | |apply backfilled_id].
  - unfold backfilled.
    destruct (dict_get "grade" o) as [g|] eqn:Hg.
    + destruct (dict_has "registered_courses" o); [done|].
      by rewrite dict_get_set_ne.
    + destruct (dict_get "marks" o) as [v|] eqn:Hm.
      * rewrite dict_has_set_ne by done.
        destruct (dict_has "registered_courses" o);
          rewrite ?(dict_get_set_ne "registered_courses") by done;
          apply dict_get_set_eq.
      * destruct (dict_has "registered_courses" o); [done|].
        by rewrite dict_get_set_ne.
  - unfold backfilled.
    set (o1 := match dict_get "grade" o with
               | Some _ => o
               | None => match dict_get "marks" o with
                         | Some v => dict_set "grade" (JStr (letter_of float_of_str v)) o
                         | None => o
                         end
               end).
    assert (dict_get "registered_courses" o1 = dict_get "registered_courses" o)
      as Hsame.
    { subst o1. destruct (dict_get "grade" o); [done|].
      destruct (dict_get "marks" o); [|done]. by rewrite dict_get_set_ne. }
    destruct (dict_has "registered_courses" o1) eqn:Hrc.
    + apply dict_has_get in Hrc as [x Hx]. rewrite Hx. rewrite <- Hsame, Hx. done.
    + apply dict_has_none in Hrc. rewrite dict_get_set_eq.
      by rewrite <- Hsame, Hrc.
  - intros k Hk1 Hk2. unfold backfilled.
    set (o1 := match dict_get "grade" o with
               | Some _ => o
               | None => match dict_get "marks" o with
                         | Some v => dict_set "grade" (JStr (letter_of float_of_str v)) o
                         | None => o
                         end
               end).
    assert (dict_get k o1 = dict_get k o) as Hsame.
    { subst o1. destruct (dict_get "grade" o); [done|].
      destruct (dict_get "marks" o); [|done]. by rewrite dict_get_set_ne. }
    destruct (dict_has "registered_courses" o1); [done|].
    by rewrite dict_get_set_ne.
Qed.

(** ** Grade and marks *)

Example load_backfills_grade :
  load_students_file digits_only
    (Parsed (JArr [JObj [("roll_no", JStr "S1"); ("marks", JNum 55)];
                   JObj [("roll_no", JStr "S2"); ("marks", JStr "91")];
                   JObj [("roll_no", JStr "S3"); ("marks", JNull)]]))
  = (Ok (JArr [JObj [("roll_no", JStr "S1"); ("marks", JNum 55);
                     ("grade", JStr "F"); ("registered_courses", JArr [])];
               JObj [("roll_no", JStr "S2"); ("marks", JStr "91");
                     ("grade", JStr "A"); ("registered_courses", JArr [])];
               JObj [("roll_no", JStr "S3"); ("marks", JNull);
                     ("grade", JStr "F"); ("registered_courses", JArr [])]]),
     Parsed (JArr [JObj [("roll_no", JStr "S1"); ("marks", JNum 55);
                         ("grade", JStr "F"); ("registered_courses", JArr [])];
                   JObj [("roll_no", JStr "S2"); ("marks", JStr "91");
                         ("grade", JStr "A"); ("registered_courses", JArr [])];
                   JObj [("roll_no", JStr "S3"); ("marks", JNull);
                         ("grade", JStr "F"); ("registered_courses", JArr [])]])).
Proof. vm_compute. reflexivity. Qed.




(** ** Loading never fails on a missing or unparseable file *)




(** ** Updating marks touches one record *)

Example update_marks_scenario :
  update_student_marks "S1 - A" 91 true
    (Disk [Student.mk "A" "S1" 55 None None None None] 0)
  = (Success "Updated marks",
     Disk [Student.mk "A" "S1" 91 (Some "A") (Some []) None None] 2).
Proof. reflexivity. Qed.

(** C10. When [update_student_marks] changes a student's marks and saves,
    the saved collection has the length and order of the loaded one; one
    record, the target, differs from the loaded one, and only in [marks]
    (the new marks) and [grade] (their letter); every other position
    holds the loaded record, in particular every record whose roll number
    is not the target's.  The loaded collection is the stored one when no
    stored record lacked [grade] or [registered_courses]. *)
Theorem update_student_marks_frame (selected : string) (new_marks : Q)
  (button : bool) (d : disk) (msg : string) :
  (update_student_marks selected new_marks button d).1 = Success msg →
  let before := (load_students d).1 in
  let after := students_json (update_student_marks selected new_marks button d).2 in
  length after = length before ∧
  (existsb needs_backfill (students_json d) = false → before = students_json d) ∧
  ∃ i target target',
    before !! i = Some target ∧
    after !! i = Some target' ∧
    (∀ j, j ≠ i → after !! j = before !! j) ∧
    (∀ j s, before !! j = Some s →
            Student.roll_no s ≠ Student.roll_no target → after !! j = Some s) ∧
    Student.marks target' = new_marks ∧
    Student.grade target' = Some (calculate_grade new_marks) ∧
    Student.name target' = Student.name target ∧
    Student.roll_no target' = Student.roll_no target ∧
    Student.registered_courses target' = Student.registered_courses target ∧
    Student.attendance target' = Student.attendance target ∧
    Student.course_grades target' = Student.course_grades target.
Proof.
  intros Hsaved before after. subst before after. revert Hsaved.
  assert (existsb needs_backfill (students_json d) = false →
          (load_students d).1 = students_json d) as Hclean.
  { intros H. by rewrite load_students_clean. }
  revert Hclean.
  enter update_student_marks d. intros Hclean.
  destruct students as [|s0 l] eqn:Es; [done|]. rewrite <- Es in *.
  clear Es s0 l.
  destruct (selectbox _ selected) as [roll_no|]; [|done].
  destruct (list_find _ _) as [[i target]|] eqn:Ef; [|done].
  destruct button; [|done].
  destruct (py_ne _ _); [|done].
  rewrite save_then. cbn [fst snd students_json]. intros _.
  apply list_find_Some in Ef as (Hi & Hroll & _).
  split; [apply length_alter|]. split; [done|].
  exists i, target,
    (Student.set_grade (calculate_grade new_marks)
       (Student.set_marks new_marks target)).
  split_and!; try done.
  - by rewrite list_lookup_alter_eq, Hi.
  - intros j Hj. by apply list_lookup_alter_ne.
  - intros j s Hj Hne. rewrite list_lookup_alter_ne; [done|].
    intros ->. rewrite Hi in Hj. by injection Hj as ->.
Qed.

Lemma update_student_marks_frame_witness :
  length (students_json
            (update_student_marks "S1 - A" 91 true
               (Disk [Student.mk "A" "S1" 55 (Some "F") (Some []) None None;
                      Student.mk "B" "S2" 70 (Some "C") (Some []) None None] 0)).2)
  = 2%nat.
Proof.
  refine (proj1 (update_student_marks_frame "S1 - A" 91 true
                   (Disk [Student.mk "A" "S1" 55 (Some "F") (Some []) None None;
                          Student.mk "B" "S2" 70 (Some "C") (Some []) None None] 0)
                   "Updated marks" _)).
  reflexivity.
Defined.

(** ** Attendance *)

Lemma find_upsert (date status now : string) (records : list Entry.t) :
  match list_find (λ r, Entry.date r = date) records with
  | Some (i, _) => alter (λ r, Entry.mk (Entry.date r) status now) i records
  | None => records ++ [Entry.mk date status now]
  end = upsert (Entry.mk date status now) records.
Proof.
  induction records as [|r rest IH]; [done|].
  cbn [list_find upsert Entry.date]. case_decide as Hr.
  - rewrite bool_decide_eq_true_2 by done. simpl. by rewrite Hr.
  - rewrite bool_decide_eq_false_2 by done.
    destruct (list_find _ rest) as [[i x]|]; simpl in *; by rewrite <- IH.
Qed.

Lemma mark_attendance_entries (now : string) (student : Student.t)
  (course_id date status : string) :
  entries (mark_attendance now student course_id date status) course_id
  = upsert (Entry.mk date status now) (entries student course_id).
Proof.
  unfold mark_attendance, entries.
  set (att := default [] (Student.attendance student)).
  assert (default [] (dict_get course_id
            (if dict_has course_id att then att else dict_set course_id [] att))
          = default [] (dict_get course_id att)) as Hrec.
  { destruct (dict_has course_id att) eqn:E; [done|].
    apply dict_has_none in E. by rewrite dict_get_set_eq, E. }
  rewrite Hrec. rewrite <- find_upsert.
  destruct (list_find _ _) as [[i x]|]; simpl; by rewrite dict_get_set_eq.
Qed.

Lemma mark_attendance_other_course (now : string) (student : Student.t)
  (course_id date status other : string) :
  other ≠ course_id →
  entries (mark_attendance now student course_id date status) other
  = entries student other.
Proof.
  intros Hne. unfold mark_attendance, entries.
  set (att := default [] (Student.attendance student)).
  assert (dict_get other
            (if dict_has course_id att then att else dict_set course_id [] att)
          = dict_get other att) as Hrec.
  { destruct (dict_has course_id att); [done|]. by rewrite dict_get_set_ne. }
  destruct (list_find _ _) as [[i x]|]; simpl;
    by rewrite dict_get_set_ne, Hrec.
Qed.

Lemma upsert_absent (new : Entry.t) (records : list Entry.t) :
  on_date (Entry.date new) records = [] → upsert new records = records ++ [new].
Proof.
  unfold on_date. induction records as [|r rest IH]; [done|].
  rewrite filter_cons. simpl. case_decide as Hr; [done|].
  intros H. rewrite bool_decide_eq_false_2 by done. by rewrite IH.
Qed.

Lemma upsert_present (new : Entry.t) (records : list Entry.t) (i : nat)
  (r : Entry.t) :
  list_find (λ r, Entry.date r = Entry.date new) records = Some (i, r) →
  upsert new records = <[i := new]> records.
Proof.
  revert i. induction records as [|r0 rest IH]; intros i; [done|].
  cbn [list_find upsert]. case_decide as Hr.
  - intros [= <- <-]. by rewrite bool_decide_eq_true_2.
  - rewrite bool_decide_eq_false_2 by done.
    destruct (list_find _ rest) as [[j x]|]; [|done]. simpl.
    intros [= <- <-]. simpl. by rewrite (IH j).
Qed.

Lemma upsert_length_present (new : Entry.t) (records : list Entry.t) :
  on_date (Entry.date new) records ≠ [] →
  length (upsert new records) = length records.
Proof.
  unfold on_date. induction records as [|r rest IH]; [done|].
  rewrite filter_cons. simpl. case_decide as Hr.
  - by rewrite bool_decide_eq_true_2.
  - intros H. rewrite bool_decide_eq_false_2 by done. simpl. by rewrite IH.
Qed.

Lemma upsert_on_date (new : Entry.t) (records : list Entry.t) :
  on_date (Entry.date new) (upsert new records)
  = new :: tail (on_date (Entry.date new) records).
Proof.
  unfold on_date. induction records as [|r rest IH].
  - simpl. rewrite filter_cons, decide_True by done. done.
  - simpl. rewrite (filter_cons _ r). case_bool_decide as Hr.
    + rewrite decide_True by done. simpl.
      rewrite filter_cons, decide_True by done. done.
    + rewrite decide_False by done.
      rewrite filter_cons, decide_False by done. done.
Qed.

Lemma upsert_other_dates (new : Entry.t) (date : string)
  (records : list Entry.t) :
  date ≠ Entry.date new →
  on_date date (upsert new records) = on_date date records.
Proof.
  intros Hne. unfold on_date. induction records as [|r rest IH].
  - simpl. by rewrite filter_cons, decide_False.
  - simpl. case_bool_decide as Hr.
    + rewrite !filter_cons, !decide_False by congruence. done.
    + rewrite !filter_cons, IH. done.
Qed.

Example mark_attendance_twice :
  entries
    (mark_attendance "09:05:00"
       (mark_attendance "09:00:00"
          (Student.mk "A" "S1" 55 (Some "F") (Some ["CS101"]) None None)
          "CS101" "2024-01-15" "Present")
       "CS101" "2024-01-15" "Absent")
    "CS101"
  = [Entry.mk "2024-01-15" "Absent" "09:05:00"].
Proof. reflexivity. Qed.

(** C7. One call of [mark_attendance] appends an entry when the course's
    list has none for the date, and otherwise overwrites status and time
    of the first entry for the date, adding none; the entries of other
    dates and of other courses stay as they are.  After two calls for the
    same course and date the list has as many entries as after the first,
    and when it held at most one entry for the date before (as the data
    model has it), it holds exactly one afterwards, with the status and
    time of the second call. *)
Theorem mark_attendance_upsert (now1 now2 : string) (student : Student.t)
  (course_id date status1 status2 : string) :
  let once := mark_attendance now1 student course_id date status1 in
  let twice := mark_attendance now2 once course_id date status2 in
  (on_date date (entries student course_id) = [] →
   entries once course_id
   = entries student course_id ++ [Entry.mk date status1 now1]) ∧
  (∀ i r, list_find (λ r, Entry.date r = date) (entries student course_id)
          = Some (i, r) →
          entries once course_id
          = <[i := Entry.mk date status1 now1]> (entries student course_id)) ∧
  on_date date (entries once course_id)
  = Entry.mk date status1 now1 :: tail (on_date date (entries student course_id)) ∧
  (∀ other, other ≠ date →
     on_date other (entries twice course_id)
     = on_date other (entries student course_id)) ∧
  (∀ other, other ≠ course_id → entries twice other = entries student other) ∧
  length (entries twice course_id) = length (entries once course_id) ∧
  on_date date (entries twice course_id)
  = Entry.mk date status2 now2 :: tail (on_date date (entries student course_id)) ∧
  (length (on_date date (entries student course_id)) ≤ 1 →
   on_date date (entries twice course_id) = [Entry.mk date status2 now2]).
Proof.
  intros once twice. subst once twice.
  rewrite !mark_attendance_entries.
  set (records := entries student course_id).
  set (e1 := Entry.mk date status1 now1). set (e2 := Entry.mk date status2 now2).
  assert (on_date date (upsert e2 (upsert e1 records))
          = e2 :: tail (on_date date records)) as Htwice.
  { rewrite (upsert_on_date e2), (upsert_on_date e1). done. }
  split_and!.
  - apply (upsert_absent e1).
  - apply (upsert_present e1).
  - apply (upsert_on_date e1).
  - intros other Hne.
    by rewrite (upsert_other_dates e2), (upsert_other_dates e1).
  - intros other Hne. by rewrite !mark_attendance_other_course.
  - apply (upsert_length_present e2). simpl.
    by rewrite (upsert_on_date e1).
  - exact Htwice.
  - intros Hle. rewrite Htwice.
    destruct (on_date date records) as [|r [|r' rest]]; simpl in *; [done..|lia].
Qed.

Lemma mark_attendance_upsert_witness :
  on_date "2024-01-15"
    (entries
       (mark_attendance "09:05:00"
          (mark_attendance "09:00:00"
             (Student.mk "A" "S1" 55 (Some "F") (Some ["CS101"])
                (Some [("CS101", [Entry.mk "2024-01-15" "Late" "08:00:00";
                                  Entry.mk "2024-01-16" "Present" "08:00:00"])])
                None)
             "CS101" "2024-01-15" "Present")
          "CS101" "2024-01-15" "Absent")
       "CS101")
  = [Entry.mk "2024-01-15" "Absent" "09:05:00"].
Proof.
  refine (proj2 (proj2 (proj2 (proj2 (proj2 (proj2 (proj2
            (mark_attendance_upsert "09:00:00" "09:05:00"
               (Student.mk "A" "S1" 55 (Some "F") (Some ["CS101"])
                  (Some [("CS101", [Entry.mk "2024-01-15" "Late" "08:00:00";
                                    Entry.mk "2024-01-16" "Present" "08:00:00"])])
                  None)
               "CS101" "2024-01-15" "Present" "Absent"))))))) _).
  vm_compute. lia.
Defined.

(** ** Select boxes *)

Lemma dict_get_elem_of {V} (k : string) (d : list (string * V)) (v : V) :
  dict_get k d = Some v → (k, v) ∈ d.
Proof.
  induction d as [|[k' v'] d IH]; simpl; [done|].
  case_bool_decide as Hk.
  - intros [= ->]. subst. left.
  - intros H. right. by apply IH.
Qed.

Lemma selectbox_elem_of {V} (options : list (string * V)) (choice : string)
  (v : V) :
  selectbox options choice = Some v → (choice, v) ∈ options.
Proof.
  unfold selectbox. intros H%dict_get_elem_of. by apply elem_of_reverse.
Qed.

Lemma selectbox_student_refs (students : list Student.t) (choice : string)
  (i : nat) (s : Student.t) :
  selectbox (student_refs students) choice = Some (i, s) →
  students !! i = Some s ∧ student_label s = choice.
Proof.
  intros H%selectbox_elem_of. unfold student_refs in H.
  apply elem_of_lookup_imap_1 in H as (j & y & [= -> -> ->] & Hj). done.
Qed.

(** ** Course registration *)

Lemma filter_length_alter (P : Student.t → Prop) `{!∀ s, Decision (P s)}
  (f : Student.t → Student.t) (l : list Student.t) (i : nat) (s : Student.t) :
  l !! i = Some s →
  length (filter P (alter f i l)) + (if decide (P s) then 1 else 0)
  = length (filter P l) + (if decide (P (f s)) then 1 else 0).
Proof.
  revert i. induction l as [|x l IH]; intros [|i]; simpl; try done.
  - intros [= ->]. rewrite !filter_cons.
    destruct (decide (P s)), (decide (P (f s))); simpl; lia.
  - intros Hi. specialize (IH i Hi). rewrite !filter_cons. unfold alter in IH.
    destruct (decide (P x)); simpl; lia.
Qed.

Lemma registered_count_append (students : list Student.t) (i : nat)
  (s : Student.t) (course_id : string) :
  students !! i = Some s →
  course_id ∉ Student.get_registered_courses s →
  let students' :=
    alter (λ s, Student.set_registered_courses
                  (Student.get_registered_courses s ++ [course_id]) s) i students in
  registered_count students' course_id = S (registered_count students course_id) ∧
  ∀ other, other ≠ course_id →
           registered_count students' other = registered_count students other.
Proof.
  intros Hi Hnot students'. subst students'. unfold registered_count. split.
  - pose proof (filter_length_alter
                  (λ s, course_id ∈ Student.get_registered_courses s)
                  (λ s, Student.set_registered_courses
                          (Student.get_registered_courses s ++ [course_id]) s)
                  students i s Hi) as H.
    rewrite decide_False in H by done.
    rewrite decide_True in H; [lia|].
    unfold Student.get_registered_courses at 1. simpl.
    apply elem_of_app. right. apply list_elem_of_singleton. done.
  - intros other Hne.
    pose proof (filter_length_alter
                  (λ s, other ∈ Student.get_registered_courses s)
                  (λ s, Student.set_registered_courses
                          (Student.get_registered_courses s ++ [course_id]) s)
                  students i s Hi) as H.
    cbn beta in H.
    destruct (decide (other ∈ Student.get_registered_courses s)) as [Hin|Hin].
    + rewrite decide_True in H; [lia|].
      unfold Student.get_registered_courses at 1. simpl.
      apply elem_of_app. by left.
    + rewrite decide_False in H; [lia|].
      unfold Student.get_registered_courses at 1. simpl.
      rewrite elem_of_app, list_elem_of_singleton. tauto.
Qed.

(** What a pressed "Register for Course" button did, when it did
    something. *)
Lemma register_tab_Some (students students' : list Student.t)
  (courses : list Course.t) (form : RegistrationForm.t) :
  register_tab students courses form = Some students' →
  ∃ i s c,
    students !! i = Some s ∧
    student_label s = RegistrationForm.register_student_select form ∧
    c ∈ courses ∧
    course_label c = RegistrationForm.register_course_select form ∧
    (Z.of_nat (registered_count students (Course.course_id c))
     < Course.max_students c)%Z ∧
    (Course.course_id c ∉ Student.get_registered_courses s) ∧
    students'
    = alter (λ s, Student.set_registered_courses
                    (Student.get_registered_courses s ++ [Course.course_id c]) s)
            i students.
Proof.
  unfold register_tab. intros H.
  destruct (selectbox (student_refs students) _) as [[i s]|] eqn:Es; [|done].
  simpl in H. destruct (selectbox (_ <$> _) _) as [c|] eqn:Ec; [|done].
  simpl in H. injection H as <-.
  apply selectbox_student_refs in Es as [Hi Hlabel].
  apply selectbox_elem_of, list_elem_of_fmap in Ec as (c' & [= Hl ->] & Hc).
  apply list_elem_of_filter in Hc as [[Hcap Hnot] Hc].
  by exists i, s, c'.
Qed.

Lemma register_tab_full (students : list Student.t) (courses : list Course.t)
  (form : RegistrationForm.t) :
  (∀ c, c ∈ courses →
        course_label c = RegistrationForm.register_course_select form →
        (Course.max_students c
         ≤ Z.of_nat (registered_count students (Course.course_id c)))%Z) →
  register_tab students courses form = None.
Proof.
  intros Hfull.
  destruct (register_tab students courses form) as [students'|] eqn:E; [|done].
  apply register_tab_Some in E as (i & s & c & _ & _ & Hc & Hl & Hcap & _).
  specialize (Hfull c Hc Hl). lia.
Qed.

Lemma fmap_NoDup_inj {A B} (f : A → B) (l : list A) (x y : A) :
  NoDup (f <$> l) → x ∈ l → y ∈ l → f x = f y → x = y.
Proof.
  induction l as [|a l IH]; [set_solver|].
  rewrite fmap_cons, NoDup_cons. intros [Ha Hnd] Hx Hy Hf.
  apply elem_of_cons in Hx as [->|Hx]; apply elem_of_cons in Hy as [->|Hy];
    try done.
  - exfalso. apply Ha. rewrite Hf. by apply list_elem_of_fmap_2.
  - exfalso. apply Ha. rewrite <- Hf. by apply list_elem_of_fmap_2.
  - by apply IH.
Qed.

Example registration_fills_course :
  let course := Course.mk "CS101" "Programming" 1 in
  let form1 := RegistrationForm.mk "S1 - A" "CS101 - Programming" "" ""
                 register_course_btn in
  let form2 := RegistrationForm.mk "S2 - B" "CS101 - Programming" "" ""
                 register_course_btn in
  let d0 := Disk [Student.mk "A" "S1" 55 (Some "F") (Some []) None None;
                  Student.mk "B" "S2" 70 (Some "C") (Some []) None None] 0 in
  let d1 := (course_registration [course] form1 d0).2 in
  d1 = Disk [Student.mk "A" "S1" 55 (Some "F") (Some ["CS101"]) None None;
             Student.mk "B" "S2" 70 (Some "C") (Some []) None None] 1
  ∧ course_registration [course] form2 d1 = (Quiet, d1).
Proof. split; reflexivity. Qed.

(** C9. A registration is refused (nothing is saved, no success is
    shown) whenever the number of loaded students whose
    [registered_courses] holds the course has reached the course's
    [max_students]; the number is counted on the collection that this
    very call has loaded from the file.  A registration that succeeds is
    for a course below its limit, raises that course's count by one, to
    at most [max_students], and leaves the count of every other course
    as it was; with unique course identifiers no course that was within
    its limit is above it afterwards. *)
Theorem registration_respects_capacity (courses : list Course.t)
  (form : RegistrationForm.t) (d : disk) :
  RegistrationForm.button form = register_course_btn →
  let students := (load_students d).1 in
  let outcome := course_registration courses form d in
  students_json (load_students d).2 = students ∧
  ((∀ c, c ∈ courses →
         course_label c = RegistrationForm.register_course_select form →
         (Course.max_students c
          ≤ Z.of_nat (registered_count students (Course.course_id c)))%Z) →
   outcome.2 = (load_students d).2 ∧ ∀ msg, outcome.1 ≠ Success msg) ∧
  (∀ msg, outcome.1 = Success msg →
     let students' := students_json outcome.2 in
     ∃ c, c ∈ courses ∧
          course_label c = RegistrationForm.register_course_select form ∧
          (Z.of_nat (registered_count students (Course.course_id c))
           < Course.max_students c)%Z ∧
          registered_count students' (Course.course_id c)
          = S (registered_count students (Course.course_id c)) ∧
          (Z.of_nat (registered_count students' (Course.course_id c))
           ≤ Course.max_students c)%Z ∧
          (∀ other, other ≠ Course.course_id c →
                    registered_count students' other
                    = registered_count students other) ∧
          (NoDup (Course.course_id <$> courses) →
           ∀ c', c' ∈ courses →
                 (Z.of_nat (registered_count students (Course.course_id c'))
                  ≤ Course.max_students c')%Z →
                 (Z.of_nat (registered_count students' (Course.course_id c'))
                  ≤ Course.max_students c')%Z)).
Proof.
  intros Hbtn students outcome. subst students outcome.
  split; [apply load_students_disk|].
  unfold course_registration. rewrite bind_load.
  destruct (load_students d) as [students d']. cbn [fst snd]. rewrite Hbtn.
  split.
  - intros Hfull. rewrite (register_tab_full _ _ _ Hfull).
    destruct students, courses; done.
  - intros msg.
    destruct students as [|s0 l] eqn:Es; [done|]. rewrite <- Es. clear Es s0 l.
    destruct courses as [|c0 cs] eqn:Ec; [done|]. rewrite <- Ec. clear Ec c0 cs.
    destruct (register_tab students courses form) as [students'|] eqn:E; [|done].
    rewrite save_then. cbn [fst snd students_json]. intros _.
    apply register_tab_Some in E as (i & s & c & Hi & _ & Hc & Hl & Hcap & Hnot & ->).
    destruct (registered_count_append students i s (Course.course_id c) Hi Hnot)
      as [Hcount Hother].
    exists c. split_and!; try done.
    + rewrite Hcount. lia.
    + intros Hnd c' Hc' Hle.
      destruct (decide (Course.course_id c' = Course.course_id c)) as [Heq|Hne].
      * assert (c' = c) as -> by by eapply fmap_NoDup_inj.
        rewrite Hcount. lia.
      * by rewrite Hother.
Qed.

Lemma registration_respects_capacity_witness :
  (course_registration [Course.mk "CS101" "Programming" 1]
     (RegistrationForm.mk "S2 - B" "CS101 - Programming" "" "" register_course_btn)
     (Disk [Student.mk "A" "S1" 55 (Some "F") (Some ["CS101"]) None None;
            Student.mk "B" "S2" 70 (Some "C") (Some []) None None] 0)).2
  = Disk [Student.mk "A" "S1" 55 (Some "F") (Some ["CS101"]) None None;
          Student.mk "B" "S2" 70 (Some "C") (Some []) None None] 0.
Proof.
  refine (proj1 (proj1 (proj2 (registration_respects_capacity
            [Course.mk "CS101" "Programming" 1]
            (RegistrationForm.mk "S2 - B" "CS101 - Programming" "" ""
               register_course_btn)
            (Disk [Student.mk "A" "S1" 55 (Some "F") (Some ["CS101"]) None None;
                   Student.mk "B" "S2" 70 (Some "C") (Some []) None None] 0)
            _)) _)).
  - reflexivity.
  - intros c ->%list_elem_of_singleton _. vm_compute. discriminate.
Defined.

(** ** Course grades and the overall mark *)

Lemma py_ne_refl (a : Q) : py_ne a a = false.
Proof. unfold py_ne. by rewrite (proj2 (Qeq_bool_iff a a) (Qeq_refl a)). Qed.

Lemma fold_left_Qplus (xs : list Q) (a : Q) :
  (fold_left Qplus xs a == a + fold_left Qplus xs 0)%Q.
Proof.
  revert a. induction xs as [|x xs IH]; intros a; simpl.
  - lra.
  - rewrite (IH (a + x)%Q), (IH (0 + x)%Q). lra.
Qed.

Lemma exact_sum_foldr (xs : list Q) :
  (FloatOps.sum exact xs == foldr Qplus 0 xs)%Q.
Proof.
  unfold exact, rounded. cbn [FloatOps.sum].
  change (fold_left (λ acc x : Q, (acc + x)%Q) xs 0%Q) with (fold_left Qplus xs 0%Q).
  induction xs as [|x xs IH]; simpl; [reflexivity|].
  rewrite fold_left_Qplus, IH. lra.
Qed.

(** Without rounding, the mean times the number of values is their sum. *)
Lemma exact_mean_spec (d : list (string * Q)) :
  d ≠ [] →
  (mean exact d * inject_Z (Z.of_nat (length d)) == foldr Qplus 0 d.*2)%Q.
Proof.
  intros Hd. unfold mean. rewrite <- exact_sum_foldr.
  assert (¬ (inject_Z (Z.of_nat (length d)) == 0)%Q) as Hn.
  { destruct d; [done|]. unfold Qeq. simpl. lia. }
  unfold exact, rounded. cbn [FloatOps.div FloatOps.sum].
  field. exact Hn.
Qed.

Lemma course_inputs_cons (course_marks : string → Q) (c : string)
  (rest : list string) (cg : list (string * Q)) :
  course_inputs course_marks (c :: rest) cg
  = course_inputs course_marks rest
      (if py_ne (course_marks c) (default 0%Q (dict_get c cg))
       then dict_set c (course_marks c) cg else cg).
Proof. reflexivity. Qed.

Lemma course_inputs_stable (course_marks : string → Q) (c : string)
  (registered : list string) (cg : list (string * Q)) :
  dict_get c cg = Some (course_marks c) →
  dict_get c (course_inputs course_marks registered cg) = Some (course_marks c).
Proof.
  revert cg. induction registered as [|x rest IH]; intros cg Hc; [done|].
  rewrite course_inputs_cons. apply IH.
  destruct (py_ne _ _) eqn:E; [|done].
  destruct (decide (x = c)) as [->|Hne].
  - apply dict_get_set_eq.
  - by rewrite dict_get_set_ne.
Qed.

(** An input that differs from what is recorded is recorded. *)
Lemma course_inputs_sets (course_marks : string → Q) (c : string)
  (registered : list string) (cg : list (string * Q)) :
  c ∈ registered →
  py_ne (course_marks c) (default 0%Q (dict_get c cg)) = true →
  dict_get c (course_inputs course_marks registered cg) = Some (course_marks c).
Proof.
  revert cg. induction registered as [|x rest IH]; intros cg Hin Hne.
  - by apply elem_of_nil in Hin.
  - rewrite course_inputs_cons.
    destruct (decide (x = c)) as [->|Hx].
    + rewrite Hne. apply course_inputs_stable, dict_get_set_eq.
    + apply elem_of_cons in Hin as [->|Hin]; [done|].
      apply IH; [done|].
      destruct (py_ne (course_marks x) _); [|done].
      by rewrite dict_get_set_ne.
Qed.

Lemma py_ne_false (a b : Q) : py_ne a b = false ↔ (a == b)%Q.
Proof. unfold py_ne. rewrite negb_false_iff. apply Qeq_bool_iff. Qed.

(** A grade that is the input stays the input to the end of the loop. *)
Lemma course_inputs_keeps (course_marks : string → Q) (c : string)
  (registered : list string) (cg : list (string * Q)) :
  (default 0 (dict_get c cg) == course_marks c)%Q →
  (default 0 (dict_get c (course_inputs course_marks registered cg))
   == course_marks c)%Q.
Proof.
  revert cg. induction registered as [|x rest IH]; intros cg Hc; [done|].
  rewrite course_inputs_cons. apply IH.
  destruct (py_ne _ _) eqn:E; [|done].
  destruct (decide (x = c)) as [->|Hne].
  - rewrite dict_get_set_eq. reflexivity.
  - by rewrite dict_get_set_ne.
Qed.

(** After the loop every registered course holds its input: the value
    that was entered, or the recorded one that is equal to it. *)
Lemma course_inputs_holds (course_marks : string → Q) (c : string)
  (registered : list string) (cg : list (string * Q)) :
  c ∈ registered →
  (default 0 (dict_get c (course_inputs course_marks registered cg))
   == course_marks c)%Q.
Proof.
  revert cg. induction registered as [|x rest IH]; intros cg Hin.
  - by apply elem_of_nil in Hin.
  - destruct (decide (x = c)) as [->|Hx].
    + rewrite course_inputs_cons. apply course_inputs_keeps.
      destruct (py_ne _ _) eqn:E.
      * rewrite dict_get_set_eq. reflexivity.
      * apply py_ne_false in E. by symmetry.
    + apply elem_of_cons in Hin as [->|Hin]; [done|].
      rewrite course_inputs_cons. by apply IH.
Qed.

Lemma update_grades_spec (fl : FloatOps.t) (new_marks : Q)
  (cg : list (string * Q)) (s : Student.t) :
  Student.course_grades (update_grades fl new_marks cg s) = Some cg ∧
  (cg ≠ [] →
   Student.marks (update_grades fl new_marks cg s) = mean fl cg ∧
   Student.grade (update_grades fl new_marks cg s)
   = Some (calculate_grade (mean fl cg))) ∧
  (cg = [] →
   Student.marks (update_grades fl new_marks cg s)
   = (if py_ne new_marks (Student.marks s) then new_marks else Student.marks s)).
Proof.
  unfold update_grades.
  destruct cg as [|kv cg]; destruct (py_ne new_marks (Student.marks s)); done.
Qed.

Lemma dict_set_nonempty {V} (k : string) (v : V) (d : list (string * V)) :
  dict_set k v d ≠ [].
Proof.
  intros H. pose proof (dict_get_set_eq k v d) as Hget. by rewrite H in Hget.
Qed.

(** What one turn of the course adjustment does to a record. *)
Lemma course_adjust_spec (fl : FloatOps.t) (selected_course : string)
  (course_adjustment : Q) (s : Student.t) :
  let r := course_adjust fl selected_course course_adjustment s in
  r.2 = adjusts fl selected_course course_adjustment s ∧
  (adjusts fl selected_course course_adjustment s = false → r.1 = s) ∧
  (∀ old,
     dict_get selected_course (Student.get_course_grades s) = Some old →
     py_ne (clamp (FloatOps.add fl old course_adjustment)) old = true →
     let cg := dict_set selected_course
                 (clamp (FloatOps.add fl old course_adjustment))
                 (Student.get_course_grades s) in
     r.1 = Student.set_grade (calculate_grade (mean fl cg))
             (Student.set_marks (mean fl cg)
                (Student.set_course_grades cg s))).
Proof.
  unfold course_adjust, adjusts.
  destruct (dict_get _ _) as [old|] eqn:Eo; [|done].
  destruct (py_ne _ _) eqn:Ene.
  - pose proof (dict_set_nonempty selected_course
      (clamp (FloatOps.add fl old course_adjustment))
      (Student.get_course_grades s)) as Hne.
    cbn zeta. split_and!; [ |done| ].
    + by destruct (dict_set _ _ _).
    + intros old' [= <-] _. by destruct (dict_set _ _ _).
  - cbn zeta. split_and!; [done | done |].
    intros old' [= <-] Hchanged. congruence.
Qed.

Lemma edited_grades_Some (students : list Student.t) (form : GradeForm.t)
  (i : nat) (cg : list (string * Q)) :
  edited_grades students form = Some (i, cg) →
  ∃ s, students !! i = Some s ∧
       student_label s = GradeForm.select_student_update form ∧
       Student.get_registered_courses s ≠ [] ∧
       cg = course_inputs (GradeForm.course_marks form)
              (Student.get_registered_courses s) (Student.get_course_grades s).
Proof.
  unfold edited_grades. intros H.
  destruct (selectbox (student_refs students) _) as [[j s]|] eqn:Es; [|done].
  simpl in H. apply selectbox_student_refs in Es as [Hj Hl].
  destruct (Student.get_registered_courses s) as [|c rest] eqn:Er; [done|].
  injection H as <- <-. exists s. by rewrite Er.
Qed.

(** The count of a loop is positive when its body reports an update for
    some record. *)
Lemma for_each_count (body : Student.t → Student.t * bool)
  (students : list Student.t) :
  bool_decide (0 < (for_each body students).2)%nat
  = existsb (λ s, (body s).2) students.
Proof.
  unfold for_each. cbn [snd].
  induction students as [|s l IH]; [done|].
  rewrite fmap_cons, filter_cons. cbn [existsb].
  destruct (body s) as [s' [|]]; cbn [snd].
  - rewrite decide_True by done. cbn [length orb].
    apply bool_decide_eq_true_2. lia.
  - by rewrite decide_False.
Qed.

Example update_grades_overrides_direct_edit :
  grade_management double
    [Course.mk "CS101" "Programming" 30; Course.mk "MA101" "Algebra" 30]
    (GradeForm.mk "S1 - A" 100
       (λ c, if bool_decide (c = "CS101") then 80 else 60)%Q
       0 100 0 "CS101" 0 update_grades_btn)
    (Disk [Student.mk "A" "S1" 55 (Some "F") (Some ["CS101"; "MA101"]) None None] 0)
  = (Success "Grades updated successfully!",
     Disk [Student.mk "A" "S1" 70 (Some "C") (Some ["CS101"; "MA101"]) None
             (Some [("CS101", 80%Q); ("MA101", 60%Q)])] 1).
Proof. vm_compute. reflexivity. Qed.

(** The stored marks are the rounded mean, not the mean: with the course
    grades [89.99999999999999] and [90.0] the sum rounds to [180.0], the
    student is stored with marks [90.0] and grade "A", while the mean of
    the two grades is below 90 and its letter is "B". *)
Lemma stored_mean_is_rounded :
  grade_management double
    [Course.mk "CS101" "Programming" 30; Course.mk "MA101" "Algebra" 30]
    (GradeForm.mk "S1 - A" 80
       (λ c, if bool_decide (c = "CS101") then just_below_90 else 90)%Q
       0 100 0 "CS101" 0 update_grades_btn)
    (Disk [Student.mk "A" "S1" 80 (Some "B") (Some ["CS101"; "MA101"]) None
             (Some [("CS101", just_below_90); ("MA101", 90%Q)])] 0)
  = (Success "Grades updated successfully!",
     Disk [Student.mk "A" "S1" 90 (Some "A") (Some ["CS101"; "MA101"]) None
             (Some [("CS101", just_below_90); ("MA101", 90%Q)])] 1)
  ∧ (mean exact [("CS101", just_below_90); ("MA101", 90%Q)] < 90)%Q
  ∧ calculate_grade (mean exact [("CS101", just_below_90); ("MA101", 90%Q)])
    = "B".
Proof. split_and!; vm_compute; reflexivity. Qed.

(** C8 (amended). When "Update Grades" saves, the selected student's
    [course_grades] holds, for every registered course, the entered score
    (the recorded one when the two are equal), the other records are as
    loaded, and whenever [course_grades] is then non-empty the student's
    [marks] is what [sum(course_grades.values()) / len(course_grades)]
    returns in floating point and [grade] is the letter of the stored
    marks, whatever was entered as overall marks.  "Apply Course
    Adjustment" saves exactly when the adjusted and clamped grade of some
    student for the course differs from the recorded one; every such
    student then has the new grade recorded and [marks] and [grade]
    recomputed in the same way, and every other record is as it was. *)
Theorem course_grade_update_recomputes (fl : FloatOps.t)
  (courses : list Course.t) (form : GradeForm.t) (d : disk) :
  let loaded := (load_students d).1 in
  let in_memory := after_inputs loaded (edited_grades loaded form) in
  let outcome := grade_management fl courses form d in
  let saved := students_json outcome.2 in
  let selected_course := GradeForm.bulk_course_select form in
  let adjustment := GradeForm.course_adjustment form in
  (GradeForm.button form = update_grades_btn →
   ∀ msg, outcome.1 = Success msg →
   ∃ i before after cg,
     loaded !! i = Some before ∧
     saved !! i = Some after ∧
     student_label before = GradeForm.select_student_update form ∧
     Student.course_grades after = Some cg ∧
     (∀ c, c ∈ Student.get_registered_courses before →
           (default 0 (dict_get c cg) == GradeForm.course_marks form c)%Q) ∧
     (∀ c, c ∈ Student.get_registered_courses before →
           py_ne (GradeForm.course_marks form c)
                 (default 0%Q (dict_get c (Student.get_course_grades before)))
           = true →
           dict_get c cg = Some (GradeForm.course_marks form c)) ∧
     (cg ≠ [] →
      Student.marks after = mean fl cg ∧
      Student.grade after = Some (calculate_grade (Student.marks after))) ∧
     length saved = length loaded ∧
     (∀ j, j ≠ i → saved !! j = loaded !! j)) ∧
  (GradeForm.button form = course_adjust_btn →
   selected_course ∈ Course.course_id <$> courses →
   loaded ≠ [] →
   (existsb (adjusts fl selected_course adjustment) in_memory = true →
    outcome.1 = Success "Updated course grades" ∧
    writes outcome.2 = S (writes (load_students d).2) ∧
    length saved = length in_memory ∧
    ∀ i before,
      in_memory !! i = Some before →
      ∃ after,
        saved !! i = Some after ∧
        (adjusts fl selected_course adjustment before = false →
         after = before) ∧
        (∀ old,
           dict_get selected_course (Student.get_course_grades before)
           = Some old →
           py_ne (clamp (FloatOps.add fl old adjustment)) old = true →
           let cg := dict_set selected_course
                       (clamp (FloatOps.add fl old adjustment))
                       (Student.get_course_grades before) in
           Student.course_grades after = Some cg ∧
           Student.marks after = mean fl cg ∧
           Student.grade after = Some (calculate_grade (Student.marks after)) ∧
           Student.name after = Student.name before ∧
           Student.roll_no after = Student.roll_no before ∧
           Student.registered_courses after
           = Student.registered_courses before ∧
           Student.attendance after = Student.attendance before)) ∧
   (existsb (adjusts fl selected_course adjustment) in_memory = false →
    outcome = (Info "No students found with this course.",
               (load_students d).2))).
Proof.
  cbn zeta. unfold grade_management. rewrite bind_load.
  destruct (load_students d) as [students d']. cbn [fst snd] in *.
  split; intros Hbtn; rewrite Hbtn.
  - destruct students as [|s0 l] eqn:Es; [done|]. rewrite <- Es. clear Es s0 l.
    intros msg.
    destruct (edited_grades students form) as [[i cg]|] eqn:Ee; [|done].
    rewrite save_then. cbn [fst snd students_json]. intros _.
    apply edited_grades_Some in Ee as (before & Hi & Hl & Hreg & Hcg).
    destruct (update_grades_spec fl (GradeForm.new_overall_marks form) cg
                (match Student.course_grades before with
                 | Some _ => Student.set_course_grades cg before
                 | None => before
                 end)) as (Hcourse & Hmean & _).
    eexists i, before, _, cg. split_and!; try done.
    + simpl. by rewrite !list_lookup_alter_eq, Hi.
    + intros c Hc. subst cg. by apply course_inputs_holds.
    + intros c Hc Hne. subst cg. by apply course_inputs_sets.
    + intros Hne. destruct (Hmean Hne) as [Hm Hg]. by rewrite Hg, Hm.
    + simpl. by rewrite !length_alter.
    + intros j Hj. simpl. by rewrite !list_lookup_alter_ne.
  - intros Hcourse Hne.
    destruct students as [|s0 l] eqn:Es; [done|]. rewrite <- Es. clear Es s0 l Hne.
    rewrite bool_decide_eq_true_2 by done.
    set (in_memory := after_inputs students (edited_grades students form)).
    set (body := course_adjust fl (GradeForm.bulk_course_select form)
                   (GradeForm.course_adjustment form)).
    pose proof (for_each_count body in_memory) as Hcount.
    pose proof (for_each_fst body in_memory) as Hfst.
    assert (∀ l, existsb (λ s, (body s).2) l
                 = existsb (adjusts fl (GradeForm.bulk_course_select form)
                              (GradeForm.course_adjustment form)) l) as Hext.
    { intros l. induction l as [|s l IH]; [done|]. cbn [existsb].
      f_equal; [apply course_adjust_spec | exact IH]. }
    rewrite Hext in Hcount. clear Hext.
    destruct (for_each body in_memory) as [students' n]. cbn [fst snd] in *.
    rewrite Hcount. subst students'. split; intros Hex; rewrite Hex.
    + rewrite save_then. cbn [fst snd students_json writes].
      split_and!; [done | done | apply length_fmap |].
      intros i before Hi. exists (body before).1.
      rewrite list_lookup_fmap, Hi.
      destruct (course_adjust_spec fl (GradeForm.bulk_course_select form)
                  (GradeForm.course_adjustment form) before)
        as (_ & Hsame & Hnew).
      split_and!; [done | exact Hsame |].
      intros old Hold Hchanged. cbn zeta. fold body in Hnew.
      by rewrite (Hnew old Hold Hchanged).
    + done.
Qed.

Lemma course_grade_update_recomputes_witness :
  (∃ i before after cg,
     [Student.mk "A" "S1" 55 (Some "F") (Some ["CS101"; "MA101"]) None None] !! i
     = Some before ∧
     students_json
       (grade_management double
          [Course.mk "CS101" "Programming" 30; Course.mk "MA101" "Algebra" 30]
          (GradeForm.mk "S1 - A" 100
             (λ c, if bool_decide (c = "CS101") then 80 else 60)%Q
             0 100 0 "CS101" 0 update_grades_btn)
          (Disk [Student.mk "A" "S1" 55 (Some "F") (Some ["CS101"; "MA101"])
                   None None] 0)).2 !! i = Some after ∧
     Student.course_grades after = Some cg ∧
     (cg ≠ [] → Student.marks after = mean double cg)) ∧
  (grade_management double
     [Course.mk "CS101" "Programming" 30; Course.mk "MA101" "Algebra" 30]
     (GradeForm.mk "S1 - A" 70
        (λ c, if bool_decide (c = "CS101") then 80 else 60)%Q
        0 100 0 "CS101" 5 course_adjust_btn)
     (Disk [Student.mk "A" "S1" 70 (Some "C") (Some ["CS101"; "MA101"]) None
              (Some [("CS101", 80%Q); ("MA101", 60%Q)]);
            Student.mk "B" "S2" 50 (Some "F") (Some []) None None] 0)).1
  = Success "Updated course grades".
Proof.
  split.
  - assert ((grade_management double
               [Course.mk "CS101" "Programming" 30; Course.mk "MA101" "Algebra" 30]
               (GradeForm.mk "S1 - A" 100
                  (λ c, if bool_decide (c = "CS101") then 80 else 60)%Q
                  0 100 0 "CS101" 0 update_grades_btn)
               (Disk [Student.mk "A" "S1" 55 (Some "F") (Some ["CS101"; "MA101"])
                        None None] 0)).1
            = Success "Grades updated successfully!") as Hsaved
      by (vm_compute; reflexivity).
    destruct (proj1 (course_grade_update_recomputes double
                [Course.mk "CS101" "Programming" 30; Course.mk "MA101" "Algebra" 30]
                (GradeForm.mk "S1 - A" 100
                   (λ c, if bool_decide (c = "CS101") then 80 else 60)%Q
                   0 100 0 "CS101" 0 update_grades_btn)
                (Disk [Student.mk "A" "S1" 55 (Some "F") (Some ["CS101"; "MA101"])
                         None None] 0))
              eq_refl "Grades updated successfully!" Hsaved)
      as (i & before & after & cg & H1 & H2 & _ & H3 & _ & _ & H4 & _).
    exists i, before, after, cg. split_and!; try done.
    intros Hne. by destruct (H4 Hne).
  - assert ("CS101" ∈ Course.course_id <$>
              [Course.mk "CS101" "Programming" 30; Course.mk "MA101" "Algebra" 30])
      as Hcourse by (simpl; left).
    assert (existsb (adjusts double "CS101" 5)
              (after_inputs
                 [Student.mk "A" "S1" 70 (Some "C") (Some ["CS101"; "MA101"]) None
                    (Some [("CS101", 80%Q); ("MA101", 60%Q)]);
                  Student.mk "B" "S2" 50 (Some "F") (Some []) None None]
                 (edited_grades
                    [Student.mk "A" "S1" 70 (Some "C") (Some ["CS101"; "MA101"])
                       None (Some [("CS101", 80%Q); ("MA101", 60%Q)]);
                     Student.mk "B" "S2" 50 (Some "F") (Some []) None None]
                    (GradeForm.mk "S1 - A" 70
                       (λ c, if bool_decide (c = "CS101") then 80 else 60)%Q
                       0 100 0 "CS101" 5 course_adjust_btn)))
            = true) as Hadjusts by (vm_compute; reflexivity).
    exact (proj1 (proj1 (proj2 (course_grade_update_recomputes double
             [Course.mk "CS101" "Programming" 30; Course.mk "MA101" "Algebra" 30]
             (GradeForm.mk "S1 - A" 70
                (λ c, if bool_decide (c = "CS101") then 80 else 60)%Q
                0 100 0 "CS101" 5 course_adjust_btn)
             (Disk [Student.mk "A" "S1" 70 (Some "C") (Some ["CS101"; "MA101"])
                      None (Some [("CS101", 80%Q); ("MA101", 60%Q)]);
                    Student.mk "B" "S2" 50 (Some "F") (Some []) None None] 0))
           eq_refl Hcourse ltac:(discriminate)) Hadjusts)).
Defined.

(** With doubles, a course adjustment of 5 takes the grade 80 to 85; the
    marks become the mean 72.5 of 85 and 60, and the student without a
    grade for the course is untouched. *)
Example course_adjustment_example :
  grade_management double
    [Course.mk "CS101" "Programming" 30; Course.mk "MA101" "Algebra" 30]
    (GradeForm.mk "S1 - A" 70
       (λ c, if bool_decide (c = "CS101") then 80 else 60)%Q
       0 100 0 "CS101" 5 course_adjust_btn)
    (Disk [Student.mk "A" "S1" 70 (Some "C") (Some ["CS101"; "MA101"]) None
             (Some [("CS101", 80%Q); ("MA101", 60%Q)]);
           Student.mk "B" "S2" 50 (Some "F") (Some []) None None] 0)
  = (Success "Updated course grades",
     Disk [Student.mk "A" "S1" (145 # 2) (Some "C") (Some ["CS101"; "MA101"]) None
             (Some [("CS101", 85%Q); ("MA101", 60%Q)]);
           Student.mk "B" "S2" 50 (Some "F") (Some []) None None] 1).
Proof. vm_compute. reflexivity. Qed.

(** ** The records of a well-formed file *)

Lemma student_of_backfilled (float_of_str : string → option Q)
  (o : list (string * json)) (s : Student.t) :
  overflowing o = false →
  student_of o = Some s →
  student_of (backfilled float_of_str o) = Some (normalize s).
Proof.
  destruct (backfilled_spec float_of_str o) as (Hg & Hrc & Hother & _).
  unfold student_of, overflowing. rewrite Hg, Hrc, !Hother by done.
  intros Hsafe H.
  destruct (dict_get "marks" o) as [[| |marks| | |]|];
    try (by simplify_option_eq).
  destruct (dict_get "grade" o) as [g|],
           (dict_get "registered_courses" o) as [rc|];
    simpl in Hsafe; unfold letter_of; simpl;
    try (apply negb_false_iff in Hsafe; rewrite Hsafe);
    simplify_option_eq; done.
Qed.

(** On a file whose objects read as student records, with marks that
    [float] converts, the loader on the file and the loader on the records
    agree: what the first returns and leaves in the file reads as what the
    second returns. *)
Lemma load_students_refines (float_of_str : string → option Q)
  (objs : list (list (string * json))) (students : list Student.t)
  (writes : nat) :
  existsb overflowing objs = false →
  mapM student_of objs = Some students →
  ∃ objs',
    load_students_file float_of_str (Parsed (JArr (JObj <$> objs)))
    = (Ok (JArr (JObj <$> objs')), Parsed (JArr (JObj <$> objs'))) ∧
    mapM student_of objs' = Some (load_students (Disk students writes)).1.
Proof.
  intros Hsafe H. exists (backfilled float_of_str <$> objs).
  split; [by apply load_students_file_objs|].
  rewrite load_students_spec. cbn [fst students_json].
  apply mapM_Some, Forall2_fmap. apply mapM_Some in H. revert Hsafe.
  induction H as [|o s objs students Ho _ IH]; [constructor|].
  cbn [existsb]. intros [H1 H2]%orb_false_elim.
  constructor; [by apply student_of_backfilled | by apply IH].
Qed.

Example load_students_refines_example :
  mapM student_of [[("name", JStr "A"); ("roll_no", JStr "S1"); ("marks", JNum 55)]]
  = Some [Student.mk "A" "S1" 55 None None None None].
Proof. reflexivity. Qed.

(** The number inputs of the "Update Grades" tab write into the selected
    student's own [course_grades] dict while the page is drawn.  When the
    button pressed in that run is "Apply Bulk Adjustment", the list saved
    by that button holds the entered course grade, and the student's
    [marks] and [grade] are as they were. *)
Example bulk_adjustment_saves_pending_course_edit :
  grade_management double [Course.mk "CS101" "Programming" 30]
    (GradeForm.mk "S1 - A" 80 (λ _, 90%Q) 0 60 5 "CS101" 0 bulk_adjust_btn)
    (Disk [Student.mk "A" "S1" 80 (Some "B") (Some ["CS101"]) None
             (Some [("CS101", 80%Q)]);
           Student.mk "B" "S2" 50 (Some "F") (Some []) None None] 0)
  = (Success "Updated grades",
     Disk [Student.mk "A" "S1" 80 (Some "B") (Some ["CS101"]) None
             (Some [("CS101", 90%Q)]);
           Student.mk "B" "S2" 55 (Some "F") (Some []) None None] 1).
Proof. vm_compute. reflexivity. Qed.

(** * Further properties of the handlers *)

(** ** Select boxes pick the last option of a label *)

Lemma dict_get_app {V} (k : string) (l1 l2 : list (string * V)) :
  dict_get k (l1 ++ l2)
  = match dict_get k l1 with
    | Some v => Some v
    | None => dict_get k l2
    end.
Proof.
  induction l1 as [|[k' v'] l1 IH]; simpl; [done|].
  by case_bool_decide.
Qed.

Lemma selectbox_snoc {V} (options : list (string * V)) (k : string) (v : V) :
  selectbox (options ++ [(k, v)]) k = Some v.
Proof.
  unfold selectbox. rewrite reverse_app. simpl.
  by rewrite bool_decide_eq_true_2.
Qed.

Lemma selectbox_snoc_ne {V} (options : list (string * V)) (k k' : string)
  (v : V) :
  k' ≠ k → selectbox (options ++ [(k', v)]) k = selectbox options k.
Proof.
  intros Hne. unfold selectbox. rewrite reverse_app. simpl.
  by rewrite bool_decide_eq_false_2.
Qed.

Lemma selectbox_last {V} (options : list (string * V)) (k : string) (v : V) :
  selectbox options k = Some v ↔
  ∃ i, options !! i = Some (k, v) ∧
       ∀ j v', (i < j)%nat → options !! j ≠ Some (k, v').
Proof.
  induction options as [|[k0 v0] options IH] using rev_ind.
  - unfold selectbox. simpl. split; [done|]. by intros (i & Hi & _).
  - destruct (decide (k0 = k)) as [->|Hne].
    + rewrite selectbox_snoc. split.
      * intros [= ->]. exists (length options). split.
        { by rewrite lookup_app_r, Nat.sub_diag. }
        intros j v' Hj. rewrite lookup_ge_None_2; [done|].
        rewrite length_app. simpl. lia.
      * intros (i & Hi & Hlast).
        destruct (decide (i = length options)) as [->|Hi'].
        { rewrite lookup_app_r, Nat.sub_diag in Hi by done. by injection Hi as ->. }
        exfalso. apply (Hlast (length options) v0).
        -- apply lookup_lt_Some in Hi. rewrite length_app in Hi. simpl in Hi. lia.
        -- by rewrite lookup_app_r, Nat.sub_diag.
    + rewrite selectbox_snoc_ne by done. rewrite IH. split.
      * intros (i & Hi & Hlast). exists i. split.
        { by apply lookup_app_l_Some. }
        intros j v' Hj Hj'.
        apply lookup_app_Some in Hj' as [Hj'|[_ Hj']].
        -- by apply (Hlast j v').
        -- apply list_lookup_singleton_Some in Hj' as [_ [= -> _]]. done.
      * intros (i & Hi & Hlast).
        apply lookup_app_Some in Hi as [Hi|[_ Hi]].
        -- exists i. split; [done|]. intros j v' Hj Hj'.
           apply (Hlast j v' Hj). by apply lookup_app_l_Some.
        -- apply list_lookup_singleton_Some in Hi as [_ [= -> _]]. done.
Qed.

Lemma selectbox_student_refs_last (students : list Student.t) (k : string)
  (i : nat) (s : Student.t) :
  selectbox (student_refs students) k = Some (i, s) ↔
  students !! i = Some s ∧ student_label s = k ∧
  ∀ j s', (i < j)%nat → students !! j = Some s' → student_label s' ≠ k.
Proof.
  rewrite selectbox_last. unfold student_refs. split.
  - intros (i' & Hi' & Hlast). rewrite list_lookup_imap in Hi'.
    destruct (students !! i') as [s0|] eqn:E; [|done].
    simpl in Hi'. injection Hi' as <- <- <-. split_and!; [done..|].
    intros j s' Hj Hs' Hl. apply (Hlast j (j, s') Hj).
    by rewrite list_lookup_imap, Hs', <- Hl.
  - intros (Hi & <- & Hlast). exists i. split.
    + by rewrite list_lookup_imap, Hi.
    + intros j v' Hj. rewrite list_lookup_imap.
      destruct (students !! j) as [s'|] eqn:E; [|done]. simpl.
      intros [= Hl _]. by apply (Hlast j s' Hj).
Qed.

(** ** Loading twice *)

Lemma normalize_idemp (s : Student.t) : normalize (normalize s) = normalize s.
Proof.
  apply normalize_id. unfold needs_backfill.
  apply bool_decide_eq_false. destruct s as [? ? ? [g|] [rc|] ? ?]; simpl;
    intros [?|?]; done.
Qed.

Lemma needs_backfill_normalize (l : list Student.t) :
  existsb needs_backfill (normalize <$> l) = false.
Proof.
  induction l as [|s l IH]; [done|]. rewrite fmap_cons. simpl. rewrite IH.
  rewrite orb_false_r. unfold needs_backfill. apply bool_decide_eq_false.
  destruct s as [? ? ? [g|] [rc|] ? ?]; simpl; intros [?|?]; done.
Qed.

(** X1. A second [load_students] right after a first returns the same
    list and writes nothing: the first has already filled in every missing
    key. *)
Theorem load_students_twice (d : disk) :
  load_students (load_students d).2 = ((load_students d).1, (load_students d).2).
Proof.
  rewrite (load_students_spec d). cbn [fst snd].
  apply load_students_clean. cbn [students_json].
  apply needs_backfill_normalize.
Qed.

(** ** Deleting *)

Lemma filter_roll_snoc (l : list Student.t) (x : Student.t) :
  Student.roll_no x ∉ roll_numbers l →
  filter (λ s, Student.roll_no s ≠ Student.roll_no x) (l ++ [x]) = l.
Proof.
  intros Hnot. rewrite filter_app, filter_cons, decide_False by (intros H; done).
  rewrite filter_nil, app_nil_r.
  induction l as [|s l IH]; [done|].
  unfold roll_numbers in *. rewrite fmap_cons, not_elem_of_cons in Hnot.
  destruct Hnot as [Hs Hl].
  rewrite filter_cons, decide_True by done. rewrite IH; done.
Qed.

(** X2. When [delete_student] saves, the confirmation box was ticked and
    the button pressed; the saved list is the loaded list without every
    record that has the roll number of the selected student (not only the
    selected record), the other records staying in their order; the saved
    list is strictly shorter, and the file has been written once more
    than [load_students] had written it (once in all when no stored
    record lacked a key, twice otherwise).  Without the tick or without
    the button the store is as [load_students] left it. *)
Theorem delete_student_removes_roll (str_of_num : Q → string)
  (selected_display : string) (confirm button : bool) (d : disk) :
  let loaded := (load_students d).1 in
  let outcome := delete_student str_of_num selected_display confirm button d in
  (∀ msg, outcome.1 = Success msg →
     confirm = true ∧ button = true ∧
     ∃ target,
       target ∈ loaded ∧
       delete_label str_of_num target = selected_display ∧
       students_json outcome.2
       = filter (λ s, Student.roll_no s ≠ Student.roll_no target) loaded ∧
       (Student.roll_no target ∉ roll_numbers (students_json outcome.2)) ∧
       students_json outcome.2 `sublist_of` loaded ∧
       (length (students_json outcome.2) < length loaded)%nat ∧
       writes outcome.2 = S (writes (load_students d).2) ∧
       writes outcome.2
       = (if existsb needs_backfill (students_json d) then 2 + writes d
          else 1 + writes d)%nat) ∧
  (confirm = false ∨ button = false → outcome.2 = (load_students d).2).
Proof.
  intros loaded outcome. subst loaded outcome.
  unfold delete_student. rewrite bind_load.
  assert (writes (load_students d).2
          = if existsb needs_backfill (students_json d)
            then S (writes d) else writes d) as Hwrites
    by by rewrite load_students_spec.
  destruct (load_students d) as [students d']. cbn [fst snd] in *. split.
  - intros msg.
    destruct students as [|s0 l] eqn:Es; [done|]. rewrite <- Es. clear Es s0 l.
    destruct (selectbox _ _) as [target|] eqn:Et; [|done].
    destruct confirm, button; try done.
    cbn [andb]. rewrite save_then. cbn [fst snd students_json writes]. intros _.
    apply selectbox_elem_of, list_elem_of_fmap in Et as (t & [= Hl ->] & Ht).
    split_and!; try done. exists t. split_and!; try done.
    + unfold roll_numbers.
      intros (s & Hr & [Hne _]%list_elem_of_filter)%list_elem_of_fmap. done.
    + apply sublist_filter.
    + apply (length_filter_lt _ _ t); [done|]. by intros H.
    + rewrite Hwrites. by destruct (existsb _ _).
  - intros Hoff.
    destruct students; [done|]. destruct (selectbox _ _); [|done].
    by destruct Hoff as [-> | ->]; [|destruct confirm].
Qed.

Lemma delete_student_removes_roll_witness :
  writes
    (delete_student (λ _, "?") "S1 - A (Marks: ?, Grade: F)" true true
       (Disk [Student.mk "A" "S1" 55 (Some "F") (Some []) None None;
              Student.mk "B" "S2" 70 (Some "C") (Some []) None None;
              Student.mk "A" "S1" 55 (Some "F") (Some []) None None] 0)).2
  = 1%nat ∧
  writes
    (delete_student (λ _, "?") "S1 - A (Marks: ?, Grade: F)" true true
       (Disk [Student.mk "A" "S1" 55 None None None None;
              Student.mk "B" "S2" 70 (Some "C") (Some []) None None] 0)).2
  = 2%nat.
Proof.
  split.
  - destruct (proj1 (delete_student_removes_roll (λ _, "?")
                "S1 - A (Marks: ?, Grade: F)" true true
                (Disk [Student.mk "A" "S1" 55 (Some "F") (Some []) None None;
                       Student.mk "B" "S2" 70 (Some "C") (Some []) None None;
                       Student.mk "A" "S1" 55 (Some "F") (Some []) None None] 0))
                "Student deleted successfully!" eq_refl)
      as (_ & _ & target & _ & _ & _ & _ & _ & _ & _ & H).
    exact H.
  - destruct (proj1 (delete_student_removes_roll (λ _, "?")
                "S1 - A (Marks: ?, Grade: F)" true true
                (Disk [Student.mk "A" "S1" 55 None None None None;
                       Student.mk "B" "S2" 70 (Some "C") (Some []) None None] 0))
                "Student deleted successfully!" eq_refl)
      as (_ & _ & target & _ & _ & _ & _ & _ & _ & _ & H).
    exact H.
Defined.

(** On a store with a record that lacks a key, a delete writes the file
    twice: once in [load_students], once for the delete. *)
Example delete_student_writes_twice :
  delete_student (λ _, "?") "S1 - A (Marks: ?, Grade: F)" true true
    (Disk [Student.mk "A" "S1" 55 None None None None;
           Student.mk "B" "S2" 70 (Some "C") (Some []) None None] 0)
  = (Success "Student deleted successfully!",
     Disk [Student.mk "B" "S2" 70 (Some "C") (Some []) None None] 2).
Proof. reflexivity. Qed.

Lemma add_student_Success (name roll_no : string) (marks : Q) (d : disk)
  (msg : string) :
  (add_student name roll_no marks d).1 = Success msg →
  (strip roll_no ∉ roll_numbers (load_students d).1) ∧
  (add_student name roll_no marks d).2
  = Disk ((load_students d).1 ++
          [Student.mk (strip name) (strip roll_no) marks
                      (Some (calculate_grade marks)) None None None])
         (S (writes (load_students d).2)).
Proof.
  unfold add_student. rewrite bind_load.
  destruct (nonempty (strip name)); simpl; [|done].
  destruct (nonempty (strip roll_no)); simpl; [|done].
  destruct (py_lt marks 0 || py_lt 100 marks); simpl; [done|].
  destruct (list_find _ _) as [[i s]|] eqn:E; [done|]. simpl. intros _.
  split; [|done]. intros Hin%roll_no_found. rewrite E in Hin. by destruct Hin.
Qed.

(** X3. Deleting the student that [add_student] has just added gives
    back the collection that [add_student] had loaded: the new record is
    the last option of its label, its roll number was not stored, and the
    loader's filling in of [registered_courses] does not touch the
    others. *)
Theorem add_then_delete_restores (name roll_no : string) (marks : Q)
  (str_of_num : Q → string) (d : disk) (msg : string) :
  (add_student name roll_no marks d).1 = Success msg →
  let added :=
    Student.mk (strip name) (strip roll_no) marks
               (Some (calculate_grade marks)) (Some []) None None in
  students_json
    (delete_student str_of_num (delete_label str_of_num added) true true
       (add_student name roll_no marks d).2).2
  = (load_students d).1.
Proof.
  intros [Hnot ->]%add_student_Success added. subst added.
  unfold delete_student. rewrite bind_load, (load_students_spec (Disk _ _)).
  cbn [fst snd students_json]. rewrite fmap_app.
  rewrite (load_students_spec d) in *. cbn [fst] in *.
  rewrite <- list_fmap_compose.
  rewrite (list_fmap_ext (normalize ∘ normalize) normalize (students_json d))
    by (intros; apply normalize_idemp).
  set (loaded := normalize <$> students_json d) in *.
  change (normalize <$> [?x]) with [normalize x]. unfold normalize at 1 2 3.
  cbn [backfill Student.grade Student.registered_courses
       Student.set_registered_courses Student.name Student.roll_no
       Student.marks Student.attendance Student.course_grades fst].
  set (added := Student.mk (strip name) (strip roll_no) marks
                           (Some (calculate_grade marks)) (Some []) None None).
  change (Student.set_registered_courses []
            (Student.mk (strip name) (strip roll_no) marks
                        (Some (calculate_grade marks)) None None None))
    with added.
  destruct (loaded ++ [added]) as [|s0 l] eqn:El.
  { by destruct loaded. }
  rewrite <- El. clear El s0 l.
  rewrite fmap_app. change ((λ s, (delete_label str_of_num s, s)) <$> [added])
    with [(delete_label str_of_num added, added)].
  rewrite selectbox_snoc. cbn [andb]. rewrite save_then. cbn [snd students_json].
  by apply (filter_roll_snoc loaded added).
Qed.

Lemma add_then_delete_restores_witness :
  students_json
    (delete_student (λ _, "85.0") "S9 - Z (Marks: 85.0, Grade: B)" true true
       (add_student "Z" "S9" 85
          (Disk [Student.mk "A" "S1" 55 (Some "F") None None None] 0)).2).2
  = [Student.mk "A" "S1" 55 (Some "F") (Some []) None None].
Proof.
  refine (add_then_delete_restores "Z" "S9" 85 (λ _, "85.0")
            (Disk [Student.mk "A" "S1" 55 (Some "F") None None None] 0)
            "Student 'Z' added successfully!" _).
  reflexivity.
Defined.

(** ** Marks and course grades stay between 0 and 100 *)

Lemma clamp_in_range (x : Q) : in_range (clamp x).
Proof.
  unfold in_range, clamp, py_max, py_min.
  destruct (py_lt x 100) eqn:E1.
  - apply py_lt_spec in E1. destruct (py_lt 0 x) eqn:E2.
    + apply py_lt_spec in E2. lra.
    + lra.
  - destruct (py_lt 0 100) eqn:E2; lra.
Qed.

Lemma clamp_id (x : Q) : in_range x → (clamp x == x)%Q.
Proof.
  unfold in_range, clamp, py_max, py_min. intros [H0 H100].
  destruct (py_lt x 100) eqn:E1.
  - destruct (py_lt 0 x) eqn:E2; [reflexivity|].
    unfold py_lt in E2. apply negb_false_iff, Qle_bool_iff in E2. lra.
  - unfold py_lt in E1. apply negb_false_iff, Qle_bool_iff in E1.
    destruct (py_lt 0 100) eqn:E2; [lra|]. discriminate.
Qed.

Lemma sum_in_range (xs : list Q) :
  Forall in_range xs →
  (0 <= foldr Qplus 0 xs <= 100 * inject_Z (Z.of_nat (length xs)))%Q.
Proof.
  induction 1 as [|x xs [Hx0 Hx1] _ IH]; simpl foldr.
  - split; unfold Qle; simpl; lia.
  - rewrite length_cons, Nat2Z.inj_succ. unfold Z.succ. rewrite inject_Z_plus.
    change (inject_Z 1) with 1%Q. lra.
Qed.

(** Arithmetic without rounding keeps the bounds. *)
Lemma exact_keeps_bounds : keeps_bounds exact.
Proof.
  split.
  - intros xs Hxs. rewrite exact_sum_foldr. by apply sum_in_range.
  - intros s n Hn [H0 H1]. unfold exact, rounded, in_range.
    cbn [FloatOps.div]. split.
    + apply Qle_shift_div_l; [done|]. lra.
    + apply Qle_shift_div_r; [done|]. lra.
Qed.

(** A rounding that keeps the order and returns the multiples of 100 as
    they are keeps the bounds. *)
Lemma rounded_keeps_bounds (rnd : Q → Q) :
  (∀ x y, (x <= y)%Q → (rnd x <= rnd y)%Q) →
  (∀ n : nat, (rnd (100 * inject_Z (Z.of_nat n))
               == 100 * inject_Z (Z.of_nat n))%Q) →
  keeps_bounds (rounded rnd).
Proof.
  intros Hmono Hfix.
  assert (∀ (n : nat) x, (x == 100 * inject_Z (Z.of_nat n))%Q →
                         (rnd x == 100 * inject_Z (Z.of_nat n))%Q) as Hfix'.
  { intros n x Hx. apply Qle_antisym.
    - apply Qle_trans with (rnd (100 * inject_Z (Z.of_nat n))%Q).
      + apply Hmono. rewrite Hx. apply Qle_refl.
      + rewrite (Hfix n). apply Qle_refl.
    - apply Qle_trans with (rnd (100 * inject_Z (Z.of_nat n))%Q).
      + rewrite (Hfix n). apply Qle_refl.
      + apply Hmono. rewrite Hx. apply Qle_refl. }
  assert (rnd 0 == 0)%Q as H0.
  { rewrite (Hfix' 0%nat 0%Q); reflexivity. }
  assert (rnd 100 == 100)%Q as H100.
  { rewrite (Hfix' 1%nat 100%Q); reflexivity. }
  split.
  - intros xs Hxs. unfold rounded. cbn [FloatOps.sum].
    assert (∀ acc (k : nat),
              (0 <= acc <= 100 * inject_Z (Z.of_nat k))%Q →
              (0 <= fold_left (λ acc x, rnd (acc + x)%Q) xs acc
               <= 100 * inject_Z (Z.of_nat (k + length xs)))%Q) as Hgen.
    { induction Hxs as [|x xs [Hx0 Hx1] _ IH]; intros acc k [Ha0 Ha1].
      - simpl. by rewrite Nat.add_0_r.
      - simpl. replace (k + S (length xs))%nat with (S k + length xs)%nat by lia.
        apply IH. split.
        + rewrite <- H0. apply Hmono. lra.
        + rewrite <- (Hfix (S k)). apply Hmono.
          rewrite Nat2Z.inj_succ. unfold Z.succ. rewrite inject_Z_plus.
          change (inject_Z 1) with 1%Q. lra. }
    apply (Hgen 0%Q 0%nat). done.
  - intros s n Hn [Hs0 Hs1]. unfold rounded, in_range. cbn [FloatOps.div].
    assert (0 <= s / n <= 100)%Q as [Hq0 Hq1].
    { split.
      - apply Qle_shift_div_l; [done|]. lra.
      - apply Qle_shift_div_r; [done|]. lra. }
    split.
    + rewrite <- H0. by apply Hmono.
    + rewrite <- H100. by apply Hmono.
Qed.

Lemma mean_in_range (fl : FloatOps.t) (d : list (string * Q)) :
  keeps_bounds fl →
  d ≠ [] → Forall (λ kv, in_range kv.2) d → in_range (mean fl d).
Proof.
  intros [Hsum Hdiv] Hd Hall.
  assert (Forall in_range d.*2) as Hvals by by apply Forall_fmap.
  pose proof (Hsum _ Hvals) as H. rewrite length_fmap in H.
  assert (0 < inject_Z (Z.of_nat (length d)))%Q as Hn.
  { change 0%Q with (inject_Z 0). rewrite <- Zlt_Qlt.
    destruct d; [done|]. simpl. lia. }
  unfold mean. by apply Hdiv.
Qed.

Lemma Forall_dict_set {V} (P : string * V → Prop) (k : string) (v : V)
  (d : list (string * V)) :
  Forall P d → P (k, v) → Forall P (dict_set k v d).
Proof.
  intros Hd Hv. induction Hd as [|[k' v'] d Hx Hd IH]; simpl.
  - by constructor.
  - case_bool_decide; [subst|]; by constructor.
Qed.

Lemma course_inputs_in_range (course_marks : string → Q)
  (registered : list string) (cg : list (string * Q)) :
  (∀ c, in_range (course_marks c)) →
  Forall (λ kv, in_range kv.2) cg →
  Forall (λ kv, in_range kv.2) (course_inputs course_marks registered cg).
Proof.
  intros Hw. revert cg. induction registered as [|c rest IH]; intros cg Hcg;
    [done|].
  rewrite course_inputs_cons. apply IH.
  destruct (py_ne _ _); [|done]. apply Forall_dict_set; [done|]. apply Hw.
Qed.

Lemma bounded_normalize : bounded normalize.
Proof. intros [? ? ? [g|] [rc|] ? ?]; done. Qed.

Lemma bounded_set_marks (m : Q) (g : string) :
  in_range m → bounded (λ s, Student.set_grade g (Student.set_marks m s)).
Proof. intros Hm s [_ Hcg]. by split. Qed.

Lemma bounded_set_registered_courses (f : Student.t → list string) :
  bounded (λ s, Student.set_registered_courses (f s) s).
Proof. by intros s. Qed.

Lemma bounded_update_grades (fl : FloatOps.t) (new_marks : Q)
  (cg : list (string * Q)) :
  keeps_bounds fl →
  in_range new_marks → Forall (λ kv, in_range kv.2) cg →
  bounded (update_grades fl new_marks cg).
Proof.
  intros Hfl Hm Hcg s [Hs _]. unfold update_grades.
  destruct cg as [|kv cg].
  - destruct (py_ne _ _); by split.
  - split; [|done]. simpl. by apply mean_in_range.
Qed.

Lemma bounded_bulk_adjust (fl : FloatOps.t)
  (min_range max_range bulk_adjustment : Q) :
  bounded (λ s, (bulk_adjust fl min_range max_range bulk_adjustment s).1).
Proof.
  intros s [Hs Hcg]. unfold bulk_adjust.
  destruct (_ && _); [|done]. destruct (py_ne _ _); [|done].
  split; [apply clamp_in_range | done].
Qed.

Lemma bounded_course_adjust (fl : FloatOps.t) (selected_course : string)
  (course_adjustment : Q) :
  keeps_bounds fl →
  bounded (λ s, (course_adjust fl selected_course course_adjustment s).1).
Proof.
  intros Hfl s [Hs Hcg]. unfold course_adjust.
  destruct (dict_get _ _) as [old|] eqn:Eo; [|done].
  destruct (py_ne _ _); [|done].
  assert (Forall (λ kv, in_range kv.2)
            (dict_set selected_course
               (clamp (FloatOps.add fl old course_adjustment))
               (Student.get_course_grades s))) as Hset.
  { apply Forall_dict_set; [done|]. apply clamp_in_range. }
  destruct (dict_set _ _ _) as [|kv cg] eqn:Es; simpl; [done|].
  split; [|done]. simpl. by apply mean_in_range.
Qed.

Lemma Forall_alter_bounded (f : Student.t → Student.t) (i : nat)
  (l : list Student.t) :
  bounded f → Forall within_bounds l → Forall within_bounds (alter f i l).
Proof.
  intros Hf Hl. apply Forall_forall. intros s' [Hs'|(s & Hs & ->)]%elem_of_alter.
  - by eapply Forall_forall in Hl.
  - apply Hf. by eapply Forall_forall in Hl.
Qed.

Lemma Forall_fmap_bounded (f : Student.t → Student.t) (l : list Student.t) :
  bounded f → Forall within_bounds l → Forall within_bounds (f <$> l).
Proof.
  intros Hf Hl. apply Forall_fmap. eapply Forall_impl; [exact Hl|]. apply Hf.
Qed.

Lemma load_within_bounds (d : disk) :
  Forall within_bounds (students_json d) →
  Forall within_bounds (load_students d).1.
Proof.
  rewrite load_students_spec. apply Forall_fmap_bounded, bounded_normalize.
Qed.

Lemma edited_grades_in_range (students : list Student.t) (form : GradeForm.t)
  (i : nat) (cg : list (string * Q)) :
  (∀ c, in_range (GradeForm.course_marks form c)) →
  Forall within_bounds students →
  edited_grades students form = Some (i, cg) →
  Forall (λ kv, in_range kv.2) cg.
Proof.
  intros Hw Hall (s & Hi & _ & _ & ->)%edited_grades_Some.
  apply course_inputs_in_range; [done|].
  apply list_elem_of_lookup_2 in Hi. eapply Forall_forall in Hall; [|done].
  apply Hall.
Qed.

(** Close a branch in which the handler does not save. *)
Ltac unsaved :=
  cbn [mret IO_ret snd fst];
  match goal with
  | H : students_json ?d = _ |- Forall _ (students_json ?d) => by rewrite H
  end.

Lemma run_within_bounds_loaded (a : action) (d : disk) :
  widgets_in_range a →
  arithmetic_in_range a →
  Forall within_bounds (load_students d).1 →
  (∀ show_reset_modal yes, a ≠ ResetAll show_reset_modal yes) →
  (∀ uploaded_file, a ≠ BulkImport uploaded_file) →
  Forall within_bounds (students_json (run a d)).
Proof.
  intros Hw Hfl Hall Hreset Hupload. destruct a; simpl in *.
  - (* add_student *)
    revert Hall. enter add_student d. intros Hall.
    destruct (nonempty (strip name)); simpl; [|unsaved].
    destruct (nonempty (strip roll_no)); simpl; [|unsaved].
    destruct (py_lt marks 0) eqn:E0; simpl; [unsaved|].
    destruct (py_lt 100 marks) eqn:E1; simpl; [unsaved|].
    destruct (list_find _ students) as [[i s]|]; simpl; [unsaved|].
    apply Forall_app. split; [done|]. apply Forall_singleton.
    split; [|done]. simpl. unfold in_range, py_lt in *.
    apply negb_false_iff, Qle_bool_iff in E0, E1. done.
  - by specialize (Hupload uploaded_file).
  - (* update_student_marks *)
    revert Hall. enter update_student_marks d. intros Hall.
    destruct students as [|s0 l] eqn:Es; [unsaved|]. rewrite <- Es in *.
    clear Es s0 l.
    destruct (selectbox _ selected) as [roll_no|]; [|unsaved].
    destruct (list_find _ _) as [[i target]|]; [|unsaved].
    destruct button; [|unsaved]. destruct (py_ne _ _); [|unsaved].
    rewrite save_then. cbn [snd students_json].
    by apply Forall_alter_bounded; [apply bounded_set_marks|].
  - (* delete_student *)
    revert Hall. enter delete_student d. intros Hall.
    destruct students as [|s0 l] eqn:Es; [unsaved|]. rewrite <- Es in *.
    clear Es s0 l.
    destruct (selectbox _ _) as [target|]; [|unsaved].
    destruct (confirm && button); [|unsaved].
    rewrite save_then. cbn [snd students_json].
    apply Forall_forall. intros s [_ Hs]%list_elem_of_filter.
    by eapply Forall_forall in Hall.
  - (* course_registration *)
    revert Hall. enter course_registration d. intros Hall.
    destruct students as [|s0 l] eqn:Es; [unsaved|]. rewrite <- Es in *.
    clear Es s0 l.
    destruct courses as [|c0 cs] eqn:Ec; [unsaved|]. rewrite <- Ec in *.
    clear Ec c0 cs.
    destruct (RegistrationForm.button form); [unsaved| |].
    + destruct (register_tab _ _ _) as [students'|] eqn:E; [|unsaved].
      rewrite save_then. cbn [snd students_json].
      apply register_tab_Some in E as (i & s & c & _ & _ & _ & _ & _ & _ & ->).
      apply Forall_alter_bounded; [|done].
      apply (bounded_set_registered_courses
               (λ s, Student.get_registered_courses s ++ [Course.course_id c])).
    + destruct (drop_tab _ _ _) as [students'|] eqn:E; [|unsaved].
      rewrite save_then. cbn [snd students_json].
      unfold drop_tab in E.
      destruct (selectbox (student_refs students) _) as [[i s]|]; [|done].
      simpl in E. destruct (selectbox (drop_options _ _) _) as [c|]; [|done].
      simpl in E. injection E as <-.
      apply Forall_alter_bounded; [|done].
      apply (bounded_set_registered_courses
               (λ s, list_remove_first c (Student.get_registered_courses s))).
  - (* grade_management *)
    destruct Hw as [Hnew Hinputs].
    revert Hall. enter grade_management d. intros Hall.
    destruct students as [|s0 l] eqn:Es; [unsaved|]. rewrite <- Es in *.
    clear Es s0 l.
    assert (Forall within_bounds
              (after_inputs students (edited_grades students form))) as Hmem.
    { destruct (edited_grades students form) as [[i cg]|] eqn:Ee; [|done].
      simpl. apply Forall_alter_bounded; [|done].
      intros s [Hs Hcg]. destruct (Student.course_grades s); [|done].
      split; [done|]. by eapply edited_grades_in_range. }
    destruct (GradeForm.button form); try unsaved.
    + destruct (edited_grades students form) as [[i cg]|] eqn:Ee; [|unsaved].
      rewrite save_then. cbn [snd students_json].
      apply Forall_alter_bounded; [|done].
      apply bounded_update_grades; [done | done |].
      exact (edited_grades_in_range students form i cg Hinputs Hall Ee).
    + destruct (for_each _ _) as [students' n] eqn:E.
      destruct (bool_decide (0 < n)%nat); [|unsaved].
      rewrite save_then. cbn [snd students_json].
      apply (f_equal fst) in E. rewrite for_each_fst in E. simpl in E. subst.
      by apply Forall_fmap_bounded; [apply bounded_bulk_adjust|].
    + destruct (bool_decide (_ ∈ _)); [|unsaved].
      destruct (for_each _ _) as [students' n] eqn:E.
      destruct (bool_decide (0 < n)%nat); [|unsaved].
      rewrite save_then. cbn [snd students_json].
      apply (f_equal fst) in E. rewrite for_each_fst in E. simpl in E. subst.
      by apply Forall_fmap_bounded; [apply bounded_course_adjust|].
  - by rewrite attendance_tracking_disk, load_students_disk.
  - by specialize (Hreset show_reset_modal yes).
Qed.

Lemma clean_row_in_range (r : Row.t) (row : Clean.t) :
  clean_row r = Some row → in_range (Clean.marks row).
Proof.
  unfold clean_row. destruct (Row.name r), (Row.roll_no r), (Row.marks r);
    simpl; try done.
  destruct (py_ge q 0) eqn:E0; [|done]. destruct (py_ge 100 q) eqn:E1; [|done].
  simpl. intros [= <-]. simpl. apply py_ge_spec in E0, E1. done.
Qed.

(** X4. If every stored record has its marks and all its course grades
    between 0 and 100, so has every stored record after any operation,
    given that the number inputs return values within their declared
    range 0 to 100: [add_student] and [upload_file] refuse marks outside
    the range, the bulk adjustments clamp, and a mean of course grades in
    the range is in the range, in the arithmetic without rounding and in
    every arithmetic whose sums and quotients keep these bounds. *)
Theorem marks_stay_within_bounds (a : action) (d : disk) :
  widgets_in_range a →
  arithmetic_in_range a →
  Forall within_bounds (students_json d) →
  Forall within_bounds (students_json (run a d)).
Proof.
  intros Hw Hfl Hall. pose proof (load_within_bounds d Hall) as Hloaded.
  destruct a;
    try (apply run_within_bounds_loaded; done).
  - simpl.
    destruct (upload_file_cases uploaded_file d) as [->|[->|(rows & -> & ->)]].
    + done.
    + by rewrite load_students_disk.
    + cbn [students_json]. apply Forall_app. split; [done|].
      apply Forall_fmap, Forall_forall.
      intros row [_ Hrow]%list_elem_of_filter.
      apply list_elem_of_omap in Hrow as (r & _ & Hr).
      split; [|done]. simpl. by eapply clean_row_in_range.
  - simpl. unfold reset_all_data. by destruct (_ && _).
Qed.

Lemma marks_stay_within_bounds_witness :
  Forall within_bounds
    (students_json
       (run (GradeManagement exact [Course.mk "CS101" "Programming" 30]
               (GradeForm.mk "" 0 (λ _, 0%Q) 0 100 50 "CS101" 0 bulk_adjust_btn))
            (Disk [Student.mk "A" "S1" 80 (Some "B") (Some []) None None] 0))).
Proof.
  apply marks_stay_within_bounds.
  - split; [|intros c]; unfold in_range; simpl; lra.
  - exact exact_keeps_bounds.
  - apply Forall_singleton. split; [|by constructor].
    simpl. unfold in_range. lra.
Defined.

(** ** Bulk adjustment *)

Lemma bulk_adjust_spec (fl : FloatOps.t)
  (min_range max_range bulk_adjustment : Q) (s : Student.t) :
  let r := bulk_adjust fl min_range max_range bulk_adjustment s in
  r.2 = shifts fl min_range max_range bulk_adjustment s ∧
  (r.2 = false → r.1 = s) ∧
  (r.2 = true →
   (min_range <= Student.marks s <= max_range)%Q ∧
   Student.marks r.1
   = clamp (FloatOps.add fl (Student.marks s) bulk_adjustment) ∧
   ¬ (Student.marks r.1 == Student.marks s)%Q ∧
   Student.grade r.1 = Some (calculate_grade (Student.marks r.1)) ∧
   Student.name r.1 = Student.name s ∧
   Student.roll_no r.1 = Student.roll_no s ∧
   Student.registered_courses r.1 = Student.registered_courses s ∧
   Student.attendance r.1 = Student.attendance s ∧
   Student.course_grades r.1 = Student.course_grades s).
Proof.
  unfold bulk_adjust, shifts.
  destruct (py_ge (Student.marks s) min_range) eqn:E1; [|done].
  destruct (py_ge max_range (Student.marks s)) eqn:E2; [|done]. simpl.
  destruct (py_ne _ _) eqn:E3; [|done]. simpl.
  split; [done|]. split; [done|]. intros _.
  apply py_ge_spec in E1, E2. apply py_ne_spec in E3. done.
Qed.

Lemma bulk_adjust_zero (fl : FloatOps.t)
  (min_range max_range bulk_adjustment : Q) (s : Student.t) :
  (0 <= min_range)%Q → (max_range <= 100)%Q →
  (∀ x, (FloatOps.add fl x bulk_adjustment == x)%Q) →
  bulk_adjust fl min_range max_range bulk_adjustment s = (s, false).
Proof.
  intros Hmin Hmax Hadj. unfold bulk_adjust.
  destruct (py_ge (Student.marks s) min_range) eqn:E1; [|done].
  destruct (py_ge max_range (Student.marks s)) eqn:E2; [|done]. simpl.
  apply py_ge_spec in E1, E2.
  destruct (py_ne _ _) eqn:E3; [|done]. exfalso.
  apply py_ne_spec in E3. apply E3.
  rewrite clamp_id; [apply Hadj|]. unfold in_range. rewrite Hadj. lra.
Qed.

Lemma for_each_count_zero (body : Student.t → Student.t * bool)
  (students : list Student.t) :
  (∀ s, body s = (s, false)) → for_each body students = (students, 0%nat).
Proof.
  intros Hbody. unfold for_each.
  rewrite (list_fmap_ext body (λ s, (s, false)) students) by done.
  f_equal.
  - rewrite <- list_fmap_compose. apply list_fmap_id.
  - induction students as [|s l IH]; [done|].
    by rewrite fmap_cons, filter_cons, decide_False.
Qed.

(** X5. "Apply Bulk Adjustment" works on the overall marks.  It saves
    exactly when the marks of some student lie in the chosen range and
    differ from what [marks + adjustment], clamped to 0..100, returns.
    Every such student then has those marks and their letter, with the
    course grades and every other field as they were, and every other
    record is as it stood in memory.  With the range inputs within their
    bounds 0 and 100, an adjustment that adds nothing, as [0.0] does,
    saves nothing. *)
Theorem bulk_adjustment_spec (fl : FloatOps.t) (courses : list Course.t)
  (form : GradeForm.t) (d : disk) :
  GradeForm.button form = bulk_adjust_btn →
  (load_students d).1 ≠ [] →
  let loaded := (load_students d).1 in
  let in_memory := after_inputs loaded (edited_grades loaded form) in
  let outcome := grade_management fl courses form d in
  let shifted :=
    shifts fl (GradeForm.bulk_min_range form) (GradeForm.bulk_max_range form)
           (GradeForm.bulk_adjustment form) in
  (existsb shifted in_memory = true →
   outcome.1 = Success "Updated grades" ∧
   writes outcome.2 = S (writes (load_students d).2) ∧
   length (students_json outcome.2) = length in_memory ∧
   ∀ i before,
     in_memory !! i = Some before →
     ∃ after,
       students_json outcome.2 !! i = Some after ∧
       (shifted before = false → after = before) ∧
       (shifted before = true →
        (GradeForm.bulk_min_range form <= Student.marks before
         <= GradeForm.bulk_max_range form)%Q ∧
        Student.marks after
        = clamp (FloatOps.add fl (Student.marks before)
                   (GradeForm.bulk_adjustment form)) ∧
        ¬ (Student.marks after == Student.marks before)%Q ∧
        in_range (Student.marks after) ∧
        Student.grade after = Some (calculate_grade (Student.marks after)) ∧
        Student.name after = Student.name before ∧
        Student.roll_no after = Student.roll_no before ∧
        Student.registered_courses after = Student.registered_courses before ∧
        Student.attendance after = Student.attendance before ∧
        Student.course_grades after = Student.course_grades before)) ∧
  (existsb shifted in_memory = false →
   outcome = (Info "No students found in the specified range.",
              (load_students d).2)) ∧
  ((0 <= GradeForm.bulk_min_range form)%Q →
   (GradeForm.bulk_max_range form <= 100)%Q →
   (∀ x, (FloatOps.add fl x (GradeForm.bulk_adjustment form) == x)%Q) →
   outcome.2 = (load_students d).2 ∧ ∀ msg, outcome.1 ≠ Success msg).
Proof.
  intros Hbtn Hne. cbn zeta. revert Hne.
  unfold grade_management. rewrite bind_load.
  destruct (load_students d) as [students d']. cbn [fst snd]. rewrite Hbtn.
  intros Hne.
  destruct students as [|s0 l] eqn:Es; [done|]. rewrite <- Es. clear Es s0 l Hne.
  set (in_memory := after_inputs students (edited_grades students form)).
  set (body := bulk_adjust fl (GradeForm.bulk_min_range form)
                 (GradeForm.bulk_max_range form)
                 (GradeForm.bulk_adjustment form)).
  split_and!.
  - pose proof (for_each_count body in_memory) as Hcount.
    pose proof (for_each_fst body in_memory) as Hfst.
    assert (∀ l, existsb (λ s, (body s).2) l
                 = existsb (shifts fl (GradeForm.bulk_min_range form)
                              (GradeForm.bulk_max_range form)
                              (GradeForm.bulk_adjustment form)) l) as Hext.
    { intros l. induction l as [|s l IH]; [done|]. cbn [existsb].
      f_equal; [apply bulk_adjust_spec | exact IH]. }
    rewrite Hext in Hcount. clear Hext.
    destruct (for_each body in_memory) as [students' n]. cbn [fst snd] in *.
    rewrite Hcount. subst students'. intros Hex. rewrite Hex.
    rewrite save_then. cbn [fst snd students_json writes].
    split_and!; [done | done | apply length_fmap |].
    intros i before Hi. exists (body before).1.
    rewrite list_lookup_fmap, Hi.
    destruct (bulk_adjust_spec fl (GradeForm.bulk_min_range form)
                (GradeForm.bulk_max_range form) (GradeForm.bulk_adjustment form)
                before) as (Hflag & Hsame & Hnew).
    fold body in Hflag, Hsame, Hnew. rewrite <- Hflag.
    split_and!; [done | exact Hsame |].
    intros Htrue.
    destruct (Hnew Htrue) as (Hr & Hm & ? & ? & ? & ? & ? & ? & ?).
    split; [exact Hr|]. split_and!; try done. rewrite Hm. apply clamp_in_range.
  - pose proof (for_each_count body in_memory) as Hcount.
    assert (∀ l, existsb (λ s, (body s).2) l
                 = existsb (shifts fl (GradeForm.bulk_min_range form)
                              (GradeForm.bulk_max_range form)
                              (GradeForm.bulk_adjustment form)) l) as Hext.
    { intros l. induction l as [|s l IH]; [done|]. cbn [existsb].
      f_equal; [apply bulk_adjust_spec | exact IH]. }
    rewrite Hext in Hcount. clear Hext.
    destruct (for_each body in_memory) as [students' n]. cbn [fst snd] in *.
    rewrite Hcount. intros Hex. by rewrite Hex.
  - intros Hmin Hmax Hadj. subst body.
    rewrite for_each_count_zero; [done|].
    intros s. by apply bulk_adjust_zero.
Qed.

Lemma bulk_adjustment_spec_witness :
  (grade_management double []
     (GradeForm.mk "" 0 (λ _, 0%Q) 0 100 5 "" 0 bulk_adjust_btn)
     (Disk [Student.mk "A" "S1" 80 (Some "B") (Some []) None None;
            Student.mk "B" "S2" 100 (Some "A") (Some []) None None] 0)).1
  = Success "Updated grades" ∧
  writes
    (grade_management double []
       (GradeForm.mk "" 0 (λ _, 0%Q) 0 100 5 "" 0 bulk_adjust_btn)
       (Disk [Student.mk "A" "S1" 80 (Some "B") (Some []) None None;
              Student.mk "B" "S2" 100 (Some "A") (Some []) None None] 0)).2
  = 1%nat.
Proof.
  destruct (proj1 (bulk_adjustment_spec double []
              (GradeForm.mk "" 0 (λ _, 0%Q) 0 100 5 "" 0 bulk_adjust_btn)
              (Disk [Student.mk "A" "S1" 80 (Some "B") (Some []) None None;
                     Student.mk "B" "S2" 100 (Some "A") (Some []) None None] 0)
              eq_refl ltac:(discriminate)) eq_refl)
    as (Hmsg & Hwrites & _).
  split; [exact Hmsg | exact Hwrites].
Defined.

(** With doubles, marks 80 shifted by 5 are stored as 85 with their
    letter, and marks 100, which the clamp leaves at 100, are untouched. *)
Example bulk_adjustment_example :
  grade_management double []
    (GradeForm.mk "" 0 (λ _, 0%Q) 0 100 5 "" 0 bulk_adjust_btn)
    (Disk [Student.mk "A" "S1" 80 (Some "B") (Some []) None None;
           Student.mk "B" "S2" 100 (Some "A") (Some []) None None] 0)
  = (Success "Updated grades",
     Disk [Student.mk "A" "S1" 85 (Some "B") (Some []) None None;
           Student.mk "B" "S2" 100 (Some "A") (Some []) None None] 1).
Proof. vm_compute. reflexivity. Qed.

(** ** Trimming *)

Lemma string_app_cons (a : ascii) (s t : string) :
  String a s +:+ t = String a (s +:+ t).
Proof. reflexivity. Qed.

Lemma string_app_nil_r (s : string) : s +:+ "" = s.
Proof. induction s as [|a s IH]; [done|]. by rewrite string_app_cons, IH. Qed.

Lemma string_app_assoc (a b c : string) : (a +:+ b) +:+ c = a +:+ (b +:+ c).
Proof.
  induction a as [|x a IH]; [done|]. by rewrite !string_app_cons, IH.
Qed.

Lemma string_rev_app (s acc : string) :
  String.rev_app s acc = String.rev s +:+ acc.
Proof.
  unfold String.rev. revert acc. induction s as [|a s IH]; intros acc; [done|].
  simpl. rewrite (IH (String a acc)), (IH (String a "")).
  by rewrite string_app_assoc.
Qed.

Lemma string_rev_cons (a : ascii) (s : string) :
  String.rev (String a s) = String.rev s +:+ String a "".
Proof. unfold String.rev at 1. simpl. apply string_rev_app. Qed.

Lemma string_rev_append (a b : string) :
  String.rev (a +:+ b) = String.rev b +:+ String.rev a.
Proof.
  induction a as [|x a IH].
  - by rewrite string_app_nil_r.
  - by rewrite string_app_cons, !string_rev_cons, IH, string_app_assoc.
Qed.

Lemma string_rev_involutive (s : string) : String.rev (String.rev s) = s.
Proof.
  induction s as [|a s IH]; [done|].
  by rewrite string_rev_cons, string_rev_append, IH.
Qed.

Lemma lstrip_unpadded (s : string) : unpadded (lstrip s).
Proof. induction s as [|a s IH]; simpl; [done|]. by destruct (is_space a) eqn:E. Qed.

Lemma lstrip_id (s : string) : unpadded s → lstrip s = s.
Proof. destruct s as [|a s]; simpl; [done|]. by intros ->. Qed.

Lemma lstrip_suffix (s : string) : ∃ p, s = p +:+ lstrip s.
Proof.
  induction s as [|a s [p IH]]; [by exists ""|]. simpl.
  destruct (is_space a).
  - exists (String a p). by rewrite string_app_cons, <- IH.
  - by exists "".
Qed.

Lemma unpadded_rev_lstrip_rev (v : string) :
  unpadded v → unpadded (String.rev (lstrip (String.rev v))).
Proof.
  intros Hv. destruct (lstrip_suffix (String.rev v)) as [p Hp].
  apply (f_equal String.rev) in Hp.
  rewrite string_rev_involutive, string_rev_append in Hp.
  destruct (String.rev (lstrip (String.rev v))) as [|c w]; [done|].
  rewrite Hp in Hv. exact Hv.
Qed.

(** What [strip] returns has no white space at either end, and [strip]
    leaves it as it is. *)
Lemma strip_unpadded (s : string) :
  unpadded (strip s) ∧ unpadded (String.rev (strip s)).
Proof.
  unfold strip. split.
  - apply unpadded_rev_lstrip_rev, lstrip_unpadded.
  - rewrite string_rev_involutive. apply lstrip_unpadded.
Qed.

Lemma strip_idemp (s : string) : strip (strip s) = strip s.
Proof.
  destruct (strip_unpadded s) as [H1 H2]. unfold strip at 1.
  rewrite (lstrip_id (strip s)) by done.
  rewrite (lstrip_id (String.rev (strip s))) by done.
  apply string_rev_involutive.
Qed.

(** ** Counts of a bulk import *)

Lemma new_old_rows_length (existing_rolls : gset string) (df : list Clean.t) :
  (length (new_rows existing_rolls df) + length (old_rows existing_rolls df)
   = length df)%nat.
Proof.
  unfold new_rows, old_rows. induction df as [|row df IH]; [done|].
  rewrite !filter_cons.
  destruct (decide (strip (Clean.roll_no row) ∈ existing_rolls)).
  - rewrite decide_False by (intros H; done). simpl. lia.
  - rewrite decide_True by done. simpl. lia.
Qed.

(** X6. When [upload_file] reaches its loop, every cleaned row is counted
    once, as added or as skipped, and no error is recorded.  When a row
    was added it saves, once, the loaded list followed by as many records
    as were added, each with trimmed name and roll number, marks between
    0 and 100 and the letter of those marks; when none was added it
    leaves the store as [load_students] left it.  The file is thus
    written once for the added rows and once more when [load_students]
    had a key to fill in: not at all, once or twice.  A table with no
    valid row is refused before the store is even loaded. *)
Theorem upload_file_counts (rows : list Row.t) (d : disk) :
  let outcome := upload_file (Frame rows) d in
  (clean rows = [] → outcome = (Warning "No valid records found in the file.", None, d)) ∧
  (∀ shown result, outcome.1 = (shown, Some result) →
     (Tally.added result + Tally.skipped result = length (clean rows))%nat ∧
     Tally.errors result = [] ∧
     ∃ fresh,
       Tally.students result = (load_students d).1 ++ fresh ∧
       length fresh = Tally.added result ∧
       Forall (λ s, in_range (Student.marks s) ∧ grade_derived s ∧
                    strip (Student.name s) = Student.name s ∧
                    strip (Student.roll_no s) = Student.roll_no s ∧
                    Student.registered_courses s = None) fresh ∧
       (Tally.added result = 0%nat → outcome.2 = (load_students d).2) ∧
       ((0 < Tally.added result)%nat →
        outcome.2 = Disk (Tally.students result) (S (writes (load_students d).2)))) ∧
  (∀ shown result, outcome.1 = (shown, Some result) →
     writes outcome.2
     = ((if bool_decide (0 < Tally.added result)%nat then 1 else 0)
        + (if existsb needs_backfill (students_json d) then 1 else 0)
        + writes d)%nat).
Proof.
  intros outcome. subst outcome.
  split; [|match goal with |- ?P ∧ _ => cut P; [intros H2; split; [exact H2|]|] end].
  - intros Hc. unfold upload_file. by rewrite Hc.
  - intros shown result Hout.
    destruct (H2 shown result Hout) as (_ & _ & fresh & _ & _ & _ & H0 & H1).
    assert (writes (load_students d).2
            = if existsb needs_backfill (students_json d)
              then S (writes d) else writes d) as Hwrites
      by by rewrite load_students_spec.
    case_bool_decide as Hadded.
    + rewrite (H1 Hadded). cbn [writes]. rewrite Hwrites.
      destruct (existsb _ _); lia.
    + rewrite H0 by lia. rewrite Hwrites. destruct (existsb _ _); lia.
  - intros shown result. unfold upload_file.
    destruct (clean rows) as [|r0 df] eqn:Ec; [done|].
    rewrite <- Ec. clear r0 df Ec. rewrite bind_load.
    destruct (load_students d) as [students d']. cbn [fst snd].
    rewrite import_fold. cbn [Tally.students Tally.added].
    set (stored := list_to_set (Student.roll_no <$> students) : gset string).
    assert (∀ r : Tally.t, r = Tally.mk
              (students ++ (imported_record <$> new_rows stored (clean rows)))
              (0 + length (new_rows stored (clean rows)))
              (0 + length (old_rows stored (clean rows))) [] →
            ∀ d2 : disk,
            ((length (new_rows stored (clean rows)) = 0)%nat → d2 = d') →
            ((0 < length (new_rows stored (clean rows)))%nat →
             d2 = Disk (Tally.students r) (S (writes d'))) →
            (Tally.added r + Tally.skipped r = length (clean rows))%nat ∧
            Tally.errors r = [] ∧
            ∃ fresh,
              Tally.students r = students ++ fresh ∧
              length fresh = Tally.added r ∧
              Forall (λ s, in_range (Student.marks s) ∧ grade_derived s ∧
                           strip (Student.name s) = Student.name s ∧
                           strip (Student.roll_no s) = Student.roll_no s ∧
                           Student.registered_courses s = None) fresh ∧
              (Tally.added r = 0%nat → d2 = d') ∧
              ((0 < Tally.added r)%nat →
               d2 = Disk (Tally.students r) (S (writes d')))) as Hgen.
    { intros r -> d2 H0 H1. cbn [Tally.added Tally.skipped Tally.errors
                                  Tally.students].
      split_and!; [|done|].
      - pose proof (new_old_rows_length stored (clean rows)). lia.
      - eexists. split_and!; [done|by rewrite length_fmap| |done|done].
        apply Forall_fmap, Forall_forall.
        intros row [_ Hrow]%list_elem_of_filter.
        pose proof (clean_grade _ _ Hrow) as Hg.
        apply list_elem_of_omap in Hrow as (r & _ & Hr).
        apply clean_row_in_range in Hr.
        unfold grade_derived, imported_record. simpl.
        split_and!; [done|by rewrite Hg| | |done].
        + apply strip_idemp.
        + apply strip_idemp. }
    case_bool_decide as Hadded.
    + rewrite save_then. cbn [fst snd]. intros [= <- <-].
      apply Hgen; [done| |done]. simpl in Hadded. lia.
    + cbn [mret IO_ret fst snd]. intros [= <- <-].
      apply Hgen; [done|done|]. simpl in Hadded. lia.
Qed.

Lemma upload_file_counts_witness :
  writes
    (upload_file (Frame [Row.mk (Some " B ") (Some "S2") (Some 85%Q);
                         Row.mk (Some "C") (Some "S1") (Some 70%Q);
                         Row.mk (Some "D") (Some "S3") (Some 101%Q)])
                 (Disk [Student.mk "A" "S1" 55 None None None None] 0)).2
  = 2%nat.
Proof.
  exact (proj2 (proj2 (upload_file_counts
           [Row.mk (Some " B ") (Some "S2") (Some 85%Q);
            Row.mk (Some "C") (Some "S1") (Some 70%Q);
            Row.mk (Some "D") (Some "S3") (Some 101%Q)]
           (Disk [Student.mk "A" "S1" 55 None None None None] 0)))
           _ _ eq_refl).
Defined.

(** One row added, one skipped for its stored roll number, one dropped
    for its marks; the store, which lacked keys, is written twice. *)
Example upload_file_counts_example :
  upload_file (Frame [Row.mk (Some " B ") (Some "S2") (Some 85%Q);
                      Row.mk (Some "C") (Some "S1") (Some 70%Q);
                      Row.mk (Some "D") (Some "S3") (Some 101%Q)])
              (Disk [Student.mk "A" "S1" 55 None None None None] 0)
  = (Success "File processed successfully!",
     Some (Tally.mk [Student.mk "A" "S1" 55 (Some "F") (Some []) None None;
                     Student.mk "B" "S2" 85 (Some "B") None None None]
                    1 1 []),
     Disk [Student.mk "A" "S1" 55 (Some "F") (Some []) None None;
           Student.mk "B" "S2" 85 (Some "B") None None None] 2).
Proof. vm_compute. reflexivity. Qed.

(** ** Registering and dropping *)

Lemma needs_backfill_Forall (l : list Student.t) :
  existsb needs_backfill l = false ↔ Forall (λ s, needs_backfill s = false) l.
Proof.
  induction l as [|s l IH]; simpl.
  - split; [constructor | done].
  - rewrite orb_false_iff, IH, Forall_cons. done.
Qed.

Lemma loaded_complete (d : disk) :
  Forall (λ s, needs_backfill s = false) (load_students d).1.
Proof.
  rewrite load_students_spec. cbn [fst].
  apply needs_backfill_Forall, needs_backfill_normalize.
Qed.

Lemma needs_backfill_false (s : Student.t) :
  needs_backfill s = false ↔
  is_Some (Student.grade s) ∧ is_Some (Student.registered_courses s).
Proof.
  unfold needs_backfill. rewrite bool_decide_eq_false.
  destruct (Student.grade s), (Student.registered_courses s); split;
    try (intros H; split; eauto; exfalso; apply H; eauto; fail);
    try (intros [[? ?] [? ?]]; done).
  intros _ [?|?]; done.
Qed.

Lemma alter_same {A} (f : A → A) (i : nat) (l : list A) (x : A) :
  l !! i = Some x → f x = x → alter f i l = l.
Proof.
  intros Hi Hf. apply list_eq. intros j.
  destruct (decide (i = j)) as [->|Hne].
  - by rewrite list_lookup_alter_eq, Hi; simpl; rewrite Hf.
  - by rewrite list_lookup_alter_ne.
Qed.

Lemma alter_alter {A} (f g : A → A) (i : nat) (l : list A) :
  alter g i (alter f i l) = alter (g ∘ f) i l.
Proof.
  apply list_eq. intros j. destruct (decide (i = j)) as [->|Hne].
  - rewrite !list_lookup_alter_eq. by destruct (l !! j).
  - by rewrite !list_lookup_alter_ne.
Qed.

Lemma list_remove_first_snoc (x : string) (l : list string) :
  x ∉ l → list_remove_first x (l ++ [x]) = l.
Proof.
  induction l as [|y l IH]; simpl.
  - intros _. by rewrite bool_decide_eq_true_2.
  - intros [Hy Hl]%not_elem_of_cons.
    rewrite bool_decide_eq_false_2 by done. by rewrite IH.
Qed.

Lemma course_info_elem_of (courses : list Course.t) (c : Course.t) :
  c ∈ courses →
  ∃ c0, course_info courses (Course.course_id c) = Some c0 ∧
        Course.course_id c0 = Course.course_id c ∧ c0 ∈ courses.
Proof.
  intros Hc. unfold course_info.
  destruct (list_find_elem_of (λ c', Course.course_id c' = Course.course_id c)
              courses c Hc eq_refl) as [[j c0] Hfind].
  rewrite Hfind. exists c0. split; [done|].
  apply list_find_Some in Hfind as (Hj & Hid & _).
  split; [done|]. by eapply list_elem_of_lookup_2.
Qed.

Lemma drop_options_snoc (courses : list Course.t) (registered : list string)
  (c0 : Course.t) (course_id : string) :
  course_info courses course_id = Some c0 →
  drop_options courses (registered ++ [course_id])
  = drop_options courses registered ++
    [(course_id +:+ " - " +:+ Course.course_name c0, course_id)].
Proof.
  intros Hinfo. unfold drop_options. rewrite omap_app. simpl. by rewrite Hinfo.
Qed.

(** X7. Dropping the course that has just been registered, for the same
    student, gives back the collection that the registration had loaded.
    The label to choose in the drop box is made of the course identifier
    and the name of the first course with that identifier. *)
Theorem register_then_drop_restores (courses : list Course.t)
  (form : RegistrationForm.t) (d : disk) (msg : string) :
  RegistrationForm.button form = register_course_btn →
  (course_registration courses form d).1 = Success msg →
  ∃ c c0,
    c ∈ courses ∧
    course_label c = RegistrationForm.register_course_select form ∧
    course_info courses (Course.course_id c) = Some c0 ∧
    students_json
      (course_registration courses
         (RegistrationForm.mk "" ""
            (RegistrationForm.register_student_select form)
            (Course.course_id c +:+ " - " +:+ Course.course_name c0)
            drop_course_btn)
         (course_registration courses form d).2).2
    = (load_students d).1.
Proof.
  intros Hbtn. pose proof (loaded_complete d) as Hcomplete. revert Hcomplete.
  unfold course_registration at 1 3. rewrite bind_load.
  destruct (load_students d) as [students d']. cbn [fst snd]. rewrite Hbtn.
  intros Hcomplete.
  destruct students as [|s0 l] eqn:Es; [done|]. rewrite <- Es in *.
  assert (students ≠ []) as Hne by by rewrite Es. clear Es s0 l.
  destruct courses as [|c1 cs] eqn:Ec; [done|]. rewrite <- Ec in *.
  assert (courses ≠ []) as Hcne by by rewrite Ec. clear Ec c1 cs.
  destruct (register_tab students courses form) as [students'|] eqn:E; [|done].
  rewrite save_then. cbn [fst snd]. intros _.
  unfold register_tab in E.
  destruct (selectbox (student_refs students) _) as [[i s]|] eqn:Esel; [|done].
  simpl in E.
  destruct (selectbox (_ <$> _) _) as [c|] eqn:Ecourse; [|done].
  simpl in E. injection E as <-.
  apply selectbox_elem_of, list_elem_of_fmap in Ecourse as (c' & [= Hl ->] & Hc).
  apply list_elem_of_filter in Hc as [[_ Hnot] Hc].
  destruct (course_info_elem_of courses c' Hc) as (c0 & Hinfo & _ & _).
  exists c', c0. split_and!; [done..|].
  apply selectbox_student_refs_last in Esel as (Hi & Hlabel & Hlast).
  set (f := λ s : Student.t,
         Student.set_registered_courses
           (Student.get_registered_courses s ++ [Course.course_id c']) s).
  assert (Forall (λ s, needs_backfill s = false) (alter f i students)) as Hc'.
  { apply Forall_forall. intros s' [Hs'|(s1 & Hs1 & ->)]%elem_of_alter.
    - by eapply Forall_forall in Hcomplete.
    - eapply Forall_forall in Hcomplete; [|exact Hs1].
      apply needs_backfill_false in Hcomplete as [Hg _].
      apply needs_backfill_false. split; [done|]. by eexists. }
  unfold course_registration. rewrite bind_load.
  rewrite (load_students_clean (Disk (alter f i students) _))
    by by apply needs_backfill_Forall.
  cbn [fst snd RegistrationForm.button students_json]. clear Hc'.
  destruct (alter f i students) as [|s1 l1] eqn:Ea.
  { apply (f_equal length) in Ea. rewrite length_alter in Ea.
    by destruct students. }
  rewrite <- Ea. clear Ea s1 l1.
  destruct courses as [|c1 cs] eqn:Ec; [done|]. rewrite <- Ec in *. clear Ec c1 cs.
  unfold drop_tab.
  cbn [RegistrationForm.drop_student_select RegistrationForm.drop_course_select].
  assert (selectbox (student_refs (alter f i students))
            (RegistrationForm.register_student_select form) = Some (i, f s))
    as ->.
  { apply selectbox_student_refs_last. split_and!.
    - by rewrite list_lookup_alter_eq, Hi.
    - done.
    - intros j s' Hj. rewrite list_lookup_alter_ne by lia. by apply Hlast. }
  cbn [mbind option_bind].
  change (Student.get_registered_courses (f s))
    with (Student.get_registered_courses s ++ [Course.course_id c']).
  rewrite (drop_options_snoc _ _ c0) by done. rewrite selectbox_snoc.
  cbn [mbind option_bind]. rewrite save_then. cbn [snd students_json].
  rewrite alter_alter. apply (alter_same _ _ _ s); [done|].
  unfold f. simpl.
  change (Student.get_registered_courses
            (Student.set_registered_courses
               (Student.get_registered_courses s ++ [Course.course_id c']) s))
    with (Student.get_registered_courses s ++ [Course.course_id c']).
  rewrite list_remove_first_snoc by done.
  eapply Forall_forall in Hcomplete; [|by eapply list_elem_of_lookup_2].
  apply needs_backfill_false in Hcomplete as [_ [rc Hrc]].
  unfold Student.get_registered_courses. rewrite Hrc.
  destruct s. simpl in *. by rewrite Hrc.
Qed.

Lemma register_then_drop_restores_witness :
  ∃ c c0,
    c ∈ [Course.mk "CS101" "Programming" 1] ∧
    course_label c = "CS101 - Programming" ∧
    course_info [Course.mk "CS101" "Programming" 1] (Course.course_id c) = Some c0 ∧
    students_json
      (course_registration [Course.mk "CS101" "Programming" 1]
         (RegistrationForm.mk "" "" "S1 - A"
            (Course.course_id c +:+ " - " +:+ Course.course_name c0)
            drop_course_btn)
         (course_registration [Course.mk "CS101" "Programming" 1]
            (RegistrationForm.mk "S1 - A" "CS101 - Programming" "" ""
               register_course_btn)
            (Disk [Student.mk "A" "S1" 55 (Some "F") (Some []) None None] 0)).2).2
    = [Student.mk "A" "S1" 55 (Some "F") (Some []) None None].
Proof.
  exact (register_then_drop_restores [Course.mk "CS101" "Programming" 1]
           (RegistrationForm.mk "S1 - A" "CS101 - Programming" "" ""
              register_course_btn)
           (Disk [Student.mk "A" "S1" 55 (Some "F") (Some []) None None] 0)
           "Successfully registered" eq_refl eq_refl).
Defined.

(** ** Attendance marking *)

Lemma mark_attendance_fields (now : string) (student : Student.t)
  (course_id date status : string) :
  let marked := mark_attendance now student course_id date status in
  Student.name marked = Student.name student ∧
  Student.roll_no marked = Student.roll_no student ∧
  Student.marks marked = Student.marks student ∧
  Student.grade marked = Student.grade student ∧
  Student.registered_courses marked = Student.registered_courses student ∧
  Student.course_grades marked = Student.course_grades student.
Proof.
  unfold mark_attendance. by destruct (list_find _ _) as [[i x]|].
Qed.

(** X8. "Mark All Present" and "Mark All Absent" change the records in
    memory only.  In the list the handler is left with, every record
    registered for the selected course has the entry of the chosen date
    overwritten or appended in that course's attendance list, and is
    otherwise as loaded; the other records are as loaded.  The store is
    the one [load_students] left, so the next load returns the loaded
    list, without the marks. *)
Theorem mark_all_attendance_in_memory_only (now : string)
  (courses : list Course.t) (form : AttendanceForm.t) (d : disk)
  (c : Course.t) (status : string) :
  (AttendanceForm.button form = mark_all_present ∧ status = "Present") ∨
  (AttendanceForm.button form = mark_all_absent ∧ status = "Absent") →
  (load_students d).1 ≠ [] →
  selectbox ((λ c, (course_label c, c)) <$> courses)
            (AttendanceForm.mark_attendance_course_select form) = Some c →
  let outcome := attendance_tracking now courses form d in
  let new := Entry.mk (AttendanceForm.attendance_date form) status now in
  Forall2 (λ s s',
      Student.name s' = Student.name s ∧
      Student.roll_no s' = Student.roll_no s ∧
      Student.marks s' = Student.marks s ∧
      Student.grade s' = Student.grade s ∧
      Student.registered_courses s' = Student.registered_courses s ∧
      Student.course_grades s' = Student.course_grades s ∧
      (∀ other, other ≠ Course.course_id c → entries s' other = entries s other) ∧
      entries s' (Course.course_id c)
      = if bool_decide (Course.course_id c ∈ Student.get_registered_courses s)
        then upsert new (entries s (Course.course_id c))
        else entries s (Course.course_id c))
    (load_students d).1 outcome.1 ∧
  load_students outcome.2 = ((load_students d).1, (load_students d).2).
Proof.
  intros Hbutton Hne Hc. cbn zeta. split.
  - unfold attendance_tracking. rewrite bind_load.
    destruct (load_students d) as [students d']. cbn [fst snd] in *.
    destruct students as [|s0 l] eqn:Es; [done|]. rewrite <- Es. clear Es Hne.
    destruct courses as [|c1 cs] eqn:Ec; [done|]. rewrite <- Ec in *. clear Ec.
    rewrite Hc.
    assert (∀ status, Forall2 (λ s s',
      Student.name s' = Student.name s ∧
      Student.roll_no s' = Student.roll_no s ∧
      Student.marks s' = Student.marks s ∧
      Student.grade s' = Student.grade s ∧
      Student.registered_courses s' = Student.registered_courses s ∧
      Student.course_grades s' = Student.course_grades s ∧
      (∀ other, other ≠ Course.course_id c → entries s' other = entries s other) ∧
      entries s' (Course.course_id c)
      = if bool_decide (Course.course_id c ∈ Student.get_registered_courses s)
        then upsert (Entry.mk (AttendanceForm.attendance_date form) status now)
               (entries s (Course.course_id c))
        else entries s (Course.course_id c))
      students
      (mark_all now (Course.course_id c) (AttendanceForm.attendance_date form)
         status students)) as Hall.
    { intros st. unfold mark_all. apply Forall2_fmap_r, Forall_Forall2_diag.
      apply Forall_forall. intros s _. unfold compose. cbn beta.
      case_bool_decide; [|done].
      destruct (mark_attendance_fields now s (Course.course_id c)
                  (AttendanceForm.attendance_date form) st)
        as (-> & -> & -> & -> & -> & ->).
      split_and!; try done.
      - intros other Hother. by apply mark_attendance_other_course.
      - apply mark_attendance_entries. }
    destruct Hbutton as [[-> ->]|[-> ->]]; apply Hall.
  - rewrite attendance_tracking_disk, (load_students_spec d). cbn [fst snd].
    apply load_students_clean. cbn [students_json].
    apply needs_backfill_normalize.
Qed.

Lemma mark_all_attendance_in_memory_only_witness :
  let d := Disk [Student.mk "A" "S1" 55 (Some "F") (Some ["CS101"]) None None;
                 Student.mk "B" "S2" 65 (Some "D") (Some []) None None] 0 in
  let outcome :=
    attendance_tracking "09:00:00" [Course.mk "CS101" "Programming" 30]
      (AttendanceForm.mk "CS101 - Programming" "2024-01-15" "" true false
         mark_all_present) d in
  Forall2 (λ s s',
      Student.name s' = Student.name s ∧
      Student.roll_no s' = Student.roll_no s ∧
      Student.marks s' = Student.marks s ∧
      Student.grade s' = Student.grade s ∧
      Student.registered_courses s' = Student.registered_courses s ∧
      Student.course_grades s' = Student.course_grades s ∧
      (∀ other, other ≠ "CS101" → entries s' other = entries s other) ∧
      entries s' "CS101"
      = if bool_decide ("CS101" ∈ Student.get_registered_courses s)
        then upsert (Entry.mk "2024-01-15" "Present" "09:00:00") (entries s "CS101")
        else entries s "CS101")
    (load_students d).1 outcome.1 ∧
  load_students outcome.2 = ((load_students d).1, (load_students d).2).
Proof.
  refine (mark_all_attendance_in_memory_only "09:00:00"
           [Course.mk "CS101" "Programming" 30]
           (AttendanceForm.mk "CS101 - Programming" "2024-01-15" "" true false
              mark_all_present)
           (Disk [Student.mk "A" "S1" 55 (Some "F") (Some ["CS101"]) None None;
                  Student.mk "B" "S2" 65 (Some "D") (Some []) None None] 0)
           (Course.mk "CS101" "Programming" 30) "Present" _ _ _).
  - left. split; reflexivity.
  - discriminate.
  - reflexivity.
Defined.

(** * Teacher accounts *)

Lemma load_teachers_fst (f : teachers_file) :
  (load_teachers f).1 = stored_teachers f.
Proof. by destruct f. Qed.

Lemma load_teachers_snd (f : teachers_file) :
  (load_teachers f).2 = init_teachers_file f.
Proof. by destruct f. Qed.

Lemma stored_teachers_init (f : teachers_file) :
  stored_teachers (init_teachers_file f) = stored_teachers f.
Proof. by destruct f. Qed.

Lemma load_teachers_eq (f : teachers_file) :
  load_teachers f = (stored_teachers f, init_teachers_file f).
Proof. by destruct f. Qed.

Lemma email_known (teachers : list Teacher.t) (email : string) :
  existsb (λ t, bool_decide (Teacher.email t = email)) teachers = true
  ↔ email ∈ emails teachers.
Proof.
  unfold emails. rewrite existsb_exists, list_elem_of_fmap. split.
  - intros (t & Ht%list_elem_of_In & Heq%bool_decide_eq_true). eauto.
  - intros (t & -> & Ht). exists t. split; [by apply list_elem_of_In|].
    by apply bool_decide_eq_true.
Qed.

Lemma email_unknown (teachers : list Teacher.t) (email : string) :
  existsb (λ t, bool_decide (Teacher.email t = email)) teachers = false
  ↔ email ∉ emails teachers.
Proof. rewrite <- email_known. by destruct (existsb _ _). Qed.

Lemma find_email_None (teachers : list Teacher.t) (email : string) :
  email ∉ emails teachers →
  list_find (λ t, Teacher.email t = email) teachers = None.
Proof.
  intros Hnot. apply list_find_None, Forall_forall. intros t Ht Heq.
  apply Hnot, list_elem_of_fmap. eauto.
Qed.

Lemma find_email_snoc (teachers : list Teacher.t) (t : Teacher.t) :
  Teacher.email t ∉ emails teachers →
  list_find (λ t', Teacher.email t' = Teacher.email t) (teachers ++ [t])
  = Some (length teachers, t).
Proof.
  intros Hnot. apply list_find_Some. split_and!.
  - by rewrite lookup_app_r, Nat.sub_diag by lia.
  - done.
  - intros j t' Hj Hlt Heq. rewrite lookup_app_l in Hj by done.
    apply Hnot, list_elem_of_fmap. exists t'. split; [done|].
    by eapply list_elem_of_lookup_2.
Qed.

Lemma nonempty_true (s : string) : nonempty s = true ↔ s ≠ "".
Proof. by destruct s. Qed.

(** What a successful registration has checked and written. *)
Lemma register_teacher_true (sha256_hex : string → string)
  (token_hex now email password name : string) (f : teachers_file) :
  (register_teacher sha256_hex token_hex now email password name f).1.1 = true →
  (email ∉ emails (stored_teachers f)) ∧
  strip email ≠ "" ∧ strip password ≠ "" ∧ strip name ≠ "" ∧
  (6 ≤ String.length password)%nat ∧
  register_teacher sha256_hex token_hex now email password name f
  = ((true, "Registration successful! Please login."),
     Teachers (stored_teachers f ++
       [Teacher.mk (strip email) (sha256_hex (password +:+ token_hex))
                   token_hex (strip name) now])).
Proof.
  unfold register_teacher. rewrite load_teachers_eq.
  destruct (existsb _ _) eqn:Eknown; [done|].
  apply email_unknown in Eknown.
  destruct (nonempty (strip email)) eqn:E1; [|done].
  destruct (nonempty (strip password)) eqn:E2; [|done].
  destruct (nonempty (strip name)) eqn:E3; [|done].
  cbn [negb orb]. case_bool_decide as Hlen; [done|].
  intros _. apply nonempty_true in E1, E2, E3.
  split_and!; try done. lia.
Qed.

(** X9. A refused registration saves nothing: the file is as
    [load_teachers] left it and holds the records it held.  An e-mail
    that is stored already is refused before any other check.  A
    successful registration has passed every check and saves the stored
    records followed by one new record, with the trimmed e-mail and name,
    the hash of the password followed by the drawn salt, and that salt. *)
Theorem register_teacher_outcomes (sha256_hex : string → string)
  (token_hex now email password name : string) (f : teachers_file) :
  let outcome :=
    register_teacher sha256_hex token_hex now email password name f in
  (outcome.1.1 = false →
     outcome.2 = init_teachers_file f ∧
     stored_teachers outcome.2 = stored_teachers f) ∧
  (email ∈ emails (stored_teachers f) →
     outcome.1 = (false, "Email already registered")) ∧
  (outcome.1.1 = true →
     (email ∉ emails (stored_teachers f)) ∧
     strip email ≠ "" ∧ strip password ≠ "" ∧ strip name ≠ "" ∧
     (6 ≤ String.length password)%nat ∧
     outcome.1.2 = "Registration successful! Please login." ∧
     outcome.2 = Teachers (stored_teachers f ++
       [Teacher.mk (strip email) (sha256_hex (password +:+ token_hex))
                   token_hex (strip name) now])).
Proof.
  cbn zeta. split_and!.
  - unfold register_teacher. rewrite load_teachers_eq.
    pose proof (stored_teachers_init f) as Hinit.
    destruct (existsb _ _); [done|].
    destruct (_ || _); [done|]. by case_bool_decide.
  - intros Hin%email_known. unfold register_teacher.
    rewrite load_teachers_eq. by rewrite Hin.
  - intros Hok.
    destruct (register_teacher_true _ _ _ _ _ _ _ Hok)
      as (? & ? & ? & ? & ? & ->). done.
Qed.

Lemma register_teacher_outcomes_witness :
  let outcome :=
    register_teacher (λ s, s) "5a17" "2024-01-15 09:00:00"
      " ada@example.com " "secret1" "Ada " NoTeachers in
  outcome.1 = (true, "Registration successful! Please login.") ∧
  outcome.2 = Teachers [Teacher.mk "ada@example.com" "secret15a17" "5a17"
                          "Ada" "2024-01-15 09:00:00"].
Proof.
  pose proof (proj2 (proj2 (register_teacher_outcomes (λ s, s) "5a17"
                "2024-01-15 09:00:00" " ada@example.com " "secret1" "Ada "
                NoTeachers)) eq_refl) as (_ & _ & _ & _ & _ & Hmsg & Hfile).
  split; [reflexivity | exact Hfile].
Defined.

Lemma login_teacher_last (sha256_hex : string → string)
  (teachers : list Teacher.t) (t : Teacher.t) (password : string) :
  Teacher.email t ∉ emails teachers →
  sha256_hex (password +:+ Teacher.salt t) = Teacher.password_hash t →
  login_teacher sha256_hex (Teacher.email t) password (Teachers (teachers ++ [t]))
  = ((true, "Login successful",
      Some (TeacherData.mk (Teacher.email t) (Teacher.name t)
              (Teacher.created_at t))),
     Teachers (teachers ++ [t])).
Proof.
  intros Hfresh Hhash. unfold login_teacher.
  cbn [load_teachers init_teachers_file]. rewrite find_email_snoc by done.
  unfold verify_password, hash_password. cbn [default].
  by rewrite bool_decide_eq_true_2.
Qed.

(** X10. Logging in with the trimmed e-mail and the password of a
    registration that has just succeeded is accepted, and returns the
    trimmed e-mail and name and the time of registration, provided no
    stored record had the trimmed e-mail before. *)
Theorem register_then_login (sha256_hex : string → string)
  (token_hex now email password name : string) (f : teachers_file) :
  let registered :=
    register_teacher sha256_hex token_hex now email password name f in
  registered.1.1 = true →
  strip email ∉ emails (stored_teachers f) →
  login_teacher sha256_hex (strip email) password registered.2
  = ((true, "Login successful",
      Some (TeacherData.mk (strip email) (strip name) now)),
     registered.2).
Proof.
  cbn zeta. intros Hok Hfresh.
  destruct (register_teacher_true _ _ _ _ _ _ _ Hok)
    as (_ & _ & _ & _ & _ & ->).
  cbn [snd]. by apply (login_teacher_last sha256_hex (stored_teachers f)
    (Teacher.mk (strip email) (sha256_hex (password +:+ token_hex)) token_hex
                (strip name) now)).
Qed.

Lemma register_then_login_witness :
  login_teacher (λ s, s) "ada@example.com" "secret1"
    (register_teacher (λ s, s) "5a17" "2024-01-15 09:00:00"
       " ada@example.com " "secret1" "Ada " NoTeachers).2
  = ((true, "Login successful",
      Some (TeacherData.mk "ada@example.com" "Ada" "2024-01-15 09:00:00")),
     (register_teacher (λ s, s) "5a17" "2024-01-15 09:00:00"
        " ada@example.com " "secret1" "Ada " NoTeachers).2).
Proof.
  refine (register_then_login (λ s, s) "5a17" "2024-01-15 09:00:00"
            " ada@example.com " "secret1" "Ada " NoTeachers eq_refl _).
  simpl. apply not_elem_of_nil.
Defined.

(** X11. Registration keeps the stored e-mails pairwise distinct when the
    e-mail is entered without surrounding white space: the duplicate
    check compares the e-mail as entered, the record stores it trimmed. *)
Theorem registered_emails_stay_distinct (sha256_hex : string → string)
  (token_hex now email password name : string) (f : teachers_file) :
  strip email = email →
  NoDup (emails (stored_teachers f)) →
  NoDup (emails (stored_teachers
    (register_teacher sha256_hex token_hex now email password name f).2)).
Proof.
  intros Htrim Hdistinct.
  destruct (register_teacher sha256_hex token_hex now email password name f).1.1
    eqn:Hok.
  - destruct (register_teacher_true _ _ _ _ _ _ _ Hok)
      as (Hnew & _ & _ & _ & _ & ->).
    cbn [snd stored_teachers]. unfold emails. rewrite fmap_app.
    apply NoDup_app. split_and!; [done| |].
    + intros e He [->|[]%elem_of_nil]%elem_of_cons.
      cbn [Teacher.email] in He. by rewrite Htrim in He.
    + apply NoDup_singleton.
  - revert Hok. unfold register_teacher. rewrite load_teachers_eq.
    pose proof (stored_teachers_init f) as Hinit.
    destruct (existsb _ _); [by rewrite <- Hinit in Hdistinct|].
    destruct (_ || _); [by rewrite <- Hinit in Hdistinct|].
    case_bool_decide; [by rewrite <- Hinit in Hdistinct | done].
Qed.

Lemma registered_emails_stay_distinct_witness :
  NoDup (emails (stored_teachers
    (register_teacher (λ s, s) "5a17" "2024-01-15 09:00:00"
       "bob@example.com" "secret2" "Bob"
       (Teachers [Teacher.mk "ada@example.com" "secret15a17" "5a17" "Ada"
                    "2024-01-14 09:00:00"])).2)).
Proof.
  refine (registered_emails_stay_distinct (λ s, s) "5a17"
            "2024-01-15 09:00:00" "bob@example.com" "secret2" "Bob"
            (Teachers [Teacher.mk "ada@example.com" "secret15a17" "5a17" "Ada"
                         "2024-01-14 09:00:00"]) eq_refl _).
  simpl. apply NoDup_singleton.
Defined.

(** An e-mail entered with a leading space passes the duplicate check
    against its stored, trimmed form: two records with one e-mail. *)
Example padded_email_registers_twice (sha256_hex : string → string) :
  emails (stored_teachers
    (register_teacher sha256_hex "77c0" "2024-01-15 09:00:00"
       " ada@example.com" "secret2" "Eve"
       (Teachers [Teacher.mk "ada@example.com" "0f3c" "5a17" "Ada"
                    "2024-01-14 09:00:00"])).2)
  = ["ada@example.com"; "ada@example.com"].
Proof. reflexivity. Qed.

(** X12. After a successful registration under an e-mail that was
    entered with surrounding white space, logging in with the e-mail as
    entered is refused with "Email not found", whatever the password. *)
Theorem padded_email_not_found (sha256_hex : string → string)
  (token_hex now email password name attempt : string) (f : teachers_file) :
  let registered :=
    register_teacher sha256_hex token_hex now email password name f in
  registered.1.1 = true →
  strip email ≠ email →
  login_teacher sha256_hex email attempt registered.2
  = ((false, "Email not found", None), registered.2).
Proof.
  cbn zeta. intros Hok Hpadded.
  destruct (register_teacher_true _ _ _ _ _ _ _ Hok)
    as (Hnew & _ & _ & _ & _ & ->).
  cbn [snd]. unfold login_teacher. cbn [load_teachers init_teachers_file].
  rewrite find_email_None; [done|].
  unfold emails. rewrite fmap_app. intros [?|Hin]%elem_of_app; [done|].
  apply list_elem_of_singleton in Hin. cbn [Teacher.email] in Hin. done.
Qed.

Lemma padded_email_not_found_witness :
  login_teacher (λ s, s) " ada@example.com " "secret1"
    (register_teacher (λ s, s) "5a17" "2024-01-15 09:00:00"
       " ada@example.com " "secret1" "Ada " NoTeachers).2
  = ((false, "Email not found", None),
     (register_teacher (λ s, s) "5a17" "2024-01-15 09:00:00"
        " ada@example.com " "secret1" "Ada " NoTeachers).2).
Proof.
  refine (padded_email_not_found (λ s, s) "5a17" "2024-01-15 09:00:00"
            " ada@example.com " "secret1" "Ada " "secret1" NoTeachers
            eq_refl _).
  discriminate.
Defined.

Lemma login_teacher_file (sha256_hex : string → string)
  (email password : string) (f : teachers_file) :
  (login_teacher sha256_hex email password f).2 = init_teachers_file f.
Proof.
  unfold login_teacher. rewrite load_teachers_eq.
  destruct (list_find _ _) as [[i t]|]; [|done]. by destruct (negb _).
Qed.

(** What an accepted login has found. *)
Lemma login_teacher_true (sha256_hex : string → string)
  (email password : string) (f : teachers_file) :
  (login_teacher sha256_hex email password f).1.1.1 = true →
  ∃ i teacher,
    stored_teachers f !! i = Some teacher ∧
    Teacher.email teacher = email ∧
    (∀ j t, stored_teachers f !! j = Some t → (j < i)%nat →
            Teacher.email t ≠ email) ∧
    sha256_hex (password +:+ Teacher.salt teacher)
    = Teacher.password_hash teacher ∧
    (login_teacher sha256_hex email password f).1
    = (true, "Login successful",
       Some (TeacherData.mk email (Teacher.name teacher)
               (Teacher.created_at teacher))).
Proof.
  unfold login_teacher. rewrite load_teachers_eq.
  destruct (list_find _ _) as [[i t]|] eqn:Efind; [|done].
  apply list_find_Some in Efind as (Hi & Hemail & Hfirst).
  unfold verify_password, hash_password. cbn [default].
  case_bool_decide as Hhash; [|done]. intros _.
  exists i, t. split_and!; try done. cbn [negb fst]. by rewrite Hemail.
Qed.

(** X13. [login_teacher] never saves: the file is as [load_teachers]
    left it, with the records it held.  It accepts only when the first
    stored record with the e-mail has, as its hash, the hash of the
    password followed by the record's salt, and then returns that
    record's e-mail, name and time of registration; an e-mail that no
    record has is reported as not found. *)
Theorem login_teacher_spec (sha256_hex : string → string)
  (email password : string) (f : teachers_file) :
  let outcome := login_teacher sha256_hex email password f in
  outcome.2 = init_teachers_file f ∧
  stored_teachers outcome.2 = stored_teachers f ∧
  (email ∉ emails (stored_teachers f) →
     outcome.1 = (false, "Email not found", None)) ∧
  (outcome.1.1.1 = true →
     ∃ i teacher,
       stored_teachers f !! i = Some teacher ∧
       Teacher.email teacher = email ∧
       (∀ j t, stored_teachers f !! j = Some t → (j < i)%nat →
               Teacher.email t ≠ email) ∧
       sha256_hex (password +:+ Teacher.salt teacher)
       = Teacher.password_hash teacher ∧
       outcome.1 = (true, "Login successful",
                    Some (TeacherData.mk email (Teacher.name teacher)
                            (Teacher.created_at teacher)))).
Proof.
  cbn zeta. split_and!.
  - apply login_teacher_file.
  - by rewrite login_teacher_file, stored_teachers_init.
  - intros Hnot. unfold login_teacher. rewrite load_teachers_eq.
    by rewrite find_email_None.
  - apply login_teacher_true.
Qed.

Lemma login_teacher_spec_witness :
  login_teacher (λ s, s) "bob@example.com" "secret1"
    (Teachers [Teacher.mk "ada@example.com" "secret15a17" "5a17" "Ada"
                 "2024-01-14 09:00:00"])
  = ((false, "Email not found", None),
     Teachers [Teacher.mk "ada@example.com" "secret15a17" "5a17" "Ada"
                 "2024-01-14 09:00:00"]).
Proof.
  pose proof (login_teacher_spec (λ s, s) "bob@example.com" "secret1"
    (Teachers [Teacher.mk "ada@example.com" "secret15a17" "5a17" "Ada"
                 "2024-01-14 09:00:00"])) as (Hfile & _ & Hnot & _).
  apply injective_projections; [apply Hnot | exact Hfile].
  simpl. intros [H|H%elem_of_nil]%elem_of_cons; [discriminate H | exact H].
Defined.

(** ** The forms *)

(** X14. The login form never touches the stored records or the page of
    the session, and a session that is authenticated after a run of the
    form was authenticated before it, or the form was submitted with the
    e-mail of a stored record and a password whose hash, salted with the
    record's salt, is the record's hash; the session then holds that
    record's name and time of registration. *)
Theorem login_form_authenticates_by_password (sha256_hex : string → string)
  (email password : string) (submitted : bool) (s : Session.t)
  (f : teachers_file) :
  let outcome := show_login_form sha256_hex email password submitted s f in
  stored_teachers outcome.2 = stored_teachers f ∧
  Session.auth_page outcome.1.2 = Session.auth_page s ∧
  (Session.authenticated outcome.1.2 = true →
     Session.authenticated s = true ∨
     submitted = true ∧
     ∃ teacher,
       teacher ∈ stored_teachers f ∧
       Teacher.email teacher = email ∧
       sha256_hex (password +:+ Teacher.salt teacher)
       = Teacher.password_hash teacher ∧
       Session.teacher_data outcome.1.2
       = Some (TeacherData.mk email (Teacher.name teacher)
                 (Teacher.created_at teacher))).
Proof.
  cbn zeta. unfold show_login_form.
  destruct submitted; [|by auto].
  destruct (_ || _); [by auto|].
  pose proof (login_teacher_file sha256_hex email password f) as Hfile.
  apply (f_equal stored_teachers) in Hfile.
  rewrite stored_teachers_init in Hfile.
  pose proof (login_teacher_true sha256_hex email password f) as Hok.
  destruct (login_teacher sha256_hex email password f)
    as [[[success message] teacher_data] f'].
  cbn [fst snd] in *. destruct success; [|by auto].
  destruct (Hok eq_refl) as (i & teacher & Hi & Hemail & _ & Hhash & [= _ ->]).
  split_and!; [done..|]. intros _. right. split; [done|].
  exists teacher. split_and!; try done. by eapply list_elem_of_lookup_2.
Qed.

Lemma login_form_authenticates_by_password_witness :
  Session.authenticated
    (show_login_form (λ s, s) "ada@example.com" "secret1" true
       (Session.mk false None login_page)
       (Teachers [Teacher.mk "ada@example.com" "secret15a17" "5a17" "Ada"
                    "2024-01-14 09:00:00"])).1.2 = true ∧
  (false = true ∨
   true = true ∧
   ∃ teacher,
     teacher ∈ [Teacher.mk "ada@example.com" "secret15a17" "5a17" "Ada"
                  "2024-01-14 09:00:00"] ∧
     Teacher.email teacher = "ada@example.com" ∧
     "secret1" +:+ Teacher.salt teacher = Teacher.password_hash teacher ∧
     Session.teacher_data
       (show_login_form (λ s, s) "ada@example.com" "secret1" true
          (Session.mk false None login_page)
          (Teachers [Teacher.mk "ada@example.com" "secret15a17" "5a17" "Ada"
                       "2024-01-14 09:00:00"])).1.2
     = Some (TeacherData.mk "ada@example.com" (Teacher.name teacher)
               (Teacher.created_at teacher))).
Proof.
  split; [reflexivity|].
  exact (proj2 (proj2 (login_form_authenticates_by_password (λ s, s)
           "ada@example.com" "secret1" true (Session.mk false None login_page)
           (Teachers [Teacher.mk "ada@example.com" "secret15a17" "5a17" "Ada"
                        "2024-01-14 09:00:00"]))) eq_refl).
Defined.

(** X15. When the registration form reports success, the two passwords
    were equal, the session is sent to the login page with its
    authentication untouched, and submitting the login form with the
    trimmed e-mail and the same password authenticates the session with
    the trimmed e-mail and name, provided no stored record had the
    trimmed e-mail before. *)
Theorem register_form_then_login_form (sha256_hex : string → string)
  (token_hex now name email password confirm_password msg : string)
  (s s1 : Session.t) (f f1 : teachers_file) :
  show_register_form sha256_hex token_hex now name email password
    confirm_password true s f = (Success msg, s1, f1) →
  strip email ∉ emails (stored_teachers f) →
  password = confirm_password ∧
  s1 = Session.mk (Session.authenticated s) (Session.teacher_data s)
                  login_page ∧
  show_login_form sha256_hex (strip email) password true s1 f1
  = (Success "Login successful",
     Session.mk true (Some (TeacherData.mk (strip email) (strip name) now))
                login_page,
     f1).
Proof.
  unfold show_register_form. intros Hform Hfresh.
  destruct (_ || _) eqn:Efields; [done|].
  case_bool_decide as Hconfirm; [done|].
  case_bool_decide as Hlen; [done|].
  pose proof (register_teacher_true sha256_hex token_hex now email password name f)
    as Htrue.
  destruct (register_teacher sha256_hex token_hex now email password name f)
    as [[success message] f'].
  cbn [fst snd] in *. destruct success; [|done].
  injection Hform as _ <- <-.
  destruct (Htrue eq_refl) as (_ & Hemail & _ & _ & _ & [= _ ->]).
  split_and!; [by destruct (decide (password = confirm_password)) | done |].
  unfold show_login_form.
  rewrite (login_teacher_last sha256_hex (stored_teachers f)
    (Teacher.mk (strip email) (sha256_hex (password +:+ token_hex)) token_hex
                (strip name) now)) by done.
  apply nonempty_true in Hemail. cbn [Teacher.email]. rewrite Hemail.
  destruct password; [by simpl in Hlen; lia|]. done.
Qed.

Lemma register_form_then_login_form_witness :
  show_login_form (λ s, s) "ada@example.com" "secret1" true
    (Session.mk false None login_page)
    (Teachers [Teacher.mk "ada@example.com" "secret15a17" "5a17" "Ada"
                 "2024-01-15 09:00:00"])
  = (Success "Login successful",
     Session.mk true
       (Some (TeacherData.mk "ada@example.com" "Ada" "2024-01-15 09:00:00"))
       login_page,
     Teachers [Teacher.mk "ada@example.com" "secret15a17" "5a17" "Ada"
                 "2024-01-15 09:00:00"]).
Proof.
  refine (proj2 (proj2 (register_form_then_login_form (λ s, s) "5a17"
            "2024-01-15 09:00:00" "Ada " " ada@example.com " "secret1"
            "secret1" "Registration successful! Please login."
            (Session.mk false None register_page)
            (Session.mk false None login_page)
            NoTeachers
            (Teachers [Teacher.mk "ada@example.com" "secret15a17" "5a17" "Ada"
                         "2024-01-15 09:00:00"])
            eq_refl _))).
  simpl. apply not_elem_of_nil.
Defined.

(** * Course assignment by the batch script *)

Lemma dict_set_keys {V} (k : string) (v : V) (d : list (string * V)) :
  (dict_set k v d).*1 = if bool_decide (k ∈ d.*1) then d.*1 else d.*1 ++ [k].
Proof.
  induction d as [|[k' v'] d IH]; [done|].
  cbn [dict_set fmap list_fmap fst].
  destruct (decide (k' = k)) as [->|Hk].
  - rewrite !bool_decide_eq_true_2; [done | left | done].
  - rewrite (bool_decide_eq_false_2 (k' = k)) by done.
    cbn [fmap list_fmap fst]. fold (fmap (M:=list) (@fst string V)).
    rewrite IH. destruct (decide (k ∈ d.*1)) as [Hin|Hin].
    + rewrite !bool_decide_eq_true_2; [done | by right | done].
    + rewrite !bool_decide_eq_false_2; [done | | done].
      intros [?|?]%elem_of_cons; by subst.
Qed.

Lemma dict_set_keys_in {V} (k : string) (v : V) (d : list (string * V)) :
  k ∈ d.*1 → (dict_set k v d).*1 = d.*1.
Proof. intros Hk. by rewrite dict_set_keys, bool_decide_eq_true_2. Qed.

Lemma dict_get_keys {V} (k : string) (d : list (string * V)) :
  is_Some (dict_get k d) ↔ k ∈ d.*1.
Proof.
  induction d as [|[k' v'] d IH]; simpl.
  - split; [by intros [? ?] | by intros ?%elem_of_nil].
  - case_bool_decide as Hk.
    + subst. split; [left | by eauto].
    + rewrite IH. split; [by right|].
      intros [?|?]%elem_of_cons; [by subst | done].
Qed.

Lemma dict_set_NoDup {V} (k : string) (v : V) (d : list (string * V)) :
  NoDup d.*1 → NoDup (dict_set k v d).*1.
Proof.
  intros Hd. rewrite dict_set_keys. case_bool_decide as Hk; [done|].
  apply NoDup_app. split_and!; [done| |apply NoDup_singleton].
  intros x Hx ->%list_elem_of_singleton. done.
Qed.

Lemma course_limits_NoDup (courses : list Course.t) :
  NoDup (course_limits courses).*1.
Proof.
  unfold course_limits.
  assert (∀ acc : list (string * Z), NoDup acc.*1 →
    NoDup (foldl (λ d c, dict_set (Course.course_id c) (Course.max_students c) d)
             acc courses).*1) as H.
  { induction courses as [|c cs IH]; intros acc Hacc; simpl; [done|].
    by apply IH, dict_set_NoDup. }
  apply H. constructor.
Qed.

Lemma course_limits_keys (courses : list Course.t) (cid : string) :
  cid ∈ (course_limits courses).*1 ↔ cid ∈ Course.course_id <$> courses.
Proof.
  unfold course_limits.
  assert (∀ acc : list (string * Z),
    cid ∈ (foldl (λ d c, dict_set (Course.course_id c) (Course.max_students c) d)
             acc courses).*1
    ↔ cid ∈ acc.*1 ∨ cid ∈ Course.course_id <$> courses) as H.
  { induction courses as [|c cs IH]; intros acc; simpl.
    - split; [by left | by intros [?|?%elem_of_nil]].
    - rewrite IH, dict_set_keys, elem_of_cons.
      case_bool_decide as Hk.
      + split; [intros [?|?]; by auto|].
        intros [?|[->|?]]; by auto.
      + rewrite elem_of_app, list_elem_of_singleton. tauto. }
  rewrite H. split; [by intros [?%elem_of_nil|?] | by right].
Qed.

Lemma zero_enrollments_keys (limits : list (string * Z)) :
  (zero_enrollments limits).*1 = limits.*1.
Proof.
  unfold zero_enrollments. rewrite <- list_fmap_compose.
  by apply list_fmap_ext.
Qed.

Lemma zero_enrollments_count (limits : list (string * Z)) (cid : string) :
  count_of (zero_enrollments limits) cid = 0%Z.
Proof.
  unfold count_of, zero_enrollments.
  induction limits as [|[k v] l IH]; simpl; [done|].
  by case_bool_decide.
Qed.

Lemma occurrences_nil (cid : string) : occurrences cid [] = 0%Z.
Proof. done. Qed.

Lemma occurrences_cons (cid c : string) (l : list string) :
  occurrences cid (c :: l)
  = ((if bool_decide (c = cid) then 1 else 0) + occurrences cid l)%Z.
Proof.
  unfold occurrences. rewrite filter_cons.
  case_decide; [rewrite bool_decide_eq_true_2 by done
               |rewrite bool_decide_eq_false_2 by done]; simpl; lia.
Qed.

Lemma occurrences_app (cid : string) (l1 l2 : list string) :
  occurrences cid (l1 ++ l2) = (occurrences cid l1 + occurrences cid l2)%Z.
Proof. unfold occurrences. rewrite filter_app, length_app. lia. Qed.

Lemma occurrences_nonneg (cid : string) (l : list string) :
  (0 ≤ occurrences cid l)%Z.
Proof. unfold occurrences. lia. Qed.

Lemma occurrences_not_in (cid : string) (l : list string) :
  cid ∉ l → occurrences cid l = 0%Z.
Proof.
  induction l as [|c l IH]; [done|].
  intros [Hc Hl]%not_elem_of_cons. rewrite occurrences_cons, IH by done.
  by rewrite bool_decide_eq_false_2.
Qed.

Lemma occurrences_NoDup (cid : string) (l : list string) :
  NoDup l → occurrences cid l = if bool_decide (cid ∈ l) then 1%Z else 0%Z.
Proof.
  induction 1 as [|c l Hc Hl IH]; [done|].
  rewrite occurrences_cons. destruct (decide (c = cid)) as [->|Hcid].
  - rewrite occurrences_not_in by done.
    rewrite !bool_decide_eq_true_2; [done | left | done].
  - rewrite (bool_decide_eq_false_2 (c = cid)) by done. rewrite IH.
    destruct (decide (cid ∈ l)) as [Hin|Hin].
    + rewrite !bool_decide_eq_true_2; [done | by right | done].
    + rewrite !bool_decide_eq_false_2; [done | | done].
      intros [?|?]%elem_of_cons; by subst.
Qed.

Lemma enrolled_cons (s : Student.t) (students : list Student.t) (cid : string) :
  enrolled (s :: students) cid
  = (occurrences cid (Student.get_registered_courses s)
     + enrolled students cid)%Z.
Proof. unfold enrolled. simpl. apply occurrences_app. Qed.

Lemma count_of_set (k cid : string) (v : Z) (e : list (string * Z)) :
  count_of (dict_set k v e) cid
  = if bool_decide (k = cid) then v else count_of e cid.
Proof.
  unfold count_of. case_bool_decide as Hk.
  - subst. by rewrite dict_get_set_eq.
  - by rewrite dict_get_set_ne.
Qed.

Lemma count_of_not_key (e : list (string * Z)) (cid : string) :
  cid ∉ e.*1 → count_of e cid = 0%Z.
Proof.
  intros Hnot. unfold count_of.
  destruct (dict_get cid e) as [v|] eqn:E; [|done].
  exfalso. apply Hnot, dict_get_keys. by eexists.
Qed.

Lemma count_courses_spec (registered : list string) (e : list (string * Z)) :
  (count_courses registered e).*1 = e.*1 ∧
  ∀ cid, cid ∈ e.*1 →
    count_of (count_courses registered e) cid
    = (count_of e cid + occurrences cid registered)%Z.
Proof.
  unfold count_courses. revert e.
  induction registered as [|c l IH]; intros e; simpl.
  - split; [done|]. intros cid _. rewrite occurrences_nil. lia.
  - destruct (dict_has c e) eqn:Ehas.
    + apply dict_has_get, dict_get_keys in Ehas.
      destruct (IH (dict_set c (default 0 (dict_get c e) + 1)%Z e))
        as [Hkeys Hcount].
      rewrite dict_set_keys_in in Hkeys, Hcount by done.
      split; [done|]. intros cid Hcid. rewrite Hcount by done.
      rewrite count_of_set, occurrences_cons.
      case_bool_decide; [subst; unfold count_of|]; lia.
    + apply dict_has_none in Ehas.
      destruct (IH e) as [Hkeys Hcount]. split; [done|].
      intros cid Hcid. rewrite Hcount by done. rewrite occurrences_cons.
      rewrite bool_decide_eq_false_2; [lia|]. intros ->.
      apply dict_get_keys in Hcid as [v Hv]. congruence.
Qed.

Lemma count_enrollments_spec (students : list Student.t)
  (e : list (string * Z)) :
  Forall (λ s, is_Some (Student.registered_courses s)) students →
  ∃ e', count_enrollments students e = Ok e' ∧
        e'.*1 = e.*1 ∧
        ∀ cid, cid ∈ e.*1 →
          count_of e' cid = (count_of e cid + enrolled students cid)%Z.
Proof.
  intros Hall. revert e.
  induction Hall as [|s l [rc Hrc] Hl IH]; intros e; simpl.
  - exists e. split_and!; [done..|]. intros cid _. unfold enrolled. simpl.
    rewrite occurrences_nil. lia.
  - rewrite Hrc. destruct (count_courses_spec rc e) as [Hkeys Hcount].
    destruct (IH (count_courses rc e)) as (e' & -> & Hkeys' & Hcount').
    exists e'. split_and!; [done | congruence |].
    intros cid Hcid. rewrite Hcount' by by rewrite Hkeys.
    rewrite Hcount by done. rewrite enrolled_cons.
    unfold Student.get_registered_courses. rewrite Hrc. simpl. lia.
Qed.

Lemma count_enrollments_raise (students : list Student.t)
  (e : list (string * Z)) :
  Exists (λ s, Student.registered_courses s = None) students →
  count_enrollments students e = Raise KeyError.
Proof.
  intros Hex. revert e. induction Hex as [s l Hs|s l Hl IH]; intros e; simpl.
  - by rewrite Hs.
  - by destruct (Student.registered_courses s).
Qed.

Lemma enroll_spec (new_courses : list string) (e : list (string * Z)) :
  (∀ cid, cid ∈ new_courses → cid ∈ e.*1) →
  ∃ e', enroll new_courses e = Ok e' ∧
        e'.*1 = e.*1 ∧
        ∀ cid, count_of e' cid
               = (count_of e cid + occurrences cid new_courses)%Z.
Proof.
  revert e. induction new_courses as [|c l IH]; intros e Hkeys; simpl.
  - exists e. split_and!; [done..|]. intros cid. rewrite occurrences_nil. lia.
  - assert (c ∈ e.*1) as Hc by (apply Hkeys; left).
    pose proof Hc as [n Hn]%dict_get_keys.
    unfold subscript. rewrite Hn. simpl.
    destruct (IH (dict_set c (n + 1)%Z e)) as (e' & -> & Hkeys' & Hcount).
    { intros cid Hcid. rewrite dict_set_keys_in by done.
      apply Hkeys. by right. }
    exists e'. split_and!; [done | by rewrite Hkeys', dict_set_keys_in |].
    intros cid. rewrite Hcount, count_of_set, occurrences_cons.
    case_bool_decide; [subst; unfold count_of; rewrite Hn; simpl|]; lia.
Qed.

Lemma submseteq_NoDup {A} (l k : list A) : l ⊆+ k → NoDup k → NoDup l.
Proof.
  intros [k' Hk]%submseteq_Permutation Hnodup. rewrite Hk in Hnodup.
  by apply NoDup_app in Hnodup as [? _].
Qed.

Lemma set_registered_courses_same (s : Student.t) (current : list string) :
  Student.registered_courses s = Some current →
  Student.set_registered_courses current s = s.
Proof. destruct s. simpl. by intros ->. Qed.

Lemma assign_loop_spec (sample : nat → list string → nat → list string)
  (limits : list (string * Z)) (course_ids : list string) (i : nat)
  (students : list Student.t) (e : list (string * Z)) :
  valid_sample sample →
  NoDup course_ids →
  (∀ cid, cid ∈ course_ids → cid ∈ e.*1) →
  Forall (λ s, is_Some (Student.registered_courses s)) students →
  ∃ students' e',
    assign_loop sample limits course_ids i students e = Ok (students', e') ∧
    e'.*1 = e.*1 ∧
    Forall2 (assigned course_ids) students students' ∧
    ∀ cid,
      count_of e' cid
      = (count_of e cid + (enrolled students' cid - enrolled students cid))%Z ∧
      (count_of e' cid ≤ Z.max (count_of e cid) (count_of limits cid))%Z.
Proof.
  intros Hsample Hids Hkeys Hall. revert i e Hkeys.
  induction Hall as [|s rest [current Hrc] Hrest IH]; intros i e Hkeys.
  - exists [], e. split_and!; [done | done | constructor |].
    intros cid. split; lia.
  - cbn [assign_loop]. rewrite Hrc.
    set (available := open_courses limits e course_ids current).
    set (num_to_add := Z.min _ _).
    cbv zeta. case_bool_decide as Hnum.
    + assert (Z.to_nat num_to_add ≤ length available) as Hk by (unfold num_to_add; lia).
      destruct (Hsample i available (Z.to_nat num_to_add) Hk) as [Hlen Hsub].
      set (new_courses := sample i available (Z.to_nat num_to_add)) in *.
      assert (NoDup available) as Havailable by by apply NoDup_filter.
      assert (NoDup new_courses) as Hnew.
      { by eapply submseteq_NoDup. }
      assert (∀ cid, cid ∈ new_courses →
                (cid ∉ current) ∧
                (count_of e cid < count_of limits cid)%Z ∧
                cid ∈ course_ids) as Hin.
      { intros cid Hcid. eapply elem_of_submseteq in Hcid; [|exact Hsub].
        apply list_elem_of_filter in Hcid as [[? ?] ?]. done. }
      destruct (enroll_spec new_courses e) as (e1 & -> & Hkeys1 & Hcount1).
      { intros cid Hcid. apply Hkeys. by apply Hin. }
      cbn [mbind result_bind].
      destruct (IH (S i) e1) as (students' & e' & -> & Hkeys' & Hrel & Hcount').
      { intros cid Hcid. rewrite Hkeys1. by apply Hkeys. }
      cbn [mbind result_bind fst snd].
      eexists _, e'. split_and!; [done | congruence | |].
      * constructor; [|done]. exists current, new_courses.
        split_and!; [done | done | done | |].
        -- intros cid Hcid. split; by apply Hin.
        -- rewrite length_app, Hlen. unfold num_to_add in *. lia.
      * intros cid. destruct (Hcount' cid) as [-> Hbound].
        rewrite Hcount1 in *. rewrite !enrolled_cons.
        unfold Student.get_registered_courses at 1 2. rewrite Hrc.
        cbn [Student.set_registered_courses Student.registered_courses default].
        unfold id. rewrite occurrences_app. split; [lia|].
        rewrite (occurrences_NoDup cid new_courses) in * by done.
        case_bool_decide as Hcid; [|lia].
        destruct (Hin cid Hcid) as (_ & ? & _). lia.
    + destruct (IH (S i) e Hkeys) as (students' & e' & -> & Hkeys' & Hrel & Hcount').
      cbn [mbind result_bind fst snd].
      eexists _, e'. split_and!; [done | done | |].
      * constructor; [|done]. exists current, [].
        rewrite app_nil_r.
        split_and!; [done | by rewrite set_registered_courses_same
                    | constructor | by intros ? ?%elem_of_nil | lia].
      * intros cid. destruct (Hcount' cid) as [-> Hbound].
        rewrite !enrolled_cons. split; lia.
Qed.

Lemma registered_courses_dec (students : list Student.t) :
  Forall (λ s, is_Some (Student.registered_courses s)) students ∨
  Exists (λ s, Student.registered_courses s = None) students.
Proof.
  induction students as [|s l [IH|IH]].
  - left. constructor.
  - destruct (Student.registered_courses s) as [rc|] eqn:E.
    + left. constructor; [by rewrite E | done].
    + right. by left.
  - right. by right.
Qed.

Lemma assign_courses_raise (sample : nat → list string → nat → list string)
  (courses : list Course.t) (d : disk) :
  Exists (λ s, Student.registered_courses s = None) (students_json d) →
  assign_courses sample courses d = Raise KeyError.
Proof.
  intros Hex. unfold assign_courses.
  by rewrite count_enrollments_raise.
Qed.

(** What a run of the script with every key in place gives. *)
Lemma assign_courses_ok (sample : nat → list string → nat → list string)
  (courses : list Course.t) (d : disk) :
  valid_sample sample →
  Forall (λ s, is_Some (Student.registered_courses s)) (students_json d) →
  ∃ students',
    assign_courses sample courses d = Ok (Disk students' (S (writes d))) ∧
    Forall2 (assigned (course_limits courses).*1) (students_json d) students' ∧
    ∀ cid,
      (cid ∈ (course_limits courses).*1 →
       (enrolled students' cid
        ≤ Z.max (enrolled (students_json d) cid) (limit_of courses cid))%Z) ∧
      (cid ∉ (course_limits courses).*1 →
       enrolled students' cid = enrolled (students_json d) cid).
Proof.
  intros Hsample Hall. unfold assign_courses.
  destruct (count_enrollments_spec (students_json d)
              (zero_enrollments (course_limits courses)) Hall)
    as (e & -> & Hkeys & Hcount).
  rewrite zero_enrollments_keys in Hkeys, Hcount.
  cbn [mbind result_bind].
  destruct (assign_loop_spec sample (course_limits courses)
              (course_limits courses).*1 0 (students_json d) e Hsample)
    as (students' & e' & -> & Hkeys' & Hrel & Hcount');
    [apply course_limits_NoDup | by rewrite Hkeys | done |].
  cbn [mbind result_bind fst]. exists students'. split_and!; [done..|].
  intros cid. destruct (Hcount' cid) as [Heq Hbound]. split.
  - intros Hcid. specialize (Hcount cid Hcid).
    rewrite zero_enrollments_count in Hcount. unfold limit_of.
    fold (count_of (course_limits courses) cid). lia.
  - intros Hcid.
    rewrite (count_of_not_key e'), (count_of_not_key e) in Heq
      by congruence. lia.
Qed.

Lemma assign_courses_Ok_inv (sample : nat → list string → nat → list string)
  (courses : list Course.t) (d d' : disk) :
  assign_courses sample courses d = Ok d' →
  Forall (λ s, is_Some (Student.registered_courses s)) (students_json d).
Proof.
  intros Hok. destruct (registered_courses_dec (students_json d)) as [?|Hex];
    [done|].
  by rewrite (assign_courses_raise sample courses d Hex) in Hok.
Qed.

(** X16. The assignment script puts no course above its limit: after a
    run, a course of [courses.json] has at most as many registrations as
    its limit, or as many as it had before when that was more already;
    an identifier that is no course of [courses.json] has the
    registrations it had. *)
Theorem assign_courses_respects_limits
  (sample : nat → list string → nat → list string)
  (courses : list Course.t) (d d' : disk) (cid : string) :
  valid_sample sample →
  assign_courses sample courses d = Ok d' →
  (cid ∈ Course.course_id <$> courses →
   (enrolled (students_json d') cid
    ≤ Z.max (enrolled (students_json d) cid) (limit_of courses cid))%Z) ∧
  (cid ∉ Course.course_id <$> courses →
   enrolled (students_json d') cid = enrolled (students_json d) cid).
Proof.
  intros Hsample Hok.
  pose proof (assign_courses_Ok_inv sample courses d d' Hok) as Hall.
  destruct (assign_courses_ok sample courses d Hsample Hall)
    as (students' & Heq & _ & Hcount).
  rewrite Heq in Hok. injection Hok as <-. cbn [students_json].
  rewrite <- course_limits_keys. apply Hcount.
Qed.

(** X17. The assignment script keeps every registration and every other
    field: it writes the file once, with the same records in the same
    order, each with its list of courses extended by courses of
    [courses.json] that the record did not have, each added once, and
    with at most two courses unless the record had more before. *)
Theorem assign_courses_keeps_registrations
  (sample : nat → list string → nat → list string)
  (courses : list Course.t) (d d' : disk) :
  valid_sample sample →
  assign_courses sample courses d = Ok d' →
  writes d' = S (writes d) ∧
  Forall2 (assigned (Course.course_id <$> courses))
          (students_json d) (students_json d').
Proof.
  intros Hsample Hok.
  pose proof (assign_courses_Ok_inv sample courses d d' Hok) as Hall.
  destruct (assign_courses_ok sample courses d Hsample Hall)
    as (students' & Heq & Hrel & _).
  rewrite Heq in Hok. injection Hok as <-. split; [done|].
  cbn [students_json]. eapply Forall2_impl; [exact Hrel|].
  intros s s' (current & added & ? & ? & ? & Hin & ?).
  exists current, added. split_and!; try done.
  intros c Hc. destruct (Hin c Hc). split; [done|].
  by apply course_limits_keys.
Qed.

(** X18. The assignment script stops with [KeyError], before it writes,
    when a stored record has no [registered_courses] key; on the store
    that [load_students] leaves it runs to its end. *)
Theorem assign_courses_needs_registered_courses
  (sample : nat → list string → nat → list string)
  (courses : list Course.t) (d : disk) :
  (Exists (λ s, Student.registered_courses s = None) (students_json d) →
   assign_courses sample courses d = Raise KeyError) ∧
  (valid_sample sample →
   ∃ d', assign_courses sample courses (load_students d).2 = Ok d').
Proof.
  split; [apply assign_courses_raise|].
  intros Hsample.
  destruct (assign_courses_ok sample courses (load_students d).2 Hsample)
    as (students' & -> & _); [|by eauto].
  rewrite load_students_disk.
  eapply Forall_impl; [apply loaded_complete|].
  intros s Hs. by apply needs_backfill_false in Hs as [_ ?].
Qed.

(** X19. Right after a student has been added, the assignment script
    stops with [KeyError]: the record that [add_student] saves has no
    [registered_courses] key. *)
Theorem add_student_then_assign_raises
  (sample : nat → list string → nat → list string)
  (courses : list Course.t) (name roll_no msg : string) (marks : Q)
  (d : disk) :
  (add_student name roll_no marks d).1 = Success msg →
  assign_courses sample courses (add_student name roll_no marks d).2
  = Raise KeyError.
Proof.
  intros [_ ->]%add_student_Success. apply assign_courses_raise.
  cbn [students_json]. apply Exists_app. right. by left.
Qed.

(** The first [k] elements are a sample. *)
Lemma take_valid_sample : valid_sample (λ _ population k, take k population).
Proof.
  intros i population k Hk. split.
  - rewrite length_take. lia.
  - apply sublist_submseteq, sublist_take.
Qed.

Lemma assign_courses_respects_limits_witness :
  (enrolled [Student.mk "A" "S1" 55 (Some "F") (Some ["CS101"; "CS102"]) None None;
             Student.mk "B" "S2" 65 (Some "D") (Some ["CS102"]) None None]
            "CS101"
   ≤ Z.max (enrolled [Student.mk "A" "S1" 55 (Some "F") (Some []) None None;
                      Student.mk "B" "S2" 65 (Some "D") (Some []) None None]
                     "CS101")
           (limit_of [Course.mk "CS101" "Programming" 1;
                      Course.mk "CS102" "Databases" 5] "CS101"))%Z.
Proof.
  refine (proj1 (assign_courses_respects_limits
            (λ _ population k, take k population)
            [Course.mk "CS101" "Programming" 1; Course.mk "CS102" "Databases" 5]
            (Disk [Student.mk "A" "S1" 55 (Some "F") (Some []) None None;
                   Student.mk "B" "S2" 65 (Some "D") (Some []) None None] 0)
            (Disk [Student.mk "A" "S1" 55 (Some "F") (Some ["CS101"; "CS102"])
                     None None;
                   Student.mk "B" "S2" 65 (Some "D") (Some ["CS102"]) None None] 1)
            "CS101" take_valid_sample _) _).
  - vm_compute. reflexivity.
  - simpl. left.
Defined.

Lemma assign_courses_keeps_registrations_witness :
  Forall2 (assigned ["CS101"; "CS102"])
    [Student.mk "A" "S1" 55 (Some "F") (Some []) None None;
     Student.mk "B" "S2" 65 (Some "D") (Some []) None None]
    [Student.mk "A" "S1" 55 (Some "F") (Some ["CS101"; "CS102"]) None None;
     Student.mk "B" "S2" 65 (Some "D") (Some ["CS102"]) None None].
Proof.
  refine (proj2 (assign_courses_keeps_registrations
            (λ _ population k, take k population)
            [Course.mk "CS101" "Programming" 1; Course.mk "CS102" "Databases" 5]
            (Disk [Student.mk "A" "S1" 55 (Some "F") (Some []) None None;
                   Student.mk "B" "S2" 65 (Some "D") (Some []) None None] 0)
            (Disk [Student.mk "A" "S1" 55 (Some "F") (Some ["CS101"; "CS102"])
                     None None;
                   Student.mk "B" "S2" 65 (Some "D") (Some ["CS102"]) None None] 1)
            take_valid_sample _)).
  vm_compute. reflexivity.
Defined.

Lemma assign_courses_needs_registered_courses_witness :
  assign_courses (λ _ population k, take k population)
    [Course.mk "CS101" "Programming" 1]
    (Disk [Student.mk "A" "S1" 55 (Some "F") None None None] 0)
  = Raise KeyError.
Proof.
  refine (proj1 (assign_courses_needs_registered_courses
            (λ _ population k, take k population)
            [Course.mk "CS101" "Programming" 1]
            (Disk [Student.mk "A" "S1" 55 (Some "F") None None None] 0)) _).
  left. reflexivity.
Defined.

Lemma add_student_then_assign_raises_witness :
  assign_courses (λ _ population k, take k population)
    [Course.mk "CS101" "Programming" 1]
    (add_student "A" "S1" 55 (Disk [] 0)).2
  = Raise KeyError.
Proof.
  exact (add_student_then_assign_raises (λ _ population k, take k population)
           [Course.mk "CS101" "Programming" 1] "A" "S1"
           "Student 'A' added successfully!" 55 (Disk [] 0) eq_refl).
Defined.

(** * The generated records *)

Lemma generate_calculate_grade (marks : Q) :
  GenerateStudents.calculate_grade marks = calculate_grade marks.
Proof. reflexivity. Qed.

Lemma student_of_generated (today : string) (i : nat) (draw : Draw.t) :
  student_of (GenerateStudents.student today i draw)
  = Some (generated_record i draw).
Proof. reflexivity. Qed.

Lemma mapM_student_of_generated (random : nat → Draw.t) (today : string)
  (l : list nat) :
  mapM student_of ((λ i, GenerateStudents.student today i (random i)) <$> l)
  = Some ((λ i, generated_record i (random i)) <$> l).
Proof.
  apply mapM_Some, Forall2_fmap, Forall_Forall2_diag, Forall_forall.
  intros i _. apply student_of_generated.
Qed.

Lemma backfilled_generated (float_of_str : string → option Q)
  (today : string) (i : nat) (draw : Draw.t) :
  backfilled float_of_str (GenerateStudents.student today i draw)
  = GenerateStudents.student today i draw ++ [("registered_courses", JArr [])].
Proof. reflexivity. Qed.

(** X20. Whatever the generator draws, the script writes 70 records that
    the handlers can read, with the roll numbers [S001] to [S070], which
    are pairwise distinct, each with the grade that [calculate_grade]
    gives its marks and without a [registered_courses] key; the marks are
    between 0 and 100 when the draws are. *)
Theorem generated_students_spec (random : nat → Draw.t) (today : string) :
  ∃ students,
    mapM student_of (GenerateStudents.students random today) = Some students ∧
    length students = 70 ∧
    roll_numbers students = (λ i, "S" +:+ pad3 i) <$> seq 1 70 ∧
    NoDup (roll_numbers students) ∧
    Forall (λ s, grade_derived s ∧ Student.registered_courses s = None ∧
                 Student.course_grades s = None ∧ Student.attendance s = None)
           students ∧
    ((∀ i, valid_draw (random i)) → Forall within_bounds students).
Proof.
  exists ((λ i, generated_record i (random i)) <$> seq 1 70).
  assert (roll_numbers ((λ i, generated_record i (random i)) <$> seq 1 70)
          = (λ i, "S" +:+ pad3 i) <$> seq 1 70) as Hrolls.
  { unfold roll_numbers. rewrite <- list_fmap_compose. done. }
  split_and!.
  - apply mapM_student_of_generated.
  - by rewrite length_fmap, length_seq.
  - exact Hrolls.
  - rewrite Hrolls. apply (bool_decide_unpack _). vm_compute. exact I.
  - apply Forall_fmap, Forall_forall. intros i _. done.
  - intros Hvalid. apply Forall_fmap, Forall_forall. intros i _.
    destruct (Hvalid i) as (_ & _ & Hmarks & _).
    split; [exact Hmarks | constructor].
Qed.

Lemma generated_students_spec_witness :
  Forall within_bounds
    ((λ i, generated_record i (Draw.mk "John" "Smith" 55 1234567890))
       <$> seq 1 70).
Proof.
  destruct (generated_students_spec
              (λ _, Draw.mk "John" "Smith" 55 1234567890) "2024-01-15")
    as (students & Hread & _ & _ & _ & _ & Hbounds).
  unfold GenerateStudents.students in Hread.
  rewrite mapM_student_of_generated in Hread. injection Hread as <-.
  apply Hbounds. intros _. repeat split.
  - left.
  - left.
  - unfold Qle. simpl. lia.
  - unfold Qle. simpl. lia.
  - simpl. lia.
  - simpl. lia.
Defined.

(** X21. The first [load_students] on the file that the generator wrote
    adds an empty [registered_courses] list at the end of each of the 70
    records, changes nothing else, and writes the file back. *)
Theorem load_after_generate (float_of_str : string → option Q)
  (random : nat → Draw.t) (today : string) (f : file) :
  let loaded :=
    JArr (JObj <$> ((λ o, o ++ [("registered_courses", JArr [])])
                      <$> GenerateStudents.students random today)) in
  load_students_file float_of_str (GenerateStudents.main random today f)
  = (Ok loaded, Parsed loaded).
Proof.
  cbn zeta. unfold GenerateStudents.main.
  rewrite load_students_file_objs.
  2:{ unfold GenerateStudents.students.
      induction (seq 1 70) as [|i l IH]; [done|]. by rewrite fmap_cons. }
  by rewrite (list_fmap_ext (backfilled float_of_str)
                (λ o, o ++ [("registered_courses", JArr [])])
                (GenerateStudents.students random today))
    by (intros ? o [i [-> _]]%list_elem_of_lookup_2%list_elem_of_fmap;
        apply backfilled_generated).
Qed.

(** X22. On the records of a generated file the assignment script stops
    with [KeyError]: they have no [registered_courses] key until the
    dashboard has loaded them once. *)
Theorem assign_after_generate_raises
  (sample : nat → list string → nat → list string)
  (courses : list Course.t) (random : nat → Draw.t) (today : string)
  (students : list Student.t) (writes : nat) :
  mapM student_of (GenerateStudents.students random today) = Some students →
  assign_courses sample courses (Disk students writes) = Raise KeyError.
Proof.
  unfold GenerateStudents.students. rewrite mapM_student_of_generated.
  intros [= <-]. apply assign_courses_raise. by left.
Qed.

Lemma assign_after_generate_raises_witness :
  assign_courses (λ _ population k, take k population)
    [Course.mk "CS101" "Programming" 30]
    (Disk ((λ i, generated_record i (Draw.mk "John" "Smith" 55 1234567890))
             <$> seq 1 70) 0)
  = Raise KeyError.
Proof.
  exact (assign_after_generate_raises (λ _ population k, take k population)
           [Course.mk "CS101" "Programming" 30]
           (λ _, Draw.mk "John" "Smith" 55 1234567890) "2024-01-15" _ 0
           (mapM_student_of_generated _ _ _)).
Defined.

(** * Loading twice, on any file *)

Lemma lacks_key_backfilled (float_of_str : string → option Q)
  (o : list (string * json)) :
  lacks_key (backfilled float_of_str o) = false.
Proof.
  destruct (backfilled_spec float_of_str o) as (Hg & Hrc & Hother & _).
  unfold lacks_key. apply orb_false_iff. split.
  - destruct (dict_has "grade" (backfilled float_of_str o)) eqn:E; [done|].
    apply dict_has_none in E. rewrite E in Hg. simpl.
    apply dict_has_none. rewrite Hother by done.
    destruct (dict_get "grade" o); [done|]. by destruct (dict_get "marks" o).
  - apply negb_false_iff, dict_has_get. by rewrite Hrc.
Qed.

Lemma overflowing_backfilled (float_of_str : string → option Q)
  (o : list (string * json)) :
  overflowing (backfilled float_of_str o) = false.
Proof.
  destruct (backfilled_spec float_of_str o) as (Hg & _ & Hother & _).
  unfold overflowing. rewrite Hg, Hother by done.
  destruct (dict_get "grade" o); [done|]. by destruct (dict_get "marks" o).
Qed.

Lemma backfill_json_settled (float_of_str : string → option Q)
  (s s' : json) (r r' : bool) :
  backfill_json float_of_str s r = Ok (s', r') →
  ∀ r'', backfill_json float_of_str s' r'' = Ok (s', r'').
Proof.
  intros H r''. destruct s as [|b|q|k|items|o].
  - done.
  - done.
  - done.
  - revert H. unfold backfill_json. simpl.
    destruct (bool_decide (is_Some (index 0 "grade" k))) eqn:E1; simpl.
    + destruct (bool_decide (is_Some (index 0 "registered_courses" k))) eqn:E2;
        simpl; [|done].
      intros [= <- <-]. simpl. rewrite E1. simpl. by rewrite E2.
    + destruct (bool_decide (is_Some (index 0 "marks" k))) eqn:E3; simpl;
        [done|].
      destruct (bool_decide (is_Some (index 0 "registered_courses" k))) eqn:E2;
        simpl; [|done].
      intros [= <- <-]. simpl. rewrite E1. simpl. rewrite E3. simpl.
      by rewrite E2.
  - revert H. unfold backfill_json. simpl.
    destruct (existsb (is_str "grade") items) eqn:E1; simpl.
    + destruct (existsb (is_str "registered_courses") items) eqn:E2;
        simpl; [|done].
      intros [= <- <-]. simpl. rewrite E1. simpl. by rewrite E2.
    + destruct (existsb (is_str "marks") items) eqn:E3; simpl; [done|].
      destruct (existsb (is_str "registered_courses") items) eqn:E2;
        simpl; [|done].
      intros [= <- <-]. simpl. rewrite E1. simpl. rewrite E3. simpl.
      by rewrite E2.
  - rewrite backfill_json_obj in H.
    destruct (overflowing o); [done|]. injection H as <- <-.
    rewrite backfill_json_obj, overflowing_backfilled, lacks_key_backfilled,
      orb_false_r.
    by rewrite backfilled_id by apply lacks_key_backfilled.
Qed.

Lemma backfill_loop_settled (float_of_str : string → option Q)
  (items items' : list json) (r r' : bool) :
  backfill_loop float_of_str items r = Ok (items', r') →
  ∀ r'', backfill_loop float_of_str items' r'' = Ok (items', r'').
Proof.
  revert items' r r'. induction items as [|s rest IH]; intros items' r r'.
  - by intros [= <- <-].
  - cbn [backfill_loop].
    destruct (backfill_json float_of_str s r) as [[s1 r1]|e] eqn:Es; [|done].
    cbn [mbind result_bind fst snd].
    destruct (backfill_loop float_of_str rest r1) as [[rest1 r2]|e] eqn:Er;
      [|done].
    cbn [mbind result_bind fst snd]. intros [= <- <-] r''.
    cbn [backfill_loop].
    rewrite (backfill_json_settled _ _ _ _ _ Es r'').
    cbn [mbind result_bind fst snd].
    by rewrite (IH _ _ _ Er r'').
Qed.

(** X23. On any backing file, loading a second time gives what the first
    load gave, value or exception, and leaves the file that the first
    load left: the first load has written back every key it filled in. *)
Theorem load_students_file_twice (float_of_str : string → option Q)
  (f : file) :
  load_students_file float_of_str (load_students_file float_of_str f).2
  = load_students_file float_of_str f.
Proof.
  destruct f as [| | |v]; try reflexivity.
  unfold load_students_file at 2 3. cbn [init_data_file read_json].
  destruct (py_iter v) as [items|e] eqn:Eiter;
    cbn [mbind result_bind]; [|unfold load_students_file; cbn; by rewrite Eiter].
  destruct (backfill_loop float_of_str items false) as [[items' rerecord]|e]
    eqn:Eloop; [|unfold load_students_file; cbn; by rewrite Eiter; cbn; rewrite Eloop].
  destruct rerecord;
    [|unfold load_students_file; cbn; rewrite Eiter; cbn; by rewrite Eloop].
  cbn [snd]. destruct v as [| | | |items0|]; simpl in Eiter;
    try (unfold load_students_file; cbn; injection Eiter as <-;
         cbn; by rewrite Eloop).
  - done.
  - done.
  - done.
  - injection Eiter as ->. cbn [after_loop].
    unfold load_students_file. cbn.
    by rewrite (backfill_loop_settled _ _ _ _ _ Eloop false).
Qed.

(** * Attendance reports *)

Lemma pct_in_range (p t : Z) :
  (0 ≤ p ≤ t)%Z → (0 < t)%Z →
  in_range (inject_Z p / inject_Z t * 100)%Q.
Proof.
  intros [Hp Hpt] Ht.
  assert (0 < inject_Z t)%Q as Ht' by (change 0%Q with (inject_Z 0); by rewrite <- Zlt_Qlt).
  assert (0 <= inject_Z p / inject_Z t)%Q as H0.
  { apply Qle_shift_div_l; [done|]. rewrite Qmult_0_l.
    change 0%Q with (inject_Z 0). by rewrite <- Zle_Qle. }
  assert (inject_Z p / inject_Z t <= 1)%Q as H1.
  { apply Qle_shift_div_r; [done|]. rewrite Qmult_1_l. by rewrite <- Zle_Qle. }
  unfold in_range. split; lra.
Qed.

Lemma report_row_spec (course_id : string) (student : Student.t) :
  let row := report_row course_id student in
  ReportRow.name row = Student.name student ∧
  ReportRow.roll_no row = Student.roll_no student ∧
  ReportRow.total_classes row = Z.of_nat (length (entries student course_id)) ∧
  ReportRow.present row
  = Z.of_nat (length (filter (λ r, Entry.status r = "Present")
                        (entries student course_id))) ∧
  (0 ≤ ReportRow.present row ≤ ReportRow.total_classes row)%Z ∧
  (ReportRow.present row + ReportRow.absent row
   = ReportRow.total_classes row)%Z ∧
  in_range (ReportRow.attendance_pct row) ∧
  (ReportRow.total_classes row = 0%Z → ReportRow.attendance_pct row = 0%Q).
Proof.
  cbn zeta. unfold report_row. fold (entries student course_id).
  cbn [ReportRow.name ReportRow.roll_no ReportRow.total_classes
       ReportRow.present ReportRow.absent ReportRow.attendance_pct].
  pose proof (length_filter (λ r, Entry.status r = "Present")
                (entries student course_id)) as Hle.
  split_and!; try done; try lia.
  - case_bool_decide as Ht.
    + apply pct_in_range; lia.
    + split; unfold Qle; simpl; lia.
  - intros H0. by rewrite bool_decide_eq_false_2 by lia.
Qed.



Lemma upsert_fresh (new : Entry.t) (records : list Entry.t) :
  on_date (Entry.date new) records = [] → upsert new records = records ++ [new].
Proof.
  unfold on_date. induction records as [|r l IH]; [done|].
  rewrite filter_cons. cbn [upsert]. case_decide as Hr; [done|].
  intros Hl. rewrite bool_decide_eq_false_2 by done. by rewrite IH.
Qed.

Lemma upsert_stored (new : Entry.t) (records : list Entry.t) :
  on_date (Entry.date new) records ≠ [] →
  ∃ before old after,
    records = before ++ old :: after ∧
    upsert new records = before ++ new :: after.
Proof.
  unfold on_date. induction records as [|r l IH]; [done|].
  rewrite filter_cons. cbn [upsert]. case_decide as Hr.
  - intros _. rewrite bool_decide_eq_true_2 by done. by exists [], r, l.
  - intros Hl. rewrite bool_decide_eq_false_2 by done.
    destruct (IH Hl) as (before & old & after & -> & ->).
    by exists (r :: before), old, after.
Qed.

Lemma report_row_other_course (now : string) (student : Student.t)
  (course_id date status other : string) :
  other ≠ course_id →
  report_row other (mark_attendance now student course_id date status)
  = report_row other student.
Proof.
  intros Hne.
  pose proof (mark_attendance_other_course now student course_id date status
                other Hne) as Hentries.
  destruct (mark_attendance_fields now student course_id date status)
    as (Hname & Hroll & _).
  unfold report_row. fold (entries student other).
  fold (entries (mark_attendance now student course_id date status) other).
  by rewrite Hentries, Hname, Hroll.
Qed.

(** X25. What marking does to the report row of the marked student.  On
    a date that the course's list does not hold yet, the number of classes
    grows by one, and the present count by one when the status is
    "Present"; on a date that it holds, the number of classes stays and
    the present count moves by at most one.  The rows of the student for
    other courses stay as they are. *)
Theorem marking_shows_in_report (now : string) (student : Student.t)
  (course_id date status : string) :
  let before := report_row course_id student in
  let after :=
    report_row course_id (mark_attendance now student course_id date status) in
  (on_date date (entries student course_id) = [] →
     ReportRow.total_classes after = (ReportRow.total_classes before + 1)%Z ∧
     ReportRow.present after
     = (ReportRow.present before
        + if bool_decide (status = "Present") then 1 else 0)%Z) ∧
  (on_date date (entries student course_id) ≠ [] →
     ReportRow.total_classes after = ReportRow.total_classes before ∧
     (ReportRow.present before - 1 ≤ ReportRow.present after
      ≤ ReportRow.present before + 1)%Z) ∧
  (∀ other, other ≠ course_id →
     report_row other (mark_attendance now student course_id date status)
     = report_row other student).
Proof.
  cbn zeta.
  destruct (report_row_spec course_id student) as (_ & _ & -> & -> & _).
  destruct (report_row_spec course_id
              (mark_attendance now student course_id date status))
    as (_ & _ & -> & -> & _).
  rewrite mark_attendance_entries. split_and!.
  - intros Hfresh. rewrite upsert_fresh by done.
    rewrite filter_app, !length_app, filter_cons, filter_nil.
    cbn [Entry.status]. split; [simpl; lia|].
    case_decide; [rewrite bool_decide_eq_true_2 by done
                 |rewrite bool_decide_eq_false_2 by done]; simpl; lia.
  - intros Hstored. destruct (upsert_stored (Entry.mk date status now)
      (entries student course_id) Hstored) as (l1 & old & l2 & -> & ->).
    rewrite !filter_app, !filter_cons, !length_app.
    split; [simpl; lia|].
    repeat case_decide; simpl; lia.
  - intros other Hne. by apply report_row_other_course.
Qed.

Lemma marking_shows_in_report_witness :
  ReportRow.total_classes
    (report_row "CS101"
       (mark_attendance "09:00:00"
          (Student.mk "A" "S1" 55 (Some "F") (Some ["CS101"]) None None)
          "CS101" "2024-01-15" "Present"))
  = (ReportRow.total_classes
       (report_row "CS101"
          (Student.mk "A" "S1" 55 (Some "F") (Some ["CS101"]) None None))
     + 1)%Z.
Proof.
  exact (proj1 (proj1 (marking_shows_in_report "09:00:00"
           (Student.mk "A" "S1" 55 (Some "F") (Some ["CS101"]) None None)
           "CS101" "2024-01-15" "Present") eq_refl)).
Defined.

(** * Statistics *)

Lemma fold_max_spec (x : Q) (xs : list Q) :
  Forall (λ y, (y <= foldl py_max x xs)%Q) (x :: xs).
Proof.
  assert (∀ a b, (a <= py_max a b)%Q ∧ (b <= py_max a b)%Q) as Hmax.
  { intros a b. unfold py_max. destruct (py_lt a b) eqn:E.
    - apply py_lt_spec in E. lra.
    - assert (¬ (a < b)%Q) by (rewrite <- py_lt_spec; congruence). lra. }
  revert x. induction xs as [|y ys IH]; intros x; simpl.
  - constructor; [lra | constructor].
  - specialize (IH (py_max x y)). inversion IH as [|? ? Hhead Htail]; subst.
    destruct (Hmax x y). constructor; [lra|].
    constructor; [lra | done].
Qed.

Lemma fold_min_spec (x : Q) (xs : list Q) :
  Forall (λ y, (foldl py_min x xs <= y)%Q) (x :: xs).
Proof.
  assert (∀ a b, (py_min a b <= a)%Q ∧ (py_min a b <= b)%Q) as Hmin.
  { intros a b. unfold py_min. destruct (py_lt b a) eqn:E.
    - apply py_lt_spec in E. lra.
    - assert (¬ (b < a)%Q) by (rewrite <- py_lt_spec; congruence). lra. }
  revert x. induction xs as [|y ys IH]; intros x; simpl.
  - constructor; [lra | constructor].
  - specialize (IH (py_min x y)). inversion IH as [|? ? Hhead Htail]; subst.
    destruct (Hmin x y). constructor; [lra|].
    constructor; [lra | done].
Qed.

Lemma fold_max_elem_of (x : Q) (xs : list Q) : foldl py_max x xs ∈ x :: xs.
Proof.
  revert x. induction xs as [|y ys IH]; intros x; simpl; [left|].
  specialize (IH (py_max x y)). unfold py_max in *.
  destruct (py_lt x y).
  - by right.
  - apply elem_of_cons in IH as [->|?]; [left | by right; right].
Qed.

Lemma fold_min_elem_of (x : Q) (xs : list Q) : foldl py_min x xs ∈ x :: xs.
Proof.
  revert x. induction xs as [|y ys IH]; intros x; simpl; [left|].
  specialize (IH (py_min x y)). unfold py_min in *.
  destruct (py_lt y x).
  - by right.
  - apply elem_of_cons in IH as [->|?]; [left | by right; right].
Qed.

Lemma calculate_grade_F (marks : Q) :
  calculate_grade marks = "F" ↔ (marks < 60)%Q.
Proof.
  grade_cases marks; split; intros; first [done | lra | exfalso; lra].
Qed.

Lemma status_counts_total (students : list Student.t) :
  status_count "Pass" students + status_count "Fail" students = length students.
Proof.
  unfold status_count. induction students as [|s l IH]; [done|].
  rewrite !filter_cons.
  assert (status_of s = "Pass" ∨ status_of s = "Fail") as [Hs|Hs]
    by (unfold status_of; case_bool_decide; auto).
  - rewrite decide_True, decide_False by (by rewrite ?Hs). simpl. lia.
  - rewrite decide_False, decide_True by (by rewrite ?Hs). simpl. lia.
Qed.

(** X26. The metrics of the statistics page: the passing and failing
    counts add up to the number of students, the lowest and the highest
    marks are marks of the list that bound all the others, the average is
    what the mean of the column returns, and when every grade is the one
    derived from the marks, the failing students are those with marks
    below 60.  The page saves nothing beyond what [load_students]
    saves. *)
Theorem show_statistics_metrics (series_mean : list Q → Q) (d : disk)
  (m : Statistics.t) :
  (show_statistics series_mean d).1 = Some m →
  let students := (load_students d).1 in
  (show_statistics series_mean d).2 = (load_students d).2 ∧
  Statistics.total_students m = length students ∧
  Statistics.passing m + Statistics.failing m = length students ∧
  Statistics.avg_marks m = series_mean (Student.marks <$> students) ∧
  Statistics.lowest m ∈ Student.marks <$> students ∧
  Statistics.highest m ∈ Student.marks <$> students ∧
  Forall (λ s, (Statistics.lowest m <= Student.marks s
                <= Statistics.highest m)%Q) students ∧
  (Forall grade_derived students →
   Statistics.failing m
   = length (filter (λ s, py_lt (Student.marks s) 60 = true) students)).
Proof.
  unfold show_statistics. rewrite bind_load.
  destruct (load_students d) as [students d']. cbn [fst snd].
  destruct students as [|first rest] eqn:Es; [done|]. rewrite <- Es.
  intros [= <-].
  cbn [Statistics.total_students Statistics.passing Statistics.failing
       Statistics.lowest Statistics.highest Statistics.avg_marks].
  assert (Forall (λ s, (foldl py_min (Student.marks first) (Student.marks <$> rest)
                        <= Student.marks s
                        <= foldl py_max (Student.marks first)
                             (Student.marks <$> rest))%Q) students) as Hbetween.
  { pose proof (fold_max_spec (Student.marks first) (Student.marks <$> rest))
      as Hmax.
    pose proof (fold_min_spec (Student.marks first) (Student.marks <$> rest))
      as Hmin.
    apply Forall_forall. intros s Hs.
    assert (Student.marks s ∈ Student.marks first :: (Student.marks <$> rest))
      as Hin.
    { rewrite <- fmap_cons, <- Es. apply list_elem_of_fmap. eauto. }
    eapply Forall_forall in Hmax; [|exact Hin].
    eapply Forall_forall in Hmin; [|exact Hin]. done. }
  split; [done|]. split; [done|]. split; [apply status_counts_total|].
  split; [done|].
  split; [rewrite Es, fmap_cons; apply fold_min_elem_of|].
  split; [rewrite Es, fmap_cons; apply fold_max_elem_of|].
  split; [done|].
  - intros Hderived. unfold status_count. clear Es Hbetween.
    induction Hderived as [|s l Hs _ IH]; [done|].
    assert (status_of s = "Fail" ↔ py_lt (Student.marks s) 60 = true) as Hiff.
    { unfold status_of. unfold grade_derived in Hs. rewrite Hs.
      rewrite py_lt_spec, <- calculate_grade_F.
      case_bool_decide as Hg; split; try done.
      - intros HF. by rewrite HF in Hg.
      - intros _. congruence. }
    rewrite !filter_cons.
    destruct (decide (status_of s = "Fail")),
             (decide (py_lt (Student.marks s) 60 = true));
      simpl; [by rewrite IH | tauto | tauto | done].
Qed.

(** The average is a rounded number and need not lie between the lowest
    and the highest marks: three students with marks [0.1] have the
    average [0.10000000000000002]. *)
Example rounded_average_above_highest :
  ∃ m,
    (show_statistics (mean_of double)
       (Disk [Student.mk "A" "S1" (round_double (1 # 10)) (Some "F") (Some [])
                None None;
              Student.mk "B" "S2" (round_double (1 # 10)) (Some "F") (Some [])
                None None;
              Student.mk "C" "S3" (round_double (1 # 10)) (Some "F") (Some [])
                None None] 0)).1
    = Some m ∧
    (Statistics.highest m < Statistics.avg_marks m)%Q.
Proof. eexists. split; [reflexivity|]. vm_compute. reflexivity. Qed.

Lemma show_statistics_metrics_witness :
  ∃ m,
    (show_statistics (mean_of double)
       (Disk [Student.mk "A" "S1" 55 (Some "F") (Some []) None None;
              Student.mk "B" "S2" 95 (Some "A") (Some []) None None] 0)).1
    = Some m ∧
    Statistics.passing m + Statistics.failing m = 2.
Proof.
  eexists. split; [reflexivity|].
  exact (proj1 (proj2 (proj2 (show_statistics_metrics (mean_of double)
    (Disk [Student.mk "A" "S1" 55 (Some "F") (Some []) None None;
           Student.mk "B" "S2" 95 (Some "A") (Some []) None None] 0)
    _ eq_refl)))).
Defined.

(** * Updating twice *)

Lemma fmap_alter_same {A B} (g : A → B) (f : A → A) (i : nat) (l : list A) :
  (∀ x, g (f x) = g x) → g <$> alter f i l = g <$> l.
Proof.
  intros Hg. apply list_eq. intros j. rewrite !list_lookup_fmap.
  destruct (decide (i = j)) as [->|Hne].
  - rewrite list_lookup_alter_eq. destruct (l !! j); simpl; by rewrite ?Hg.
  - by rewrite list_lookup_alter_ne.
Qed.

Lemma list_find_alter_same {A} (P : A → Prop) `{!∀ x, Decision (P x)}
  (f : A → A) (i : nat) (l : list A) (x : A) :
  (∀ y, P (f y) ↔ P y) →
  list_find P l = Some (i, x) →
  list_find P (alter f i l) = Some (i, f x).
Proof.
  intros HP (Hi & Hx & Hfirst)%list_find_Some. apply list_find_Some.
  split_and!.
  - by rewrite list_lookup_alter_eq, Hi.
  - by apply HP.
  - intros j y Hj Hlt. rewrite list_lookup_alter_ne in Hj by lia.
    by eapply Hfirst.
Qed.

(** X27. Pressing "Update Marks" again with the same student and the
    same marks, after an update that was saved, changes nothing: the page
    reports that the marks are unchanged and the file is not written. *)
Theorem update_student_marks_again (selected : string) (new_marks : Q)
  (d : disk) (msg : string) :
  (update_student_marks selected new_marks true d).1 = Success msg →
  update_student_marks selected new_marks true
    (update_student_marks selected new_marks true d).2
  = (Info "Marks unchanged.",
     (update_student_marks selected new_marks true d).2).
Proof.
  pose proof (loaded_complete d) as Hcomplete. revert Hcomplete.
  unfold update_student_marks at 1 3 4. rewrite bind_load.
  destruct (load_students d) as [students d']. cbn [fst snd].
  intros Hcomplete.
  destruct students as [|s0 l] eqn:Es; [done|]. rewrite <- Es in *.
  assert (students ≠ []) as Hne by by rewrite Es. clear Es s0 l.
  destruct (selectbox _ selected) as [roll_no|] eqn:Esel; [|done].
  destruct (list_find _ _) as [[i target]|] eqn:Ef; [|done].
  destruct (py_ne _ _); [|done].
  rewrite save_then. cbn [fst snd]. intros _.
  set (f := λ s, Student.set_grade (calculate_grade new_marks)
                   (Student.set_marks new_marks s)).
  unfold update_student_marks. rewrite bind_load.
  rewrite (load_students_clean (Disk (alter f i students) _)).
  2:{ apply needs_backfill_Forall, Forall_forall.
      intros s' [Hs'|(s1 & Hs1 & ->)]%elem_of_alter.
      - by eapply Forall_forall in Hcomplete.
      - eapply Forall_forall in Hcomplete; [|exact Hs1].
        apply needs_backfill_false in Hcomplete as [_ Hrc].
        apply needs_backfill_false. split; [by eexists | done]. }
  cbn [fst snd students_json].
  destruct (alter f i students) as [|s1 l1] eqn:Ea.
  { apply (f_equal length) in Ea. rewrite length_alter in Ea.
    by destruct students. }
  rewrite <- Ea. clear Ea s1 l1.
  rewrite (fmap_alter_same (λ s, (student_label s, Student.roll_no s)) f)
    by done.
  rewrite Esel.
  rewrite (list_find_alter_same _ f i students target) by done.
  cbn [f Student.marks Student.set_grade Student.set_marks].
  unfold py_ne. by rewrite (proj2 (Qeq_bool_iff _ _) (Qeq_refl new_marks)).
Qed.

Lemma update_student_marks_again_witness :
  update_student_marks "S1 - A" 91 true
    (update_student_marks "S1 - A" 91 true
       (Disk [Student.mk "A" "S1" 55 (Some "F") (Some []) None None] 0)).2
  = (Info "Marks unchanged.",
     (update_student_marks "S1 - A" 91 true
        (Disk [Student.mk "A" "S1" 55 (Some "F") (Some []) None None] 0)).2).
Proof.
  exact (update_student_marks_again "S1 - A" 91
           (Disk [Student.mk "A" "S1" 55 (Some "F") (Some []) None None] 0)
           "Updated marks" eq_refl).
Defined.
